(** * Employee Management API: a shallow embedding of the request handlers

    The development follows [app/main.py], [app/models.py], [app/schemas.py]
    and [app/database.py].  The relational store is the SQLite database of
    the default [DATABASE_URL]: a pair of tables kept as lists of rows in
    rowid order, which is the order of a table scan; integers bound to a
    statement must fit SQLite's 64-bit INTEGER and a [Numeric] column is
    stored as a binary64 REAL.  The ORM session is explicit state passed
    through every handler; [datetime.now(UTC)] is an explicit argument. *)

From Stdlib Require Import ZArith List Bool String Ascii Lia Sorted Permutation DecimalString.
Import ListNotations.
Local Open Scope Z_scope.
Local Open Scope string_scope.
Local Open Scope list_scope.

(** ** Python values and strings *)

(** [str(n)] for an [int]. *)
Definition str_int (z : Z) : string := NilZero.string_of_int (Z.to_int z).

(** [a / b] rounded to the nearest integer, a tie to the even one ([0 < b]). *)
Definition round_half_even (a b : Z) : Z :=
  let q := a / b in
  let r := a mod b in
  if (2 * r <? b)%Z then q
  else if (b <? 2 * r)%Z then q + 1
  else if Z.even q then q else q + 1.

Fixpoint zeros (n : nat) : string :=
  match n with
  | O => EmptyString
  | S n' => String "0" (zeros n')
  end.

(** Python's [decimal.Decimal]: [coefficient * 10 ^ exponent], or an
    infinity.  The sign of a zero is not kept and there is no NaN. *)
Module Decimal.

Inductive t : Type :=
| Finite (coefficient exponent : Z)
| Infinity
| NegInfinity.

(** [a == b] compares the numbers, not the way they are written. *)
Definition eqb (a b : t) : bool :=
  match a, b with
  | Finite c x, Finite c' x' =>
      let low := Z.min x x' in
      (c * 10 ^ (x - low) =? c' * 10 ^ (x' - low))%Z
  | Infinity, Infinity => true
  | NegInfinity, NegInfinity => true
  | _, _ => false
  end.

(** The default context: 28 significant digits, exponents up to [Emax],
    rounding half to even. *)
Definition prec : Z := 28.
Definition Emax : Z := 999999.
Definition Etiny : Z := -1000026.
Definition Etop : Z := Emax - prec + 1.

(** The number of digits of the coefficient. *)
Definition digits (c : Z) : Z := Z.of_nat (String.length (str_int (Z.abs c))).

(** The rounding of a finite number to the context, as the unary plus does
    it; [None] when the context signals [Overflow], which raises. *)
Definition round_to_context (c x : Z) : option (Z * Z) :=
  if (c =? 0)%Z then Some (0, Z.min (Z.max x Etiny) Emax)
  else
    let exp_min := digits c + x - prec in
    if (Etop <? exp_min)%Z then None
    else
      let exp_min := Z.max exp_min Etiny in
      if (x <? exp_min)%Z then
        let coeff := round_half_even c (10 ^ (exp_min - x)) in
        if (prec <? digits coeff)%Z then Some (coeff / 10, exp_min + 1)
        else Some (coeff, exp_min)
      else Some (c, x).

Fixpoint strip (fuel : nat) (c x : Z) : Z * Z :=
  match fuel with
  | O => (c, x)
  | S fuel' =>
      if (c mod 10 =? 0)%Z && (x <? Emax)%Z then strip fuel' (c / 10) (x + 1) else (c, x)
  end.

(** [d.normalize()]: the number rounded to the context, without trailing
    zeros. *)
Definition normalize (d : t) : option t :=
  match d with
  | Finite c x =>
      match round_to_context c x with
      | Some (c, x) =>
          if (c =? 0)%Z then Some (Finite 0 0)
          else let '(c, x) := strip (Z.to_nat (digits c)) c x in Some (Finite c x)
      | None => None
      end
  | _ => Some d
  end.

(** The digits after the decimal point, as [as_tuple()] shows them. *)
Definition decimals (d : t) : Z :=
  match d with
  | Finite _ x => if (0 <=? x)%Z then 0 else - x
  | _ => 0
  end.

(** [str(d)]: plain notation for an exponent that is not positive and a
    number that is not too small, scientific notation otherwise. *)
Definition str (d : t) : string :=
  match d with
  | Infinity => "Infinity"
  | NegInfinity => "-Infinity"
  | Finite c x =>
      let sign := if (c <? 0)%Z then "-" else "" in
      let int := str_int (Z.abs c) in
      let len := String.length int in
      let leftdigits := x + Z.of_nat len in
      let dotplace := if (x <=? 0)%Z && (-6 <? leftdigits)%Z then leftdigits else 1 in
      let number :=
        if (dotplace <=? 0)%Z then
          ("0." ++ zeros (Z.to_nat (- dotplace)) ++ int)%string
        else if (Z.of_nat len <=? dotplace)%Z then
          (int ++ zeros (Z.to_nat dotplace - len))%string
        else
          (substring 0 (Z.to_nat dotplace) int
           ++ "." ++ substring (Z.to_nat dotplace) (len - Z.to_nat dotplace) int)%string in
      let exp :=
        if (leftdigits =? dotplace)%Z then ""
        else ("E" ++ (if (0 <=? leftdigits - dotplace)%Z then "+" else "")
                  ++ str_int (leftdigits - dotplace))%string in
      (sign ++ number ++ exp)%string
  end.

End Decimal.

(** A Python [float], which is also SQLite's REAL: a binary64 number
    [m * 2 ^ e] with [|m| <= 2 ^ 53], or an infinity. *)
Module Float.

Inductive t : Type :=
| Finite (m e : Z)
| Inf
| NegInf.

(** The float nearest to [n / d], for [0 < n] and [0 < d]: 53 significant
    bits, exponents from -1074, a tie to the even mantissa, [inf] from
    [2 ^ 1024] on. *)
Definition of_ratio (n d : Z) : t :=
  let s := Z.log2 d + 1 in
  let p := Z.log2 (n * 2 ^ s / d) - s in
  let e := Z.max (p - 52) (-1074) in
  let m := round_half_even (n * 2 ^ Z.max (- e) 0) (d * 2 ^ Z.max e 0) in
  if (971 <? e)%Z || ((e =? 971)%Z && (m =? 2 ^ 53)%Z) then Inf else Finite m e.

Definition opp (x : t) : t :=
  match x with
  | Finite m e => Finite (- m) e
  | Inf => NegInf
  | NegInf => Inf
  end.

End Float.

(** [float(d)] for a [Decimal]: the nearest binary64 number. *)
Definition to_float (d : Decimal.t) : Float.t :=
  match d with
  | Decimal.Finite c x =>
      let n := Z.abs c * 10 ^ Z.max x 0 in
      let d := 10 ^ Z.max (- x) 0 in
      if (c =? 0)%Z then Float.Finite 0 0
      else if (0 <? c)%Z then Float.of_ratio n d
      else Float.opp (Float.of_ratio n d)
  | Decimal.Infinity => Float.Inf
  | Decimal.NegInfinity => Float.NegInf
  end.

(** [Decimal("%.2f" % x)]: the float written with two digits after the
    point, the nearest such number and a tie to the even one. *)
Definition to_decimal (x : Float.t) : Decimal.t :=
  match x with
  | Float.Finite m e =>
      Decimal.Finite
        (if (0 <=? e)%Z then 100 * m * 2 ^ e else round_half_even (100 * m) (2 ^ (- e)))
        (-2)
  | Float.Inf => Decimal.Infinity
  | Float.NegInf => Decimal.NegInfinity
  end.

(** A value held by a [dict] produced by [model_dump]: [None], [str], [int],
    [bool] or [Decimal]. *)
Inductive value : Type :=
| VNone
| VStr (s : string)
| VInt (z : Z)
| VBool (b : bool)
| VDecimal (d : Decimal.t).

(** A key of a JSON body: absent, [null], a value the field's type accepts
    (after pydantic's conversions), or a value it does not accept. *)
Inductive field (A : Type) : Type :=
| Unset
| Null
| Value (a : A)
| Invalid.
Arguments Unset {A}.
Arguments Null {A}.
Arguments Value {A} a.
Arguments Invalid {A}.

(** [str(v)] as an f-string renders it. *)
Definition str_value (v : value) : string :=
  match v with
  | VNone => "None"
  | VStr s => s
  | VInt z => str_int z
  | VBool true => "True"
  | VBool false => "False"
  | VDecimal d => Decimal.str d
  end.

(** SQLite's INTEGER is a signed 64-bit number: binding a Python [int]
    outside this range to a statement raises [OverflowError]. *)
Definition sqlite_int (z : Z) : bool := (- 2 ^ 63 <=? z)%Z && (z <? 2 ^ 63)%Z.

(** A bound parameter the driver accepts. *)
Definition binds (v : value) : bool :=
  match v with
  | VInt z => sqlite_int z
  | _ => true
  end.

(** ASCII case folding, as SQLite's [lower()] performs it. *)
Definition lower_ascii (c : ascii) : ascii :=
  let n := nat_of_ascii c in
  if (65 <=? n)%nat && (n <=? 90)%nat then ascii_of_nat (n + 32) else c.

Fixpoint lower (s : string) : string :=
  match s with
  | EmptyString => EmptyString
  | String c s' => String (lower_ascii c) (lower s')
  end.

(** SQLite's [LIKE]: [%] matches any run of characters, [_] matches exactly
    one character, any other character matches itself up to ASCII case.
    There is no escape character unless the statement names one. *)
Fixpoint like (pattern : string) : string -> bool :=
  match pattern with
  | EmptyString => fun s => match s with EmptyString => true | _ => false end
  | String p pattern' =>
      if Ascii.eqb p "%" then
        fix skip (s : string) : bool :=
          like pattern' s
          || match s with
             | EmptyString => false
             | String _ s' => skip s'
             end
      else if Ascii.eqb p "_" then
        fun s => match s with
                 | EmptyString => false
                 | String _ s' => like pattern' s'
                 end
      else
        fun s => match s with
                 | EmptyString => false
                 | String c s' =>
                     Ascii.eqb (lower_ascii p) (lower_ascii c) && like pattern' s'
                 end
  end.

(** [column.ilike(pattern)] on the SQLite dialect: [lower(column) LIKE lower(pattern)]. *)
Definition ilike (column pattern : string) : bool :=
  like (lower pattern) (lower column).

(** ** Tables ([app/models.py]) *)

Module Department.
Record t : Type := mk {
  id : Z;
  name : string;
  code : string
}.
End Department.

(** A persisted row of [employees].  The columns declared [nullable=False]
    hold a value; [is_active], [created_at] and [updated_at] may be NULL.
    The [Numeric(10, 2)] column [salary] holds the float the dialect binds
    for a [Decimal]. *)
Module Employee.
Record t : Type := mk {
  id : Z;
  first_name : string;
  last_name : string;
  email : string;
  department_id : Z;
  position : string;
  salary : Float.t;
  is_active : option bool;
  created_at : option Z;
  updated_at : option Z
}.
End Employee.

(** The ORM instance of an employee inside a session: every attribute can be
    set to [None] by [setattr]; the constraints are checked at flush. *)
Module Instance.
Record t : Type := mk {
  id : Z;
  first_name : option string;
  last_name : option string;
  email : option string;
  department_id : option Z;
  position : option string;
  salary : option Decimal.t;
  is_active : option bool;
  created_at : option Z;
  updated_at : option Z
}.
End Instance.

(** The persisted state reached through a [Session]. *)
Record Database : Type := mkDatabase {
  departments : list Department.t;
  employees : list Employee.t
}.

(** ** Responses *)

(** What a request produces: the handler's return value with the route's
    status code, an [HTTPException] raised by the handler, FastAPI's 422 for
    a request that fails validation, or an unhandled exception (500). *)
Inductive Response (A : Type) : Type :=
| Returned (status_code : Z) (body : A)
| HTTPException (status_code : Z) (detail : string)
| RequestValidationError
| InternalServerError.
Arguments Returned {A} status_code body.
Arguments HTTPException {A} status_code detail.
Arguments RequestValidationError {A}.
Arguments InternalServerError {A}.

Definition status {A : Type} (r : Response A) : Z :=
  match r with
  | Returned c _ => c
  | HTTPException c _ => c
  | RequestValidationError => 422
  | InternalServerError => 500
  end.

(** ** Schemas ([app/schemas.py]) *)

(** The JSON object sent to POST and PUT [/api/v1/employees]: one key per
    field of [EmployeeBase], each absent, [null], holding a value of the
    field's type or holding something else.  Keys outside the schema are
    ignored by the models and are not represented. *)
Module Body.
Record t : Type := mk {
  first_name : field string;
  last_name : field string;
  email : field string;
  department_id : field Z;
  position : field string;
  salary : field Decimal.t;
  is_active : field bool
}.
End Body.

Module EmployeeCreate.
Record t : Type := mk {
  first_name : string;
  last_name : string;
  email : string;
  department_id : Z;
  position : string;
  salary : Decimal.t;
  is_active : bool
}.
End EmployeeCreate.

(** A validated [EmployeeUpdate]: [Unset] fields are outside
    [model_fields_set]; [Null] fields were sent as [null]. *)
Module EmployeeUpdate.
Record t : Type := mk {
  first_name : field string;
  last_name : field string;
  email : field string;
  department_id : field Z;
  position : field string;
  salary : field Decimal.t;
  is_active : field bool
}.
End EmployeeUpdate.

Module EmployeeResponse.
Record t : Type := mk {
  first_name : string;
  last_name : string;
  email : string;
  department_id : Z;
  position : string;
  salary : Decimal.t;
  is_active : bool;
  id : Z;
  created_at : Z;
  updated_at : option Z
}.
End EmployeeResponse.

Module EmployeeListResponse.
Record t : Type := mk {
  items : list EmployeeResponse.t;
  total : Z;
  page : Z;
  page_size : Z;
  total_pages : Z
}.
End EmployeeListResponse.

Module DepartmentResponse.
Record t : Type := mk {
  name : string;
  code : string;
  id : Z;
  employee_count : Z
}.
End DepartmentResponse.

(** [Field(..., min_length=lo, max_length=hi)] on a [str]. *)
Definition str_between (lo hi : nat) (s : string) : bool :=
  (lo <=? String.length s)%nat && (String.length s <=? hi)%nat.

Definition guard {A : Type} (b : bool) (a : A) : option A :=
  if b then Some a else None.

(** A required field: absent and [null] are both validation errors. *)
Definition required {A B : Type} (check : A -> option B) (f : field A) : option B :=
  match f with
  | Value a => check a
  | Unset | Null | Invalid => None
  end.

(** An [Optional[...] = None] field: absent and [null] are accepted, a value
    is checked. *)
Definition optional {A B : Type} (check : A -> option B) (f : field A) : option (field B) :=
  match f with
  | Unset => Some Unset
  | Null => Some Null
  | Value a => option_map Value (check a)
  | Invalid => None
  end.

(** [bool = Field(default=True)]: absent takes the default, [null] is an error. *)
Definition defaulted {A : Type} (default : A) (f : field A) : option A :=
  match f with
  | Unset => Some default
  | Value a => Some a
  | Null | Invalid => None
  end.

Notation "x <- e ;; k" :=
  (match e with Some x => k | None => None end)
  (at level 61, e at next level, right associativity, only parsing).

Section App.

(** [EmailStr]: the syntax check and normalisation of the [email-validator]
    package, which returns the normalised address or rejects the input. *)
Variable EmailStr : string -> option string.

(** The constraints of [EmployeeBase], shared by [EmployeeCreate] and
    [EmployeeResponse]. *)
Definition name_field (s : string) : option string := guard (str_between 1 100 s) s.
Definition position_field (s : string) : option string := guard (str_between 1 200 s) s.
Definition department_id_field (z : Z) : option Z := guard (1 <=? z)%Z z.

(** [Field(..., gt=0, decimal_places=2)] on a [Decimal]: the number is
    finite and positive, and it has at most two decimal places, either as it
    is written or once normalised; when [normalize] raises, the number is
    taken as written. *)
Definition salary_field (d : Decimal.t) : option Decimal.t :=
  match d with
  | Decimal.Finite c _ =>
      let normalized := match Decimal.normalize d with Some n => n | None => d end in
      guard ((0 <? c)%Z
             && negb ((2 <? Decimal.decimals d)%Z && (2 <? Decimal.decimals normalized)%Z))
        d
  | _ => None
  end.

Definition EmployeeCreate_validate (body : Body.t) : option EmployeeCreate.t :=
  first_name <- required name_field (Body.first_name body) ;;
  last_name <- required name_field (Body.last_name body) ;;
  email <- required EmailStr (Body.email body) ;;
  department_id <- required department_id_field (Body.department_id body) ;;
  position <- required position_field (Body.position body) ;;
  salary <- required salary_field (Body.salary body) ;;
  is_active <- defaulted true (Body.is_active body) ;;
  Some (EmployeeCreate.mk first_name last_name email department_id position salary is_active).

Definition EmployeeUpdate_validate (body : Body.t) : option EmployeeUpdate.t :=
  first_name <- optional name_field (Body.first_name body) ;;
  last_name <- optional name_field (Body.last_name body) ;;
  email <- optional EmailStr (Body.email body) ;;
  department_id <- optional department_id_field (Body.department_id body) ;;
  position <- optional position_field (Body.position body) ;;
  salary <- optional salary_field (Body.salary body) ;;
  is_active <- optional (@Some bool) (Body.is_active body) ;;
  Some (EmployeeUpdate.mk first_name last_name email department_id position salary is_active).

(** [EmployeeResponse.model_validate(emp)] with [from_attributes]: the
    attributes loaded from the row are validated against [EmployeeBase]
    again; [salary] is the [Decimal] the dialect reads from the stored
    float; [is_active] and [created_at] are not optional in the response. *)
Definition EmployeeResponse_model_validate (emp : Employee.t) : option EmployeeResponse.t :=
  first_name <- name_field (Employee.first_name emp) ;;
  last_name <- name_field (Employee.last_name emp) ;;
  email <- EmailStr (Employee.email emp) ;;
  department_id <- department_id_field (Employee.department_id emp) ;;
  position <- position_field (Employee.position emp) ;;
  salary <- salary_field (to_decimal (Employee.salary emp)) ;;
  is_active <- Employee.is_active emp ;;
  created_at <- Employee.created_at emp ;;
  Some (EmployeeResponse.mk first_name last_name email department_id position salary
          is_active (Employee.id emp) created_at (Employee.updated_at emp)).

(** [updates.model_dump(exclude_unset=True)]: the fields that were sent, in
    declaration order; a field sent as [null] is kept with the value [None].
    (A validated model holds no [Invalid] field.) *)
Definition dump_field {A : Type} (key : string) (inj : A -> value) (f : field A)
  : list (string * value) :=
  match f with
  | Unset | Invalid => []
  | Null => [(key, VNone)]
  | Value a => [(key, inj a)]
  end.

Definition model_dump_exclude_unset (updates : EmployeeUpdate.t) : list (string * value) :=
  dump_field "first_name" VStr (EmployeeUpdate.first_name updates)
  ++ dump_field "last_name" VStr (EmployeeUpdate.last_name updates)
  ++ dump_field "email" VStr (EmployeeUpdate.email updates)
  ++ dump_field "department_id" VInt (EmployeeUpdate.department_id updates)
  ++ dump_field "position" VStr (EmployeeUpdate.position updates)
  ++ dump_field "salary" VDecimal (EmployeeUpdate.salary updates)
  ++ dump_field "is_active" VBool (EmployeeUpdate.is_active updates).

(** [key in d] and [d[key]] on a [dict]. *)
Fixpoint get (key : string) (d : list (string * value)) : option value :=
  match d with
  | [] => None
  | (k, v) :: d' => if String.eqb k key then Some v else get key d'
  end.

(** ** The store as the session sees it *)

(** [query.first()]. *)
Definition first {A : Type} (query : list A) : option A := hd_error query.

(** [column == value] in a filter, for a NOT NULL integer or text column:
    comparing with [None] renders [IS NULL], which no row satisfies. *)
Definition sql_eq_int (column : Z) (v : value) : bool :=
  match v with
  | VInt z => (column =? z)%Z
  | _ => false
  end.

Definition sql_eq_str (column : string) (v : value) : bool :=
  match v with
  | VStr s => String.eqb column s
  | _ => false
  end.

(** [Employee.is_active == b] on the nullable column: NULL equals nothing. *)
Definition sql_eq_bool (column : option bool) (b : bool) : bool :=
  match column with
  | Some c => Bool.eqb c b
  | None => false
  end.

(** The rowid SQLite gives to an inserted row of a table whose key is
    [INTEGER PRIMARY KEY]: one more than the largest rowid in the table. *)
Definition next_rowid (ids : list Z) : Z := fold_right Z.max 0 ids + 1.

(** [db.add(db_employee); db.commit()] for the instance built from the
    validated payload: the INSERT binds [salary] as a float, fills
    [created_at] from its column default, leaves [updated_at] NULL and is
    refused ([IntegrityError]) when the unique index on [email] already
    holds the address.  A table whose largest rowid is the largest INTEGER
    has no next rowid: SQLite then searches for an unused one at random,
    which is not modelled, and the INSERT is taken to fail. *)
Definition insert_employee (employee : EmployeeCreate.t) (now : Z) (db : Database)
  : option (Employee.t * Database) :=
  if existsb (fun r => String.eqb (Employee.email r) (EmployeeCreate.email employee))
       (employees db)
  then None
  else if negb (sqlite_int (next_rowid (map Employee.id (employees db))))
  then None
  else
    let row :=
      Employee.mk (next_rowid (map Employee.id (employees db)))
        (EmployeeCreate.first_name employee) (EmployeeCreate.last_name employee)
        (EmployeeCreate.email employee) (EmployeeCreate.department_id employee)
        (EmployeeCreate.position employee) (to_float (EmployeeCreate.salary employee))
        (Some (EmployeeCreate.is_active employee)) (Some now) None in
    Some (row, mkDatabase (departments db) (employees db ++ [row])).

(** The instance a query loads from a row; the [Numeric] column is read as
    a [Decimal] with two decimal places. *)
Definition load (e : Employee.t) : Instance.t :=
  Instance.mk (Employee.id e) (Some (Employee.first_name e)) (Some (Employee.last_name e))
    (Some (Employee.email e)) (Some (Employee.department_id e))
    (Some (Employee.position e)) (Some (to_decimal (Employee.salary e)))
    (Employee.is_active e) (Employee.created_at e) (Employee.updated_at e).

(** [setattr(employee, field, value)] for the fields of [EmployeeUpdate]. *)
Definition setattr (o : Instance.t) (name : string) (v : value) : Instance.t :=
  let 'Instance.mk id fn ln em dp ps sl ac cr up := o in
  if String.eqb name "first_name" then
    match v with
    | VStr s => Instance.mk id (Some s) ln em dp ps sl ac cr up
    | VNone => Instance.mk id None ln em dp ps sl ac cr up
    | _ => o
    end
  else if String.eqb name "last_name" then
    match v with
    | VStr s => Instance.mk id fn (Some s) em dp ps sl ac cr up
    | VNone => Instance.mk id fn None em dp ps sl ac cr up
    | _ => o
    end
  else if String.eqb name "email" then
    match v with
    | VStr s => Instance.mk id fn ln (Some s) dp ps sl ac cr up
    | VNone => Instance.mk id fn ln None dp ps sl ac cr up
    | _ => o
    end
  else if String.eqb name "department_id" then
    match v with
    | VInt z => Instance.mk id fn ln em (Some z) ps sl ac cr up
    | VNone => Instance.mk id fn ln em None ps sl ac cr up
    | _ => o
    end
  else if String.eqb name "position" then
    match v with
    | VStr s => Instance.mk id fn ln em dp (Some s) sl ac cr up
    | VNone => Instance.mk id fn ln em dp None sl ac cr up
    | _ => o
    end
  else if String.eqb name "salary" then
    match v with
    | VDecimal d => Instance.mk id fn ln em dp ps (Some d) ac cr up
    | VNone => Instance.mk id fn ln em dp ps None ac cr up
    | _ => o
    end
  else if String.eqb name "is_active" then
    match v with
    | VBool b => Instance.mk id fn ln em dp ps sl (Some b) cr up
    | VNone => Instance.mk id fn ln em dp ps sl None cr up
    | _ => o
    end
  else o.

(** [for field, value in update_data.items(): setattr(employee, field, value)]. *)
Definition setattr_items (update_data : list (string * value)) (o : Instance.t) : Instance.t :=
  fold_left (fun o kv => setattr o (fst kv) (snd kv)) update_data o.

Definition option_eqb {A : Type} (eqb : A -> A -> bool) (x y : option A) : bool :=
  match x, y with
  | Some a, Some b => eqb a b
  | None, None => true
  | _, _ => false
  end.

(** The unit of work compares each attribute with the value that was loaded:
    the instance needs an UPDATE only when some column has a new value. *)
Definition modified (loaded o : Instance.t) : bool :=
  negb (option_eqb String.eqb (Instance.first_name loaded) (Instance.first_name o)
        && option_eqb String.eqb (Instance.last_name loaded) (Instance.last_name o)
        && option_eqb String.eqb (Instance.email loaded) (Instance.email o)
        && option_eqb Z.eqb (Instance.department_id loaded) (Instance.department_id o)
        && option_eqb String.eqb (Instance.position loaded) (Instance.position o)
        && option_eqb Decimal.eqb (Instance.salary loaded) (Instance.salary o)
        && option_eqb Bool.eqb (Instance.is_active loaded) (Instance.is_active o)).

(** The row an UPDATE of [employee] leaves: the columns whose attribute has
    a new value are set, [salary] as the float of the new [Decimal], and
    [updated_at] is taken from the column's [onupdate]; [None] when a
    [nullable=False] column would receive NULL. *)
Definition updated_row (employee : Employee.t) (o : Instance.t) (now : Z) : option Employee.t :=
  first_name <- Instance.first_name o ;;
  last_name <- Instance.last_name o ;;
  email <- Instance.email o ;;
  department_id <- Instance.department_id o ;;
  position <- Instance.position o ;;
  salary <- Instance.salary o ;;
  Some (Employee.mk (Instance.id o) first_name last_name email department_id position
          (if Decimal.eqb (to_decimal (Employee.salary employee)) salary
           then Employee.salary employee else to_float salary)
          (Instance.is_active o) (Instance.created_at o) (Some now)).

(** [db.commit()] with [employee] in the session.  Nothing is written when no
    column changed, and then [onupdate] does not run.  Otherwise the UPDATE
    is refused ([IntegrityError], the transaction is rolled back) when a NOT
    NULL column receives NULL or the new [email] is held by another row. *)
Definition commit_update (employee : Employee.t) (o : Instance.t) (now : Z) (db : Database)
  : option Database :=
  if modified (load employee) o then
    row <- updated_row employee o now ;;
    if negb (String.eqb (Employee.email row) (Employee.email employee))
       && existsb (fun r => String.eqb (Employee.email r) (Employee.email row)
                            && negb (Employee.id r =? Employee.id employee)%Z)
            (employees db)
    then None
    else Some (mkDatabase (departments db)
                 (map (fun r => if (Employee.id r =? Employee.id employee)%Z then row else r)
                    (employees db)))
  else Some db.

(** [db.delete(employee); db.commit()]. *)
Definition commit_delete (employee : Employee.t) (db : Database) : Database :=
  mkDatabase (departments db)
    (filter (fun r => negb (Employee.id r =? Employee.id employee)%Z) (employees db)).

(** [db.refresh(employee)]: the row is read again by primary key. *)
Definition refresh (id : Z) (db : Database) : option Employee.t :=
  first (filter (fun e => (Employee.id e =? id)%Z) (employees db)).

(** [[f(x) for x in xs]] where [f] may raise. *)
Fixpoint traverse {A B : Type} (f : A -> option B) (xs : list A) : option (list B) :=
  match xs with
  | [] => Some []
  | x :: xs' => y <- f x ;; ys <- traverse f xs' ;; Some (y :: ys)
  end.

(** ** Startup ([app/database.py]) *)

Definition DEFAULT_DEPARTMENTS : list (string * string) :=
  [("Engineering", "ENG"); ("Human Resources", "HR"); ("Finance", "FIN");
   ("Marketing", "MKT"); ("Sales", "SLS"); ("Information Technology", "IT");
   ("Operations", "OPS")].

(** [db.add(Department(name, code))] for one entry of the seed list. *)
Definition add_department (rows : list Department.t) (dept_data : string * string)
  : list Department.t :=
  rows ++ [Department.mk (next_rowid (map Department.id rows)) (fst dept_data) (snd dept_data)].

Definition seed_departments (db : Database) : Database :=
  let count := Z.of_nat (List.length (departments db)) in
  if (count =? 0)%Z then
    mkDatabase (fold_left add_department DEFAULT_DEPARTMENTS (departments db)) (employees db)
  else db.

(** The store after [init_db(); seed_departments()] on a new database file. *)
Definition lifespan : Database := seed_departments (mkDatabase [] []).

(** ** Handlers ([app/main.py]) *)

(** [math.ceil(total / page_size)] for a count and a positive page size. *)
Definition math_ceil_div (total page_size : Z) : Z := (total + page_size - 1) / page_size.

(** [if search:] holds for a string that is present and not empty. *)
Definition truthy (search : option string) : bool :=
  match search with
  | Some (String _ _) => true
  | _ => false
  end.

Definition list_employees (page page_size : Z) (department_id : option Z)
  (is_active : option bool) (search : option string) (db : Database)
  : Response EmployeeListResponse.t :=
  if negb ((1 <=? page)%Z && (1 <=? page_size)%Z && (page_size <=? 100)%Z)
  then RequestValidationError
  else
    let query := employees db in
    let query :=
      match department_id with
      | Some d => filter (fun e => (Employee.department_id e =? d)%Z) query
      | None => query
      end in
    let query :=
      match is_active with
      | Some b => filter (fun e => sql_eq_bool (Employee.is_active e) b) query
      | None => query
      end in
    let query :=
      if truthy search then
        let search_term := ("%" ++ match search with Some s => s | None => "" end ++ "%")%string in
        filter (fun e => ilike (Employee.first_name e) search_term
                         || ilike (Employee.last_name e) search_term
                         || ilike (Employee.email e) search_term) query
      else query in
    (* query.count() binds the department id *)
    if negb (match department_id with Some d => sqlite_int d | None => true end)
    then InternalServerError
    else
    let total := Z.of_nat (List.length query) in
    let total_pages := if (0 <? total)%Z then math_ceil_div total page_size else 1 in
    (* .offset(...).limit(...).all() binds the offset and the limit as well *)
    if negb (sqlite_int ((page - 1) * page_size) && sqlite_int page_size)
    then InternalServerError
    else
    let items := firstn (Z.to_nat page_size) (skipn (Z.to_nat ((page - 1) * page_size)) query) in
    match traverse EmployeeResponse_model_validate items with
    | Some items => Returned 200 (EmployeeListResponse.mk items total page page_size total_pages)
    | None => InternalServerError
    end.

Definition create_employee (body : Body.t) (now : Z) (db : Database)
  : Response EmployeeResponse.t * Database :=
  match EmployeeCreate_validate body with
  | None => (RequestValidationError, db)
  | Some employee =>
      let existing :=
        first (filter (fun e => String.eqb (Employee.email e) (EmployeeCreate.email employee))
                 (employees db)) in
      match existing with
      | Some _ =>
          (HTTPException 409 ("Email " ++ EmployeeCreate.email employee ++ " already exists")%string, db)
      | None =>
          if negb (sqlite_int (EmployeeCreate.department_id employee))
          then (InternalServerError, db)
          else
          let dept :=
            first (filter (fun d => (Department.id d =? EmployeeCreate.department_id employee)%Z)
                     (departments db)) in
          match dept with
          | None =>
              (HTTPException 404
                 ("Department " ++ str_int (EmployeeCreate.department_id employee) ++ " not found")%string,
               db)
          | Some _ =>
              match insert_employee employee now db with
              | None => (InternalServerError, db)
              | Some (db_employee, db') =>
                  match refresh (Employee.id db_employee) db' with
                  | None => (InternalServerError, db')
                  | Some db_employee =>
                      match EmployeeResponse_model_validate db_employee with
                      | Some r => (Returned 201 r, db')
                      | None => (InternalServerError, db')
                      end
                  end
              end
          end
      end
  end.

Definition get_employee (employee_id : Z) (db : Database) : Response EmployeeResponse.t :=
  if negb (sqlite_int employee_id) then InternalServerError
  else
  match first (filter (fun e => (Employee.id e =? employee_id)%Z) (employees db)) with
  | None => HTTPException 404 ("Employee " ++ str_int employee_id ++ " not found")%string
  | Some employee =>
      match EmployeeResponse_model_validate employee with
      | Some r => Returned 200 r
      | None => InternalServerError
      end
  end.

Definition update_employee (employee_id : Z) (body : Body.t) (now : Z) (db : Database)
  : Response EmployeeResponse.t * Database :=
  match EmployeeUpdate_validate body with
  | None => (RequestValidationError, db)
  | Some updates =>
  if negb (sqlite_int employee_id) then (InternalServerError, db)
  else
  match first (filter (fun e => (Employee.id e =? employee_id)%Z) (employees db)) with
  | None => (HTTPException 404 ("Employee " ++ str_int employee_id ++ " not found")%string, db)
  | Some employee =>
  let update_data := model_dump_exclude_unset updates in
  (* Validate department_id if provided *)
  match
    match get "department_id" update_data with
    | Some v =>
        if negb (binds v) then Some InternalServerError
        else
        match first (filter (fun d => sql_eq_int (Department.id d) v) (departments db)) with
        | None => Some (HTTPException 404 ("Department " ++ str_value v ++ " not found")%string)
        | Some _ => None
        end
    | None => None
    end
  with
  | Some raised => (raised, db)
  | None =>
  (* Validate email uniqueness if provided *)
  match
    match get "email" update_data with
    | Some v =>
        match first (filter (fun e => sql_eq_str (Employee.email e) v
                                      && negb (Employee.id e =? employee_id)%Z)
                       (employees db)) with
        | Some _ => Some (HTTPException 409 ("Email " ++ str_value v ++ " already exists")%string)
        | None => None
        end
    | None => None
    end
  with
  | Some raised => (raised, db)
  | None =>
  let o := setattr_items update_data (load employee) in
  match commit_update employee o now db with
  | None => (InternalServerError, db)
  | Some db' =>
      match refresh (Employee.id employee) db' with
      | None => (InternalServerError, db')
      | Some employee =>
          match EmployeeResponse_model_validate employee with
          | Some r => (Returned 200 r, db')
          | None => (InternalServerError, db')
          end
      end
  end end end end end.

Definition delete_employee (employee_id : Z) (db : Database) : Response unit * Database :=
  if negb (sqlite_int employee_id) then (InternalServerError, db)
  else
  match first (filter (fun e => (Employee.id e =? employee_id)%Z) (employees db)) with
  | None => (HTTPException 404 ("Employee " ++ str_int employee_id ++ " not found")%string, db)
  | Some employee => (Returned 204 tt, commit_delete employee db)
  end.

(** [Department.employees]: the relationship loads the employees whose
    foreign key is the department's id. *)
Definition Department_employees (db : Database) (dept : Department.t) : list Employee.t :=
  filter (fun e => (Employee.department_id e =? Department.id dept)%Z) (employees db).

(** The property [Department.employee_count]. *)
Definition employee_count (db : Database) (dept : Department.t) : Z :=
  let rows := Department_employees db dept in
  match rows with
  | [] => 0
  | _ :: _ => Z.of_nat (List.length rows)
  end.

(** [DepartmentResponse.model_validate(dept)] with [from_attributes]. *)
Definition DepartmentResponse_model_validate (db : Database) (dept : Department.t)
  : option DepartmentResponse.t :=
  name <- guard (str_between 1 100 (Department.name dept)) (Department.name dept) ;;
  code <- guard (str_between 1 10 (Department.code dept)) (Department.code dept) ;;
  Some (DepartmentResponse.mk name code (Department.id dept) (employee_count db dept)).

Definition list_departments (db : Database) : Response (list DepartmentResponse.t) :=
  match traverse (DepartmentResponse_model_validate db) (departments db) with
  | Some body => Returned 200 body
  | None => InternalServerError
  end.

End App.

(** ** The properties the handlers are checked against *)

(** The request was refused with one of the documented client errors:
    422 (validation), 404 (not found) or 409 (conflict). *)
Definition rejected {A : Type} (r : Response A) : Prop :=
  match r with
  | HTTPException _ _ | RequestValidationError => True
  | Returned _ _ | InternalServerError => False
  end.

Definition email_taken (email : string) (db : Database) : Prop :=
  exists r, In r (employees db) /\ Employee.email r = email.

Definition department_exists (id : Z) (db : Database) : Prop :=
  exists d, In d (departments db) /\ Department.id d = id.

(** The keys of both tables are numbers SQLite's INTEGER can hold, as they
    are in every database file. *)
Definition sqlite_store (db : Database) : Prop :=
  forallb (fun d => sqlite_int (Department.id d)) (departments db)
  && forallb (fun e => sqlite_int (Employee.id e)) (employees db) = true.

(** The filter a listing request describes: exact match on [department_id]
    and [is_active] when given, and the search pattern when a non-empty
    search string is given, all of them together. *)
Definition search_matches (search : string) (e : Employee.t) : bool :=
  let search_term := ("%" ++ search ++ "%")%string in
  ilike (Employee.first_name e) search_term
  || ilike (Employee.last_name e) search_term
  || ilike (Employee.email e) search_term.

Definition selected (department_id : option Z) (is_active : option bool)
  (search : option string) (e : Employee.t) : bool :=
  match department_id with
  | Some d => (Employee.department_id e =? d)%Z
  | None => true
  end
  && match is_active with
     | Some b => sql_eq_bool (Employee.is_active e) b
     | None => true
     end
  && match search with
     | Some (String c s) => search_matches (String c s) e
     | _ => true
     end.

(** The offset of a page and the department a listing filters by are
    numbers SQLite can hold. *)
Definition listing_binds (page page_size : Z) (department_id : option Z) : Prop :=
  (page - 1) * page_size < 2 ^ 63
  /\ match department_id with
     | Some d => - 2 ^ 63 <= d < 2 ^ 63
     | None => True
     end.

(** The rows of page [page]: skip [(page - 1) * page_size] rows, keep at most
    [page_size]. *)
Definition page_window {A : Type} (page page_size : Z) (rows : list A) : list A :=
  firstn (Z.to_nat page_size) (skipn (Z.to_nat ((page - 1) * page_size)) rows).

(** [needle] occurs in [hay] as a contiguous substring, up to ASCII case. *)
Fixpoint occurs_in (needle hay : string) : bool :=
  prefix needle hay
  || match hay with
     | EmptyString => false
     | String _ hay' => occurs_in needle hay'
     end.

Definition contains_ci (hay needle : string) : bool :=
  occurs_in (lower needle) (lower hay).


(** The number of employees whose [department_id] is [id], counted over the
    whole table. *)
Definition live_count (db : Database) (id : Z) : Z :=
  Z.of_nat (count_occ Z.eq_dec (map Employee.department_id (employees db)) id).

(** Merge-patch on one attribute: an absent field keeps the old value, a
    [null] field stores [None], a value replaces it. *)
Definition assign {A : Type} (f : field A) (old : option A) : option A :=
  match f with
  | Unset | Invalid => old
  | Null => None
  | Value a => Some a
  end.

(** The instance a merge-patch of [updates] into [o] describes. *)
Definition patched (updates : EmployeeUpdate.t) (o : Instance.t) : Instance.t :=
  Instance.mk (Instance.id o)
    (assign (EmployeeUpdate.first_name updates) (Instance.first_name o))
    (assign (EmployeeUpdate.last_name updates) (Instance.last_name o))
    (assign (EmployeeUpdate.email updates) (Instance.email o))
    (assign (EmployeeUpdate.department_id updates) (Instance.department_id o))
    (assign (EmployeeUpdate.position updates) (Instance.position o))
    (assign (EmployeeUpdate.salary updates) (Instance.salary o))
    (assign (EmployeeUpdate.is_active updates) (Instance.is_active o))
    (Instance.created_at o) (Instance.updated_at o).

(** Two instances hold the same values in the columns a patch can set, a
    salary being compared as a number. *)
Definition same_values (a b : Instance.t) : Prop :=
  Instance.first_name a = Instance.first_name b
  /\ Instance.last_name a = Instance.last_name b
  /\ Instance.email a = Instance.email b
  /\ Instance.department_id a = Instance.department_id b
  /\ Instance.position a = Instance.position b
  /\ option_eqb Decimal.eqb (Instance.salary a) (Instance.salary b) = true
  /\ Instance.is_active a = Instance.is_active b.


(** The entry of [update_data] a field gives rise to. *)
Definition dumped {A : Type} (inj : A -> value) (f : field A) : option value :=
  match f with
  | Unset | Invalid => None
  | Null => Some VNone
  | Value a => Some (inj a)
  end.

(** A field passes an [Optional] constraint: only a value can violate it,
    or something that is not of the field's type. *)
Definition accepts {A B : Type} (check : A -> option B) (f : field A) : Prop :=
  match f with
  | Unset | Null => True
  | Value a => check a <> None
  | Invalid => False
  end.

(** The department a patch names exists (a patch that names none passes). *)
Definition department_check_passes (updates : EmployeeUpdate.t) (db : Database) : Prop :=
  match EmployeeUpdate.department_id updates with
  | Unset | Invalid => True
  | Null => False
  | Value d => department_exists d db
  end.

(** No employee other than [employee_id] holds the email a patch names. *)
Definition email_check_passes (employee_id : Z) (updates : EmployeeUpdate.t) (db : Database)
  : Prop :=
  match EmployeeUpdate.email updates with
  | Unset | Null | Invalid => True
  | Value e =>
      forall r, In r (employees db) -> Employee.email r = e -> Employee.id r = employee_id
  end.


(** The keys a body sends as [null]. *)
Definition null_key {A : Type} (key : string) (f : field A) : list string :=
  match f with
  | Null => [key]
  | Unset | Value _ | Invalid => []
  end.

Definition null_keys (body : Body.t) : list string :=
  null_key "first_name" (Body.first_name body)
  ++ null_key "last_name" (Body.last_name body)
  ++ null_key "email" (Body.email body)
  ++ null_key "department_id" (Body.department_id body)
  ++ null_key "position" (Body.position body)
  ++ null_key "salary" (Body.salary body)
  ++ null_key "is_active" (Body.is_active body).

(** The columns of [employees] declared [nullable=False] that a patch can name. *)
Definition not_null_columns : list string :=
  ["first_name"; "last_name"; "email"; "department_id"; "position"; "salary"].

(** What the tables guarantee in every state the API reaches: the seeded
    departments, employee rows in strictly increasing id order, and no email
    held by two rows. *)
Definition store_invariant (db : Database) : Prop :=
  departments db = departments lifespan
  /\ StronglySorted Z.lt (map Employee.id (employees db))
  /\ NoDup (map Employee.email (employees db)).

(** The states the API can reach from a freshly seeded store. *)
Inductive reachable (EmailStr : string -> option string) : Database -> Prop :=
| reachable_lifespan : reachable EmailStr lifespan
| reachable_create body now db :
    reachable EmailStr db ->
    reachable EmailStr (snd (create_employee EmailStr body now db))
| reachable_update employee_id body now db :
    reachable EmailStr db ->
    reachable EmailStr (snd (update_employee EmailStr employee_id body now db))
| reachable_delete employee_id db :
    reachable EmailStr db ->
    reachable EmailStr (snd (delete_employee employee_id db)).

(** ** Sample data for the worked examples *)

(** A stand-in for [EmailStr] on plain lower-case ASCII addresses, which the
    real validator accepts and returns unchanged: an address is any string
    that contains [@]. *)
Definition sample_EmailStr (s : string) : option string :=
  match index 0 "@" s with
  | Some _ => Some s
  | None => None
  end.

Definition no_fields : Body.t := Body.mk Unset Unset Unset Unset Unset Unset Unset.

Definition employee_body (first_name last_name email : string) (department_id : Z)
  (position : string) (salary : Decimal.t) (is_active : field bool) : Body.t :=
  Body.mk (Value first_name) (Value last_name) (Value email) (Value department_id)
    (Value position) (Value salary) is_active.

Definition post (body : Body.t) (now : Z) (db : Database) : Database :=
  snd (create_employee sample_EmailStr body now db).

(** The seeded store after one POST at time 100. *)
Definition update_test : Body.t :=
  employee_body "Update" "Test" "update@company.com" 1 "Dev" (Decimal.Finite 5000 0) Unset.

Definition one_employee : Database := post update_test 100 lifespan.

Definition update_test_row : Employee.t :=
  Employee.mk 1 "Update" "Test" "update@company.com" 1 "Dev"
    (to_float (Decimal.Finite 5000 0)) (Some true) (Some 100) None.


(** The five employees the listing tests create, in order. *)
Definition alice : Body.t :=
  employee_body "Alice" "Engineering" "alice@co.com" 1 "Dev" (Decimal.Finite 8000 0) (Value true).
Definition bob : Body.t :=
  employee_body "Bob" "Engineering" "bob@co.com" 1 "Lead Dev" (Decimal.Finite 12000 0) (Value true).
Definition carol : Body.t :=
  employee_body "Carol" "HR" "carol@co.com" 2 "HR Analyst" (Decimal.Finite 7000 0) (Value true).
Definition david : Body.t :=
  employee_body "David" "Finance" "david@co.com" 3 "Analyst" (Decimal.Finite 9000 0) (Value false).
Definition eve : Body.t :=
  employee_body "Eve" "Marketing" "eve@co.com" 4 "Designer" (Decimal.Finite 6000 0) (Value true).

Definition five_employees : Database :=
  post eve 5 (post david 4 (post carol 3 (post bob 2 (post alice 1 lifespan)))).

Definition alice_row : Employee.t :=
  Employee.mk 1 "Alice" "Engineering" "alice@co.com" 1 "Dev"
    (to_float (Decimal.Finite 8000 0)) (Some true) (Some 1) None.

Definition alice_response : EmployeeResponse.t :=
  EmployeeResponse.mk "Alice" "Engineering" "alice@co.com" 1 "Dev"
    (Decimal.Finite 800000 (-2)) true 1 1 None.

Definition bob_row : Employee.t :=
  Employee.mk 2 "Bob" "Engineering" "bob@co.com" 1 "Lead Dev"
    (to_float (Decimal.Finite 12000 0)) (Some true) (Some 2) None.


(** Patches used in the examples. *)
Definition position_only (position : string) : Body.t :=
  Body.mk Unset Unset Unset Unset (Value position) Unset Unset.

Definition null_department_id : Body.t :=
  Body.mk Unset Unset Unset Null Unset Unset Unset.

Definition null_first_name : Body.t :=
  Body.mk Null Unset Unset Unset Unset Unset Unset.

Definition null_is_active : Body.t :=
  Body.mk Unset Unset Unset Unset Unset Unset Null.

(** A payload that is well formed, repeats the email of [update_test] and
    names a department that does not exist. *)
Definition duplicate_email_missing_department : Body.t :=
  employee_body "Dup" "User" "update@company.com" 999 "Dev" (Decimal.Finite 5000 0) Unset.

(** ** Further properties of the handlers *)

(** The "not found" detail of the employee routes. *)
Definition employee_not_found (employee_id : Z) : string :=
  ("Employee " ++ str_int employee_id ++ " not found")%string.

(** The value a column holds after a successful merge-patch. *)
Definition merged {A : Type} (f : field A) (old : A) : A :=
  match f with
  | Value a => a
  | Unset | Null | Invalid => old
  end.

(** The float the salary column holds after a successful patch: a new
    number is stored as its float; the number the column already reads as,
    or no number, leaves the column alone. *)
Definition stored_salary (f : field Decimal.t) (old : Float.t) : Float.t :=
  match f with
  | Value salary => if Decimal.eqb (to_decimal old) salary then old else to_float salary
  | Unset | Null | Invalid => old
  end.

(** The constraints of [EmployeeBase] a stored row satisfies, the email
    syntax left aside; the stored salary is the float of a [Decimal] the
    schema accepts. *)
Definition row_constraints (e : Employee.t) : Prop :=
  str_between 1 100 (Employee.first_name e) = true
  /\ str_between 1 100 (Employee.last_name e) = true
  /\ 1 <= Employee.department_id e
  /\ str_between 1 200 (Employee.position e) = true
  /\ (exists salary, salary_field salary = Some salary
                     /\ Employee.salary e = to_float salary)
  /\ Employee.created_at e <> None.

(** Page numbers [1 .. n]. *)
Definition pages (n : nat) : list Z := map Z.of_nat (seq 1 n).

Definition sum (l : list Z) : Z := fold_right Z.add 0 l.

(** Every row satisfies the field constraints and names a department that
    exists. *)
Definition rows_well_formed (db : Database) : Prop :=
  forall e,
    In e (employees db) ->
    row_constraints e /\ department_exists (Employee.department_id e) db.



(** A patch whose first name is the empty string. *)
Definition empty_first_name : Body.t :=
  Body.mk (Value "") Unset Unset Unset Unset Unset Unset.

(** What the department check of an update raises, if anything: binding a
    [department_id] outside SQLite's INTEGER is an [OverflowError]. *)
Definition department_check (updates : EmployeeUpdate.t) (db : Database)
  : option (Response EmployeeResponse.t) :=
  match dumped VInt (EmployeeUpdate.department_id updates) with
  | Some v =>
      if negb (binds v) then Some InternalServerError
      else
        match first (filter (fun d => sql_eq_int (Department.id d) v) (departments db)) with
        | None => Some (HTTPException 404 ("Department " ++ str_value v ++ " not found")%string)
        | Some _ => None
        end
  | None => None
  end.

(** What the email check of an update raises, if anything. *)
Definition email_check (employee_id : Z) (updates : EmployeeUpdate.t) (db : Database)
  : option (Response EmployeeResponse.t) :=
  match dumped VStr (EmployeeUpdate.email updates) with
  | Some v =>
      match first (filter (fun e => sql_eq_str (Employee.email e) v
                                    && negb (Employee.id e =? employee_id)%Z)
                     (employees db)) with
      | Some _ => Some (HTTPException 409 ("Email " ++ str_value v ++ " already exists")%string)
      | None => None
      end
  | None => None
  end.

(** The patch that sets [is_active] to [null] and nothing else, sent to the
    only employee of [one_employee] at time 200. *)
Definition null_is_active_put : Response EmployeeResponse.t * Database :=
  update_employee sample_EmailStr 1 null_is_active 200 one_employee.

(** The store that request leaves. *)
Definition null_is_active_store : Database := snd null_is_active_put.

(** A payload that is well formed, whose email is free in [one_employee], and
    that names a department that does not exist. *)
Definition free_email_missing_department : Body.t :=
  employee_body "New" "User" "new@company.com" 999 "Dev" (Decimal.Finite 5000 0) Unset.

(** Patches that give one field. *)
Definition department_only (department_id : Z) : Body.t :=
  Body.mk Unset Unset Unset (Value department_id) Unset Unset Unset.

Definition salary_only (salary : Decimal.t) : Body.t :=
  Body.mk Unset Unset Unset Unset Unset (Value salary) Unset.

(** * Properties *)

(** *** Queries, keys and sorted tables *)

Lemma first_filter_Some {A : Type} (f : A -> bool) (l : list A) (x : A) :
  first (filter f l) = Some x -> In x l /\ f x = true.
Proof.
  induction l as [|a l IH]; simpl; [discriminate|].
  destruct (f a) eqn:Hfa; simpl.
  - intros [= <-]. auto.
  - intros H. destruct (IH H). auto.
Qed.

Lemma first_filter_None {A : Type} (f : A -> bool) (l : list A) :
  first (filter f l) = None <-> (forall x, In x l -> f x = false).
Proof.
  induction l as [|a l IH]; simpl.
  - split; [intros _ x []|reflexivity].
  - destruct (f a) eqn:Hfa; simpl.
    + split; [discriminate|]. intros H. rewrite (H a) in Hfa by auto. discriminate.
    + rewrite IH. split.
      * intros H x [<-|Hx]; auto.
      * intros H x Hx. apply H. auto.
Qed.

Lemma first_filter_In {A : Type} (f : A -> bool) (l : list A) (x : A) :
  In x l -> f x = true -> exists y, first (filter f l) = Some y.
Proof.
  intros Hx Hf. destruct (first (filter f l)) as [y|] eqn:E; [eauto|].
  rewrite first_filter_None in E. rewrite (E x Hx) in Hf. discriminate.
Qed.


Lemma next_rowid_gt (ids : list Z) (x : Z) : In x ids -> x < next_rowid ids.
Proof.
  unfold next_rowid. induction ids as [|a ids IH]; simpl; [intros []|].
  intros [<-|Hx]; [lia|]. specialize (IH Hx). lia.
Qed.

Lemma StronglySorted_snoc (l : list Z) (y : Z) :
  StronglySorted Z.lt l -> (forall x, In x l -> x < y) -> StronglySorted Z.lt (l ++ [y]).
Proof.
  induction 1 as [|a l Hs IH Ha]; intros Hlt; simpl.
  - constructor; constructor.
  - constructor.
    + apply IH. intros x Hx. apply Hlt. right. exact Hx.
    + apply Forall_app. split; [exact Ha|]. constructor; [|constructor].
      apply Hlt. left. reflexivity.
Qed.

Lemma StronglySorted_map_filter {A : Type} (f : A -> Z) (p : A -> bool) (l : list A) :
  StronglySorted Z.lt (map f l) -> StronglySorted Z.lt (map f (filter p l)).
Proof.
  induction l as [|a l IH]; simpl; [auto|].
  intros Hs. apply StronglySorted_inv in Hs as [Hs Ha].
  destruct (p a); simpl; [|auto].
  constructor; [auto|].
  rewrite Forall_forall in *. intros x Hx. apply Ha.
  rewrite in_map_iff in *. destruct Hx as (y & <- & Hy).
  apply filter_In in Hy as [Hy _]. eauto.
Qed.

Lemma StronglySorted_lt_NoDup (l : list Z) : StronglySorted Z.lt l -> NoDup l.
Proof.
  induction 1 as [|a l Hs IH Ha]; constructor; [|exact IH].
  intros Hin. rewrite Forall_forall in Ha. specialize (Ha a Hin). lia.
Qed.

Lemma NoDup_map_filter {Row Key : Type} (key : Row -> Key) (keep : Row -> bool)
  (rows : list Row) (Hnd : NoDup (map key rows)) :
  NoDup (map key (filter keep rows)).
Proof.
  induction rows as [|a rows IH]; simpl; [exact Hnd|].
  inversion Hnd as [|? ? Ha Hl]; subst.
  destruct (keep a); simpl; [|auto].
  constructor; [|auto].
  intros Hin. apply Ha. rewrite in_map_iff in *. destruct Hin as (y & Hy & Hin).
  apply filter_In in Hin as [Hin _]. eauto.
Qed.

Lemma NoDup_snoc {A : Type} (l : list A) (a : A) :
  NoDup l -> ~ In a l -> NoDup (l ++ [a]).
Proof.
  induction 1 as [|b l Hb Hl IH]; simpl; intros Ha.
  - constructor; [intros []|constructor].
  - constructor.
    + rewrite in_app_iff. intros [H|[<-|[]]]; [auto|]. apply Ha. left. reflexivity.
    + apply IH. intros H. apply Ha. right. exact H.
Qed.

Lemma NoDup_map_injective {A B : Type} (f : A -> B) (l : list A) (x y : A) :
  NoDup (map f l) -> In x l -> In y l -> f x = f y -> x = y.
Proof.
  induction l as [|a l IH]; simpl; [intros _ []|].
  intros Hn. inversion Hn as [|? ? Ha Hl]; subst.
  intros [<-|Hx] [<-|Hy] Hf; auto.
  - exfalso. apply Ha. rewrite Hf. apply in_map. exact Hy.
  - exfalso. apply Ha. rewrite <- Hf. apply in_map. exact Hx.
Qed.

(** Replacing the row whose key is [k] keeps a keyed column free of
    duplicates when no other row holds the new value. *)
Lemma NoDup_map_replace {A B : Type} (key : A -> Z) (f : A -> B) (k : Z) (new : A) (l : list A) :
  NoDup (map key l) -> NoDup (map f l) ->
  (forall r, In r l -> key r <> k -> f r <> f new) ->
  NoDup (map f (map (fun r => if (key r =? k)%Z then new else r) l)).
Proof.
  induction l as [|a l IH]; simpl; [constructor|].
  intros Hk Hf Hnew.
  inversion Hk as [|? ? Hka Hkl]; subst. inversion Hf as [|? ? Hfa Hfl]; subst.
  constructor.
  - rewrite in_map_iff. intros (x & Hx & Hin).
    apply in_map_iff in Hin as (r & Hr & Hin). subst x.
    destruct (Z.eqb_spec (key a) k) as [Hak|Hak];
      destruct (Z.eqb_spec (key r) k) as [Hrk|Hrk].
    + apply Hka. rewrite Hak, <- Hrk. apply in_map. exact Hin.
    + apply (Hnew _ (or_intror Hin) Hrk). exact Hx.
    + apply (Hnew a (or_introl eq_refl) Hak). symmetry. exact Hx.
    + apply Hfa. rewrite <- Hx. apply in_map. exact Hin.
  - apply IH; auto.
Qed.

Lemma map_key_replace {A : Type} (key : A -> Z) (k : Z) (new : A) (l : list A) :
  key new = k ->
  map key (map (fun r => if (key r =? k)%Z then new else r) l) = map key l.
Proof.
  intros Hnew. rewrite map_map. apply map_ext. intros r.
  destruct (Z.eqb_spec (key r) k); congruence.
Qed.

(** *** [LIKE] against substring search *)



Lemma lower_append (s t : string) : lower (s ++ t) = (lower s ++ lower t)%string.
Proof. induction s as [|c s IH]; simpl; [reflexivity|]. rewrite IH. reflexivity. Qed.









(** ** Rounding and the float round trip *)

Lemma round_half_even_close (a b : Z) :
  0 < b -> 2 * Z.abs (b * round_half_even a b - a) <= b.
Proof.
  intros Hb. unfold round_half_even.
  pose proof (Z.div_mod a b ltac:(lia)) as Hdm.
  pose proof (Z.mod_pos_bound a b Hb) as Hm.
  destruct (Z.ltb_spec (2 * (a mod b)) b); [lia|].
  destruct (Z.ltb_spec b (2 * (a mod b))); [lia|].
  destruct (Z.even (a / b)); lia.
Qed.

Lemma round_half_even_unique (a b z : Z) :
  0 < b -> 2 * Z.abs (b * z - a) < b -> round_half_even a b = z.
Proof.
  intros Hb Hz. unfold round_half_even.
  pose proof (Z.div_mod a b ltac:(lia)) as Hdm.
  pose proof (Z.mod_pos_bound a b Hb) as Hm.
  assert (Hcases : z = a / b \/ z = a / b + 1 \/ z < a / b \/ a / b + 1 < z) by lia.
  destruct (Z.ltb_spec (2 * (a mod b)) b);
    [|destruct (Z.ltb_spec b (2 * (a mod b))); [|destruct (Z.even (a / b))]];
    destruct Hcases as [->|[->|[Hc|Hc]]]; try reflexivity; exfalso; nia.
Qed.

(** The digits of a salary with at most two decimal places, as hundredths. *)
Lemma hundredths_ratio (c x : Z) :
  -2 <= x ->
  0 < 10 ^ Z.max (- x) 0 <= 100
  /\ 100 * (c * 10 ^ Z.max x 0) = c * 10 ^ (x + 2) * 10 ^ Z.max (- x) 0.
Proof.
  intros Hx.
  assert (Hc : x = -2 \/ x = -1 \/ 0 <= x) by lia.
  destruct Hc as [->|[->|Hc]].
  - change (10 ^ Z.max (- (-2)) 0) with 100. change (10 ^ Z.max (-2) 0) with 1.
    change (10 ^ (-2 + 2)) with 1. lia.
  - change (10 ^ Z.max (- (-1)) 0) with 10. change (10 ^ Z.max (-1) 0) with 1.
    change (10 ^ (-1 + 2)) with 10. lia.
  - rewrite (Z.max_r (- x) 0), (Z.max_l x 0) by lia.
    rewrite Z.pow_add_r by lia. change (10 ^ 0) with 1. change (10 ^ 2) with 100.
    split; [lia|ring].
Qed.

(** A salary of at most two decimal places below [2 ^ 46] is stored and read
    back without loss. *)
Lemma to_decimal_to_float (c x : Z) :
  0 < c -> -2 <= x -> c * 10 ^ (x + 2) < 100 * 2 ^ 46 ->
  to_decimal (to_float (Decimal.Finite c x)) = Decimal.Finite (c * 10 ^ (x + 2)) (-2).
Proof.
  intros Hc Hx Hbound.
  destruct (hundredths_ratio c x Hx) as [[Hd Hd100] Hratio].
  unfold to_float.
  destruct (Z.eqb_spec c 0) as [|_]; [lia|].
  destruct (Z.ltb_spec 0 c) as [_|]; [|lia].
  rewrite (Z.abs_eq c) by lia.
  set (n := c * 10 ^ Z.max x 0) in *.
  set (d := 10 ^ Z.max (- x) 0) in *.
  set (h := c * 10 ^ (x + 2)) in *.
  assert (Hn : 0 < n).
  { unfold n. apply Z.mul_pos_pos; [exact Hc|]. apply Z.pow_pos_nonneg; lia. }
  unfold Float.of_ratio.
  set (s := Z.log2 d + 1).
  assert (Hs : d < 2 ^ s) by (apply Z.log2_spec; exact Hd).
  assert (Hs0 : 0 < s) by (pose proof (Z.log2_nonneg d); unfold s; lia).
  set (q := n * 2 ^ s / d).
  assert (Hq : 0 < q < 2 ^ (46 + s)).
  { unfold q. split.
    - apply Z.div_str_pos. nia.
    - apply Z.div_lt_upper_bound; [exact Hd|].
      rewrite Z.pow_add_r by lia.
      assert (0 < 2 ^ s) by (apply Z.pow_pos_nonneg; lia).
      assert (n < 2 ^ 46 * d) by nia. nia. }
  assert (Hp : Z.log2 q - s <= 45).
  { assert (Z.log2 q < 46 + s) by (apply Z.log2_lt_pow2; lia). lia. }
  set (e := Z.max (Z.log2 q - s - 52) (-1074)).
  assert (He : -1074 <= e <= -7) by (unfold e; lia).
  rewrite (Z.max_l (- e) 0), (Z.max_r e 0) by lia.
  set (N := 2 ^ (- e)).
  assert (HN : 128 <= N).
  { unfold N. change 128 with (2 ^ 7). apply Z.pow_le_mono_r; lia. }
  change (2 ^ 0) with 1. rewrite Z.mul_1_r.
  set (m := round_half_even (n * N) d).
  pose proof (round_half_even_close (n * N) d Hd) as Hm. fold m in Hm.
  destruct (Z.ltb_spec 971 e); [lia|].
  destruct (Z.eqb_spec e 971); [lia|]. cbn [orb andb].
  unfold to_decimal.
  destruct (Z.leb_spec 0 e); [lia|]. fold N.
  f_equal. apply round_half_even_unique; [lia|].
  assert (Hk : d * (N * h - 100 * m) = 100 * (n * N - d * m)) by nia.
  assert (Z.abs (N * h - 100 * m) <= 50) by nia.
  lia.
Qed.
Section Properties.

Variable EmailStr : string -> option string.

(** *** The empty search string *)

(** C9. A [search] parameter given as the empty string is handled exactly as
    an absent one: the listing applies no search condition and returns the
    same response. *)
Theorem list_employees_empty_search :
  forall page page_size department_id is_active db,
    list_employees EmailStr page page_size department_id is_active (Some "") db
    = list_employees EmailStr page page_size department_id is_active None db.
Proof. reflexivity. Qed.

(** *** The checks of a creation, in order *)

Lemma create_employee_invalid body now db :
  EmployeeCreate_validate EmailStr body = None ->
  create_employee EmailStr body now db = (RequestValidationError, db).
Proof. unfold create_employee. intros ->. reflexivity. Qed.

Lemma create_employee_conflict body now db employee :
  EmployeeCreate_validate EmailStr body = Some employee ->
  email_taken (EmployeeCreate.email employee) db ->
  create_employee EmailStr body now db
  = (HTTPException 409 ("Email " ++ EmployeeCreate.email employee ++ " already exists")%string, db).
Proof.
  unfold create_employee. intros -> (r & Hr & He).
  destruct (first_filter_In
              (fun e => String.eqb (Employee.email e) (EmployeeCreate.email employee))
              (employees db) r Hr) as [y ->]; [|reflexivity].
  apply String.eqb_eq. exact He.
Qed.

Lemma create_employee_not_found body now db employee :
  EmployeeCreate_validate EmailStr body = Some employee ->
  ~ email_taken (EmployeeCreate.email employee) db ->
  sqlite_int (EmployeeCreate.department_id employee) = true ->
  ~ department_exists (EmployeeCreate.department_id employee) db ->
  create_employee EmailStr body now db
  = (HTTPException 404
       ("Department " ++ str_int (EmployeeCreate.department_id employee) ++ " not found")%string,
     db).
Proof.
  unfold create_employee. intros -> Hfree Hint Hdept.
  destruct (first (filter _ (employees db))) as [e|] eqn:E1.
  - apply first_filter_Some in E1 as [Hin He]. apply String.eqb_eq in He.
    exfalso. apply Hfree. exists e. auto.
  - rewrite Hint. cbn [negb].
    destruct (first (filter _ (departments db))) as [d|] eqn:E2; [|reflexivity].
    apply first_filter_Some in E2 as [Hin Hd]. apply Z.eqb_eq in Hd.
    exfalso. apply Hdept. exists d. auto.
Qed.

Lemma create_employee_404 body now db employee :
  EmployeeCreate_validate EmailStr body = Some employee ->
  status (fst (create_employee EmailStr body now db)) = 404 ->
  ~ email_taken (EmployeeCreate.email employee) db
  /\ ~ department_exists (EmployeeCreate.department_id employee) db.
Proof.
  unfold create_employee. intros ->.
  destruct (first (filter _ (employees db))) as [e|] eqn:E1; [discriminate|].
  pose proof (proj1 (first_filter_None _ _) E1) as Hnone.
  destruct (sqlite_int (EmployeeCreate.department_id employee)); [|discriminate].
  cbn [negb].
  destruct (first (filter _ (departments db))) as [d|] eqn:E2.
  - destruct (insert_employee employee now db) as [[row db']|]; [|discriminate].
    destruct (refresh _ db') as [row'|]; [|discriminate].
    destruct (EmployeeResponse_model_validate EmailStr row'); discriminate.
  - intros _. pose proof (proj1 (first_filter_None _ _) E2) as Hd. split.
    + intros (r & Hr & He). specialize (Hnone r Hr). cbn in Hnone.
      apply String.eqb_neq in Hnone. contradiction.
    + intros (d & Hin & Hid). specialize (Hd d Hin). cbn in Hd.
      apply Z.eqb_neq in Hd. contradiction.
Qed.

(** C3. Creation checks the payload first (422), then the uniqueness of the
    email (409), then the existence of the department (404): a valid payload
    whose email is taken is answered 409 whether or not its department
    exists; a valid payload whose email is free and whose department id, a
    number SQLite can hold, names no department is answered 404; and 404 is
    answered only when the email is free and the department is missing. *)
Theorem create_employee_check_order :
  forall body now db,
    (EmployeeCreate_validate EmailStr body = None ->
     create_employee EmailStr body now db = (RequestValidationError, db))
    /\ (forall employee,
          EmployeeCreate_validate EmailStr body = Some employee ->
          email_taken (EmployeeCreate.email employee) db ->
          ~ department_exists (EmployeeCreate.department_id employee) db ->
          status (fst (create_employee EmailStr body now db)) = 409)
    /\ (forall employee,
          EmployeeCreate_validate EmailStr body = Some employee ->
          email_taken (EmployeeCreate.email employee) db ->
          status (fst (create_employee EmailStr body now db)) = 409)
    /\ (forall employee,
          EmployeeCreate_validate EmailStr body = Some employee ->
          ~ email_taken (EmployeeCreate.email employee) db ->
          sqlite_int (EmployeeCreate.department_id employee) = true ->
          ~ department_exists (EmployeeCreate.department_id employee) db ->
          status (fst (create_employee EmailStr body now db)) = 404)
    /\ (forall employee,
          EmployeeCreate_validate EmailStr body = Some employee ->
          status (fst (create_employee EmailStr body now db)) = 404 ->
          ~ email_taken (EmployeeCreate.email employee) db
          /\ ~ department_exists (EmployeeCreate.department_id employee) db).
Proof.
  intros body now db. split; [|split; [|split; [|split]]].
  - apply create_employee_invalid.
  - intros employee Hv Ht _. rewrite (create_employee_conflict _ _ _ _ Hv Ht). reflexivity.
  - intros employee Hv Ht. rewrite (create_employee_conflict _ _ _ _ Hv Ht). reflexivity.
  - intros employee Hv Hf Hi Hd.
    rewrite (create_employee_not_found _ _ _ _ Hv Hf Hi Hd). reflexivity.
  - intros employee. apply create_employee_404.
Qed.


(** *** Refused requests *)

Lemma create_employee_rejected body now db :
  rejected (fst (create_employee EmailStr body now db)) ->
  snd (create_employee EmailStr body now db) = db.
Proof.
  unfold create_employee.
  destruct (EmployeeCreate_validate EmailStr body) as [employee|]; [|reflexivity].
  destruct (first (filter _ (employees db))); [reflexivity|].
  destruct (sqlite_int (EmployeeCreate.department_id employee)); [|reflexivity].
  cbn [negb].
  destruct (first (filter _ (departments db))); [|reflexivity].
  destruct (insert_employee employee now db) as [[row db']|]; [|intros []].
  destruct (refresh _ db') as [row'|]; [|intros []].
  destruct (EmployeeResponse_model_validate EmailStr row'); intros [].
Qed.

Lemma update_employee_rejected employee_id body now db :
  rejected (fst (update_employee EmailStr employee_id body now db)) ->
  snd (update_employee EmailStr employee_id body now db) = db.
Proof.
  unfold update_employee.
  destruct (EmployeeUpdate_validate EmailStr body) as [updates|]; [|reflexivity].
  destruct (sqlite_int employee_id); [|reflexivity]. cbn [negb].
  destruct (first (filter _ (employees db))) as [employee|]; [|reflexivity].
  cbv zeta.
  repeat match goal with
         | |- context [match ?x with Some raised => (raised, _) | None => _ end] =>
             destruct x; [reflexivity|]
         end.
  destruct (commit_update _ _ _ _) as [db'|]; [|intros []].
  destruct (refresh _ db') as [row'|]; [|intros []].
  destruct (EmployeeResponse_model_validate EmailStr row'); intros [].
Qed.

Lemma delete_employee_rejected employee_id db :
  rejected (fst (delete_employee employee_id db)) ->
  snd (delete_employee employee_id db) = db.
Proof.
  unfold delete_employee.
  destruct (sqlite_int employee_id); [|reflexivity]. cbn [negb].
  destruct (first (filter _ (employees db))); [intros []|reflexivity].
Qed.

(** *** The listing query and its pages *)

Lemma filter_filter {A : Type} (f g : A -> bool) (l : list A) :
  filter f (filter g l) = filter (fun x => g x && f x) l.
Proof.
  induction l as [|a l IH]; simpl; [reflexivity|].
  destruct (g a); simpl; [destruct (f a)|]; rewrite IH; reflexivity.
Qed.

Lemma filter_all {A : Type} (l : list A) : filter (fun _ => true) l = l.
Proof. induction l; simpl; congruence. Qed.

(** The query the handler builds, one condition at a time, selects the rows
    that satisfy all the conditions at once. *)
Lemma list_employees_query department_id is_active search rows :
  (let query := rows in
   let query :=
     match department_id with
     | Some d => filter (fun e => (Employee.department_id e =? d)%Z) query
     | None => query
     end in
   let query :=
     match is_active with
     | Some b => filter (fun e => sql_eq_bool (Employee.is_active e) b) query
     | None => query
     end in
   if truthy search then
     let search_term := ("%" ++ match search with Some s => s | None => "" end ++ "%")%string in
     filter (fun e => ilike (Employee.first_name e) search_term
                      || ilike (Employee.last_name e) search_term
                      || ilike (Employee.email e) search_term) query
   else query)
  = filter (selected department_id is_active search) rows.
Proof.
  unfold selected, search_matches.
  destruct department_id as [d|], is_active as [b|], search as [[|c s]|]; cbn -[ilike append];
    rewrite ?filter_filter;
    first [ symmetry; apply filter_all
          | apply filter_ext; intros e; rewrite ?andb_true_r, ?andb_assoc; reflexivity ].
Qed.

Lemma sqlite_int_spec z : sqlite_int z = true <-> - 2 ^ 63 <= z < 2 ^ 63.
Proof. unfold sqlite_int. rewrite andb_true_iff, Z.leb_le, Z.ltb_lt. reflexivity. Qed.

Lemma list_employees_unfold page page_size department_id is_active search db :
  list_employees EmailStr page page_size department_id is_active search db
  = if negb ((1 <=? page)%Z && (1 <=? page_size)%Z && (page_size <=? 100)%Z)
    then RequestValidationError
    else if negb (match department_id with Some d => sqlite_int d | None => true end)
    then InternalServerError
    else if negb (sqlite_int ((page - 1) * page_size) && sqlite_int page_size)
    then InternalServerError
    else
      let matching := filter (selected department_id is_active search) (employees db) in
      let total := Z.of_nat (List.length matching) in
      match traverse (EmployeeResponse_model_validate EmailStr)
              (page_window page page_size matching) with
      | Some items =>
          Returned 200
            (EmployeeListResponse.mk items total page page_size
               (if (0 <? total)%Z then math_ceil_div total page_size else 1))
      | None => InternalServerError
      end.
Proof.
  unfold list_employees. cbv zeta.
  pose proof (list_employees_query department_id is_active search (employees db)) as Hq.
  cbv zeta in Hq. rewrite Hq. reflexivity.
Qed.


Lemma math_ceil_div_bounds total page_size :
  0 < page_size -> 0 < total ->
  (math_ceil_div total page_size - 1) * page_size < total
  /\ total <= math_ceil_div total page_size * page_size.
Proof.
  intros Hs Ht. unfold math_ceil_div.
  pose proof (Z.div_mod (total + page_size - 1) page_size ltac:(lia)) as Hdm.
  pose proof (Z.mod_pos_bound (total + page_size - 1) page_size Hs) as Hm.
  split; nia.
Qed.



(** *** What each mutating handler does to the store *)

Lemma setattr_id o name v : Instance.id (setattr o name v) = Instance.id o.
Proof.
  destruct o. unfold setattr.
  repeat match goal with
         | |- context [if String.eqb ?a ?b then _ else _] => destruct (String.eqb a b)
         end;
    destruct v; reflexivity.
Qed.

Lemma setattr_items_id update_data o :
  Instance.id (setattr_items update_data o) = Instance.id o.
Proof.
  unfold setattr_items. revert o.
  induction update_data as [|kv d IH]; intros o; simpl; [reflexivity|].
  rewrite IH. apply setattr_id.
Qed.

Lemma updated_row_id employee o now row :
  updated_row employee o now = Some row -> Employee.id row = Instance.id o.
Proof.
  unfold updated_row.
  destruct (Instance.first_name o), (Instance.last_name o), (Instance.email o),
    (Instance.department_id o), (Instance.position o), (Instance.salary o);
    try discriminate.
  intros [= <-]. reflexivity.
Qed.

Lemma insert_employee_Some employee now db row db' :
  insert_employee employee now db = Some (row, db') ->
  db' = mkDatabase (departments db) (employees db ++ [row])
  /\ ~ email_taken (Employee.email row) db
  /\ row = Employee.mk (next_rowid (map Employee.id (employees db)))
             (EmployeeCreate.first_name employee) (EmployeeCreate.last_name employee)
             (EmployeeCreate.email employee) (EmployeeCreate.department_id employee)
             (EmployeeCreate.position employee) (to_float (EmployeeCreate.salary employee))
             (Some (EmployeeCreate.is_active employee)) (Some now) None.
Proof.
  unfold insert_employee.
  destruct (existsb _ (employees db)) eqn:E; [discriminate|].
  destruct (sqlite_int (next_rowid _)); [|discriminate]. cbn [negb].
  intros [= <- <-]. repeat split.
  intros (r & Hr & He). cbn in He.
  assert (existsb (fun r => String.eqb (Employee.email r) (EmployeeCreate.email employee))
            (employees db) = true); [|congruence].
  apply existsb_exists. exists r. split; [exact Hr|]. apply String.eqb_eq. exact He.
Qed.

Lemma insert_employee_rowid employee now db row db' :
  insert_employee employee now db = Some (row, db') ->
  sqlite_int (Employee.id row) = true.
Proof.
  unfold insert_employee.
  destruct (existsb _ (employees db)); [discriminate|].
  destruct (sqlite_int (next_rowid _)) eqn:E; [|discriminate]. cbn [negb].
  intros [= <- <-]. exact E.
Qed.

Lemma create_employee_snd body now db :
  snd (create_employee EmailStr body now db) = db
  \/ exists employee row,
       EmployeeCreate_validate EmailStr body = Some employee
       /\ department_exists (EmployeeCreate.department_id employee) db
       /\ insert_employee employee now db
          = Some (row, snd (create_employee EmailStr body now db)).
Proof.
  unfold create_employee.
  destruct (EmployeeCreate_validate EmailStr body) as [employee|]; [|auto].
  destruct (first (filter _ (employees db))); [auto|].
  destruct (sqlite_int (EmployeeCreate.department_id employee)); [|auto]. cbn [negb].
  destruct (first (filter _ (departments db))) as [d|] eqn:Ed; [|auto].
  apply first_filter_Some in Ed as [Hd Hid]. apply Z.eqb_eq in Hid.
  destruct (insert_employee employee now db) as [[row db']|] eqn:E; [|auto].
  right. exists employee, row. split; [reflexivity|]. split; [exists d; auto|].
  rewrite E. f_equal. f_equal.
  destruct (refresh _ db') as [row'|]; [|reflexivity].
  destruct (EmployeeResponse_model_validate EmailStr row'); reflexivity.
Qed.

Lemma commit_update_Some employee o now db db' :
  commit_update employee o now db = Some db' ->
  db' = db
  \/ exists row,
       modified (load employee) o = true
       /\ updated_row employee o now = Some row
       /\ (Employee.email row = Employee.email employee
           \/ forall r, In r (employees db) ->
                        Employee.id r <> Employee.id employee ->
                        Employee.email r <> Employee.email row)
       /\ db' = mkDatabase (departments db)
                  (map (fun r => if (Employee.id r =? Employee.id employee)%Z then row else r)
                     (employees db)).
Proof.
  unfold commit_update.
  destruct (modified (load employee) o); [|intros [= <-]; auto].
  destruct (updated_row employee o now) as [row|]; [|discriminate].
  destruct (String.eqb_spec (Employee.email row) (Employee.email employee)) as [He|He]; cbn [negb andb].
  - intros [= <-]. right. exists row. auto.
  - destruct (existsb _ (employees db)) eqn:E; [discriminate|].
    intros [= <-]. right. exists row. repeat split; auto. right.
    intros r Hr Hid Hem.
    assert (existsb (fun r => String.eqb (Employee.email r) (Employee.email row)
                              && negb (Employee.id r =? Employee.id employee)%Z)
              (employees db) = true); [|congruence].
    apply existsb_exists. exists r. split; [exact Hr|].
    rewrite andb_true_iff, negb_true_iff, String.eqb_eq, Z.eqb_neq. auto.
Qed.

Lemma update_employee_snd employee_id body now db :
  snd (update_employee EmailStr employee_id body now db) = db
  \/ exists updates employee,
       EmployeeUpdate_validate EmailStr body = Some updates
       /\ In employee (employees db)
       /\ Employee.id employee = employee_id
       /\ commit_update employee
            (setattr_items (model_dump_exclude_unset updates) (load employee)) now db
          = Some (snd (update_employee EmailStr employee_id body now db)).
Proof.
  unfold update_employee.
  destruct (EmployeeUpdate_validate EmailStr body) as [updates|]; [|auto].
  destruct (sqlite_int employee_id); [|auto]. cbn [negb].
  destruct (first (filter _ (employees db))) as [employee|] eqn:Ee; [|auto].
  apply first_filter_Some in Ee as [Hin Hid]. apply Z.eqb_eq in Hid.
  destruct (match get "department_id" _ with Some _ => _ | None => _ end); [auto|].
  destruct (match get "email" _ with Some _ => _ | None => _ end); [auto|].
  destruct (commit_update _ _ _ _) as [db'|] eqn:Ec; [|auto].
  right. exists updates, employee. repeat split; auto.
  rewrite Ec. f_equal.
  destruct (refresh _ db') as [row'|]; [|reflexivity].
  destruct (EmployeeResponse_model_validate EmailStr row'); reflexivity.
Qed.

Lemma delete_employee_snd employee_id db :
  departments (snd (delete_employee employee_id db)) = departments db
  /\ (employees (snd (delete_employee employee_id db)) = employees db
      \/ employees (snd (delete_employee employee_id db))
         = filter (fun r => negb (Employee.id r =? employee_id)%Z) (employees db)).
Proof.
  unfold delete_employee.
  destruct (sqlite_int employee_id); [|auto]. cbn [negb].
  destruct (first (filter _ (employees db))) as [employee|] eqn:Ee; [|auto].
  apply first_filter_Some in Ee as [Hin Hid]. apply Z.eqb_eq in Hid. subst employee_id.
  split; [reflexivity|]. right. reflexivity.
Qed.

Lemma store_invariant_create body now db :
  store_invariant db -> store_invariant (snd (create_employee EmailStr body now db)).
Proof.
  intros (Hd & Hs & He).
  destruct (create_employee_snd body now db) as [->|(employee & row & _ & _ & Hi)];
    [repeat split; assumption|].
  apply insert_employee_Some in Hi as (-> & Hfree & Hrow).
  unfold store_invariant. cbn [departments employees]. rewrite !map_app. cbn [map].
  repeat split; [exact Hd| |].
  - apply StronglySorted_snoc; [exact Hs|]. intros x Hx. rewrite Hrow. cbn.
    apply next_rowid_gt. exact Hx.
  - apply NoDup_snoc; [exact He|]. intros Hin. apply Hfree.
    apply in_map_iff in Hin as (r & Hr & Hin). exists r. auto.
Qed.

Lemma store_invariant_update employee_id body now db :
  store_invariant db -> store_invariant (snd (update_employee EmailStr employee_id body now db)).
Proof.
  intros (Hd & Hs & He).
  destruct (update_employee_snd employee_id body now db)
    as [->|(updates & employee & _ & Hin & Hid & Hc)]; [repeat split; assumption|].
  apply commit_update_Some in Hc as [->|(row & _ & Hrow & Hemail & ->)];
    [repeat split; assumption|].
  apply updated_row_id in Hrow. rewrite setattr_items_id in Hrow. cbn in Hrow.
  unfold store_invariant. cbn [departments employees]. repeat split; [exact Hd| |].
  - rewrite map_key_replace by exact Hrow. exact Hs.
  - apply NoDup_map_replace; [apply StronglySorted_lt_NoDup; exact Hs|exact He|].
    destruct Hemail as [Hsame|Hother]; [|exact Hother].
    intros r Hr Hne Heq. apply Hne. f_equal.
    apply (NoDup_map_injective Employee.email (employees db)); auto. congruence.
Qed.

Lemma store_invariant_delete employee_id db :
  store_invariant db -> store_invariant (snd (delete_employee employee_id db)).
Proof.
  intros (Hd & Hs & He).
  destruct (delete_employee_snd employee_id db) as [Hdep [Hemp|Hemp]];
    unfold store_invariant; rewrite Hdep, Hemp; repeat split; auto.
  - apply StronglySorted_map_filter. exact Hs.
  - apply NoDup_map_filter. exact He.
Qed.

Lemma store_invariant_lifespan : store_invariant lifespan.
Proof. repeat split; constructor. Qed.

Lemma reachable_store_invariant db : reachable EmailStr db -> store_invariant db.
Proof.
  induction 1.
  - apply store_invariant_lifespan.
  - apply store_invariant_create. assumption.
  - apply store_invariant_update. assumption.
  - apply store_invariant_delete. assumption.
Qed.

(** *** Serialising rows *)

Lemma guard_Some {A : Type} (b : bool) (a x : A) : guard b a = Some x -> b = true /\ x = a.
Proof. destruct b; simpl; [intros [= <-]; auto|discriminate]. Qed.

Lemma salary_field_Some d x :
  salary_field d = Some x ->
  x = d /\ exists c e, d = Decimal.Finite c e /\ 0 < c.
Proof.
  unfold salary_field. destruct d as [c e| |]; try discriminate.
  intros H. apply guard_Some in H as [Hb ->]. split; [reflexivity|].
  apply andb_true_iff in Hb as [Hc _]. apply Z.ltb_lt in Hc. eauto.
Qed.

Lemma EmployeeResponse_model_validate_Some emp r :
  EmployeeResponse_model_validate EmailStr emp = Some r ->
  EmployeeResponse.id r = Employee.id emp
  /\ EmployeeResponse.first_name r = Employee.first_name emp
  /\ EmployeeResponse.last_name r = Employee.last_name emp
  /\ EmailStr (Employee.email emp) = Some (EmployeeResponse.email r)
  /\ EmployeeResponse.department_id r = Employee.department_id emp
  /\ EmployeeResponse.position r = Employee.position emp
  /\ EmployeeResponse.salary r = to_decimal (Employee.salary emp)
  /\ Employee.is_active emp = Some (EmployeeResponse.is_active r)
  /\ Employee.created_at emp = Some (EmployeeResponse.created_at r)
  /\ EmployeeResponse.updated_at r = Employee.updated_at emp.
Proof.
  unfold EmployeeResponse_model_validate, name_field, position_field,
    department_id_field.
  destruct (guard _ (Employee.first_name emp)) as [fn|] eqn:E1; [|discriminate].
  destruct (guard _ (Employee.last_name emp)) as [ln|] eqn:E2; [|discriminate].
  destruct (EmailStr (Employee.email emp)) as [em|] eqn:E3; [|discriminate].
  destruct (guard _ (Employee.department_id emp)) as [dp|] eqn:E4; [|discriminate].
  destruct (guard _ (Employee.position emp)) as [ps|] eqn:E5; [|discriminate].
  destruct (salary_field (to_decimal (Employee.salary emp))) as [sl|] eqn:E6; [|discriminate].
  destruct (Employee.is_active emp) as [ac|]; [|discriminate].
  destruct (Employee.created_at emp) as [cr|]; [|discriminate].
  apply guard_Some in E1 as [_ ->], E2 as [_ ->], E4 as [_ ->], E5 as [_ ->].
  apply salary_field_Some in E6 as [-> _].
  intros [= <-]. cbn. repeat split; reflexivity.
Qed.

Lemma traverse_model_validate_ids rows items :
  traverse (EmployeeResponse_model_validate EmailStr) rows = Some items ->
  map EmployeeResponse.id items = map Employee.id rows.
Proof.
  revert items. induction rows as [|e rows IH]; simpl; intros items.
  - intros [= <-]. reflexivity.
  - destruct (EmployeeResponse_model_validate EmailStr e) as [r|] eqn:Er; [|discriminate].
    destruct (traverse _ rows) as [rs|]; [|discriminate].
    intros [= <-]. simpl. rewrite (IH rs eq_refl).
    apply EmployeeResponse_model_validate_Some in Er as [-> _]. reflexivity.
Qed.




Lemma page_window_In {A : Type} page page_size (rows : list A) (x : A) :
  In x (page_window page page_size rows) -> In x rows.
Proof.
  unfold page_window. intros H.
  rewrite <- (firstn_skipn (Z.to_nat ((page - 1) * page_size)) rows).
  apply in_or_app. right.
  rewrite <- (firstn_skipn (Z.to_nat page_size)
                (skipn (Z.to_nat ((page - 1) * page_size)) rows)).
  apply in_or_app. left. exact H.
Qed.

Lemma list_employees_Returned page page_size department_id is_active search db c r :
  list_employees EmailStr page page_size department_id is_active search db = Returned c r ->
  c = 200 /\ 1 <= page /\ 1 <= page_size <= 100
  /\ traverse (EmployeeResponse_model_validate EmailStr)
       (page_window page page_size
          (filter (selected department_id is_active search) (employees db)))
     = Some (EmployeeListResponse.items r)
  /\ EmployeeListResponse.total r
     = Z.of_nat (List.length (filter (selected department_id is_active search)
                                (employees db)))
  /\ EmployeeListResponse.page r = page
  /\ EmployeeListResponse.page_size r = page_size
  /\ EmployeeListResponse.total_pages r
     = (if (0 <? EmployeeListResponse.total r)%Z
        then math_ceil_div (EmployeeListResponse.total r) page_size else 1).
Proof.
  rewrite list_employees_unfold.
  destruct ((1 <=? page)%Z && (1 <=? page_size)%Z && (page_size <=? 100)%Z) eqn:E;
    [|discriminate].
  rewrite !andb_true_iff, !Z.leb_le in E. cbn [negb].
  destruct (match department_id with Some d => sqlite_int d | None => true end);
    [|discriminate].
  destruct (sqlite_int ((page - 1) * page_size) && sqlite_int page_size); [|discriminate].
  cbn [negb]. cbv zeta.
  destruct (traverse _ _) as [items|]; [|discriminate].
  intros H. injection H as <- <-. cbn. tauto.
Qed.

Lemma list_employees_binds page page_size department_id is_active search db c r :
  list_employees EmailStr page page_size department_id is_active search db = Returned c r ->
  listing_binds page page_size department_id.
Proof.
  rewrite list_employees_unfold.
  destruct ((1 <=? page)%Z && (1 <=? page_size)%Z && (page_size <=? 100)%Z); [|discriminate].
  cbn [negb].
  destruct (match department_id with Some d => sqlite_int d | None => true end) eqn:Ed;
    [|discriminate].
  destruct (sqlite_int ((page - 1) * page_size) && sqlite_int page_size) eqn:Eo;
    [|discriminate].
  intros _. apply andb_true_iff in Eo as [Eo _]. apply sqlite_int_spec in Eo.
  split; [lia|]. destruct department_id; [apply sqlite_int_spec; exact Ed|exact I].
Qed.






(** *** Department counts *)

Lemma length_filter_count_occ (rows : list Employee.t) (k : Z) :
  List.length (filter (fun e => (Employee.department_id e =? k)%Z) rows)
  = count_occ Z.eq_dec (map Employee.department_id rows) k.
Proof.
  induction rows as [|e rows IH]; simpl; [reflexivity|].
  destruct (Z.eqb_spec (Employee.department_id e) k) as [Hk|Hk];
    destruct (Z.eq_dec (Employee.department_id e) k); try contradiction; simpl; congruence.
Qed.

Lemma employee_count_live db dept :
  employee_count db dept = live_count db (Department.id dept).
Proof.
  unfold employee_count, live_count, Department_employees. cbv zeta.
  rewrite <- length_filter_count_occ.
  destruct (filter _ (employees db)); reflexivity.
Qed.

Lemma traverse_departments db (depts : list Department.t) :
  forallb (fun d => str_between 1 100 (Department.name d)
                    && str_between 1 10 (Department.code d)) depts = true ->
  traverse (DepartmentResponse_model_validate db) depts
  = Some (map (fun d => DepartmentResponse.mk (Department.name d) (Department.code d)
                          (Department.id d) (live_count db (Department.id d)))
            depts).
Proof.
  induction depts as [|d depts IH]; [reflexivity|].
  cbn [forallb traverse map]. rewrite andb_true_iff, andb_true_iff.
  intros [[Hn Hc] Hrest]. unfold DepartmentResponse_model_validate at 1.
  rewrite Hn, Hc. cbn [guard]. rewrite (IH Hrest), employee_count_live. reflexivity.
Qed.

Lemma list_departments_seeded db :
  departments db = departments lifespan ->
  list_departments db
  = Returned 200
      (map (fun d => DepartmentResponse.mk (Department.name d) (Department.code d)
                       (Department.id d) (live_count db (Department.id d)))
         (departments db)).
Proof.
  intros Hd. unfold list_departments. rewrite traverse_departments; [reflexivity|].
  rewrite Hd. vm_compute. reflexivity.
Qed.


Lemma filter_id_fresh (rows : list Employee.t) (k : Z) :
  (forall x, In x (map Employee.id rows) -> x < k) ->
  filter (fun e => (Employee.id e =? k)%Z) rows = []
  /\ filter (fun e => negb (Employee.id e =? k)%Z) rows = rows.
Proof.
  induction rows as [|a rows IH]; intros Hlt; [split; reflexivity|].
  cbn [filter]. pose proof (Hlt (Employee.id a) (or_introl eq_refl)) as Ha.
  destruct (Z.eqb_spec (Employee.id a) k) as [Heq|_]; [lia|]. cbn [negb].
  destruct IH as [IH1 IH2]; [intros x Hx; apply Hlt; right; exact Hx|].
  rewrite IH1, IH2. split; reflexivity.
Qed.

Lemma refresh_inserted deps rows row :
  Employee.id row = next_rowid (map Employee.id rows) ->
  refresh (Employee.id row) (mkDatabase deps (rows ++ [row])) = Some row.
Proof.
  intros Hid. unfold refresh. cbn [employees]. rewrite filter_app.
  destruct (filter_id_fresh rows (Employee.id row)) as [-> _].
  - intros x Hx. rewrite Hid. apply next_rowid_gt. exact Hx.
  - cbn. rewrite Z.eqb_refl. reflexivity.
Qed.

Lemma delete_inserted deps rows row :
  Employee.id row = next_rowid (map Employee.id rows) ->
  sqlite_int (Employee.id row) = true ->
  delete_employee (Employee.id row) (mkDatabase deps (rows ++ [row]))
  = (Returned 204 tt, mkDatabase deps rows).
Proof.
  intros Hid Hint. unfold delete_employee. rewrite Hint. cbn [negb].
  pose proof (refresh_inserted deps rows row Hid) as Hr. unfold refresh in Hr. rewrite Hr.
  unfold commit_delete. cbn [employees departments]. rewrite filter_app.
  destruct (filter_id_fresh rows (Employee.id row)) as [_ ->].
  - intros x Hx. rewrite Hid. apply next_rowid_gt. exact Hx.
  - cbn. rewrite Z.eqb_refl. cbn. rewrite app_nil_r. reflexivity.
Qed.

Lemma create_employee_Returned body now db c r db' :
  create_employee EmailStr body now db = (Returned c r, db') ->
  c = 201
  /\ exists employee row,
       EmployeeCreate_validate EmailStr body = Some employee
       /\ insert_employee employee now db = Some (row, db')
       /\ EmployeeResponse_model_validate EmailStr row = Some r.
Proof.
  unfold create_employee.
  destruct (EmployeeCreate_validate EmailStr body) as [employee|]; [|discriminate].
  destruct (first (filter _ (employees db))); [discriminate|].
  destruct (sqlite_int (EmployeeCreate.department_id employee)); [|discriminate].
  cbn [negb].
  destruct (first (filter _ (departments db))); [|discriminate].
  destruct (insert_employee employee now db) as [[row db1]|] eqn:Ei; [|discriminate].
  pose proof (insert_employee_Some _ _ _ _ _ Ei) as (-> & _ & Hrow).
  rewrite refresh_inserted by (rewrite Hrow; reflexivity).
  destruct (EmployeeResponse_model_validate EmailStr row) as [r'|] eqn:Ev; [|discriminate].
  intros [= <- <- <-]. split; [reflexivity|]. exists employee, row. auto.
Qed.

Lemma live_count_insert deps rows row k :
  live_count (mkDatabase deps (rows ++ [row])) k
  = live_count (mkDatabase deps rows) k
    + (if (Employee.department_id row =? k)%Z then 1 else 0).
Proof.
  unfold live_count. cbn [employees]. rewrite map_app, count_occ_app. cbn.
  destruct (Z.eq_dec (Employee.department_id row) k) as [Hk|Hk];
    destruct (Z.eqb_spec (Employee.department_id row) k); try contradiction; lia.
Qed.


(** C8. In every state the API reaches, the department listing answers 200
    with one entry per department whose [employee_count] is the number of
    employee rows that reference the department at that moment; a successful
    creation raises the count of the employee's department by exactly one
    and no other count, and deleting that employee brings every count back
    to its previous value. *)
Theorem employee_count_is_live :
  forall db,
    reachable EmailStr db ->
    (exists body,
        list_departments db = Returned 200 body
        /\ Forall2 (fun d r =>
                      DepartmentResponse.id r = Department.id d
                      /\ DepartmentResponse.name r = Department.name d
                      /\ DepartmentResponse.code r = Department.code d
                      /\ DepartmentResponse.employee_count r
                         = live_count db (Department.id d))
             (departments db) body)
    /\ (forall dept, employee_count db dept = live_count db (Department.id dept))
    /\ (forall body now r db',
          create_employee EmailStr body now db = (Returned 201 r, db') ->
          live_count db' (EmployeeResponse.department_id r)
          = live_count db (EmployeeResponse.department_id r) + 1
          /\ (forall other,
                other <> EmployeeResponse.department_id r ->
                live_count db' other = live_count db other)
          /\ exists db'',
               delete_employee (EmployeeResponse.id r) db' = (Returned 204 tt, db'')
               /\ forall any, live_count db'' any = live_count db any).
Proof.
  intros db Hreach.
  destruct (reachable_store_invariant db Hreach) as (Hdeps & _ & _).
  split; [|split].
  - eexists. split; [apply list_departments_seeded; exact Hdeps|].
    clear Hdeps. induction (departments db) as [|d ds IH]; cbn [map];
      [constructor|constructor; [repeat split|exact IH]].
  - apply employee_count_live.
  - intros body now r db' Hcreate.
    apply create_employee_Returned in Hcreate as (_ & employee & row & _ & Hi & Hv).
    pose proof (insert_employee_rowid _ _ _ _ _ Hi) as Hint.
    pose proof (insert_employee_Some _ _ _ _ _ Hi) as (-> & _ & Hrow).
    apply EmployeeResponse_model_validate_Some in Hv
      as (Hid & _ & _ & _ & Hdept & _).
    rewrite Hid, Hdept.
    assert (Hdb : mkDatabase (departments db) (employees db) = db) by (destruct db; reflexivity).
    split; [|split].
    + rewrite live_count_insert, Hdb, Z.eqb_refl. reflexivity.
    + intros other Hother. rewrite live_count_insert, Hdb.
      destruct (Z.eqb_spec (Employee.department_id row) other); [congruence|lia].
    + exists db. split; [|reflexivity].
      rewrite delete_inserted by (first [exact Hint|rewrite Hrow; reflexivity]).
      rewrite Hdb. reflexivity.
Qed.

(** A mutating request that is refused with 422, 404 or 409 leaves the
    store exactly as it found it.  In particular a creation whose email is
    already held is answered 409 and the number of rows with that email is
    what it was (one, in a reachable state), and a creation that names a
    missing department is answered 404 and adds no row. *)
Lemma client_error_leaves_store :
  forall db now,
    (forall body,
        rejected (fst (create_employee EmailStr body now db)) ->
        snd (create_employee EmailStr body now db) = db)
    /\ (forall employee_id body,
          rejected (fst (update_employee EmailStr employee_id body now db)) ->
          snd (update_employee EmailStr employee_id body now db) = db)
    /\ (forall employee_id,
          rejected (fst (delete_employee employee_id db)) ->
          snd (delete_employee employee_id db) = db)
    /\ (forall body employee,
          EmployeeCreate_validate EmailStr body = Some employee ->
          email_taken (EmployeeCreate.email employee) db ->
          status (fst (create_employee EmailStr body now db)) = 409
          /\ snd (create_employee EmailStr body now db) = db
          /\ (reachable EmailStr db ->
              List.length (filter (fun e => String.eqb (Employee.email e)
                                              (EmployeeCreate.email employee))
                             (employees (snd (create_employee EmailStr body now db))))
              = 1%nat))
    /\ (forall body employee,
          EmployeeCreate_validate EmailStr body = Some employee ->
          ~ email_taken (EmployeeCreate.email employee) db ->
          sqlite_int (EmployeeCreate.department_id employee) = true ->
          ~ department_exists (EmployeeCreate.department_id employee) db ->
          status (fst (create_employee EmailStr body now db)) = 404
          /\ snd (create_employee EmailStr body now db) = db).
Proof.
  intros db now. split; [|split; [|split; [|split]]].
  - intros body. apply create_employee_rejected.
  - intros employee_id body. apply update_employee_rejected.
  - intros employee_id. apply delete_employee_rejected.
  - intros body employee Hv Ht.
    rewrite (create_employee_conflict body now db employee Hv Ht). cbn [fst snd status].
    split; [reflexivity|]. split; [reflexivity|]. intros Hreach.
    destruct (reachable_store_invariant db Hreach) as (_ & _ & Hnd).
    destruct Ht as (r & Hr & He).
    revert Hnd Hr. generalize (employees db). intros rows.
    induction rows as [|a rows IH]; [intros _ []|].
    cbn [map filter]. intros Hnd Hin. inversion Hnd as [|? ? Ha Hrows]; subst.
    destruct (String.eqb_spec (Employee.email a) (EmployeeCreate.email employee)) as [Ha'|Ha'].
    + cbn [List.length]. f_equal.
      replace (filter _ rows) with (@nil Employee.t); [reflexivity|].
      symmetry. destruct (filter _ rows) as [|x xs] eqn:Ef; [reflexivity|].
      exfalso. assert (Hx : In x (filter (fun e => String.eqb (Employee.email e)
                                                   (EmployeeCreate.email employee)) rows))
        by (rewrite Ef; left; reflexivity).
      apply filter_In in Hx as [Hx Hxe]. apply String.eqb_eq in Hxe.
      apply Ha. rewrite Ha', <- Hxe. apply in_map. exact Hx.
    + destruct Hin as [->|Hin]; [congruence|]. apply IH; assumption.
  - intros body employee Hv Hf Hi Hd.
    rewrite (create_employee_not_found body now db employee Hv Hf Hi Hd). auto.
Qed.

(** *** The update data and the patched instance *)

Lemma get_dump_field_app {A : Type} key key' (inj : A -> value) (f : field A) rest :
  get key (dump_field key' inj f ++ rest)
  = if String.eqb key' key
    then match dumped inj f with Some v => Some v | None => get key rest end
    else get key rest.
Proof. destruct f; simpl; destruct (String.eqb key' key); reflexivity. Qed.

Lemma get_dump_field {A : Type} key key' (inj : A -> value) (f : field A) :
  get key (dump_field key' inj f)
  = if String.eqb key' key then dumped inj f else None.
Proof. destruct f; simpl; destruct (String.eqb key' key); reflexivity. Qed.

Lemma get_department_id updates :
  get "department_id" (model_dump_exclude_unset updates)
  = dumped VInt (EmployeeUpdate.department_id updates).
Proof.
  unfold model_dump_exclude_unset.
  rewrite !get_dump_field_app, get_dump_field. cbn.
  destruct (EmployeeUpdate.department_id updates); cbn;
    destruct (EmployeeUpdate.position updates), (EmployeeUpdate.salary updates),
      (EmployeeUpdate.is_active updates); reflexivity.
Qed.

Lemma get_email updates :
  get "email" (model_dump_exclude_unset updates)
  = dumped VStr (EmployeeUpdate.email updates).
Proof.
  unfold model_dump_exclude_unset.
  rewrite !get_dump_field_app, get_dump_field. cbn.
  destruct (EmployeeUpdate.email updates); cbn;
    destruct (EmployeeUpdate.department_id updates), (EmployeeUpdate.position updates),
      (EmployeeUpdate.salary updates), (EmployeeUpdate.is_active updates); reflexivity.
Qed.

Lemma setattr_first_name f id fn ln em dp ps sl ac cr up :
  setattr_items (dump_field "first_name" VStr f) (Instance.mk id fn ln em dp ps sl ac cr up)
  = Instance.mk id (assign f fn) ln em dp ps sl ac cr up.
Proof. destruct f; reflexivity. Qed.

Lemma setattr_last_name f id fn ln em dp ps sl ac cr up :
  setattr_items (dump_field "last_name" VStr f) (Instance.mk id fn ln em dp ps sl ac cr up)
  = Instance.mk id fn (assign f ln) em dp ps sl ac cr up.
Proof. destruct f; reflexivity. Qed.

Lemma setattr_email f id fn ln em dp ps sl ac cr up :
  setattr_items (dump_field "email" VStr f) (Instance.mk id fn ln em dp ps sl ac cr up)
  = Instance.mk id fn ln (assign f em) dp ps sl ac cr up.
Proof. destruct f; reflexivity. Qed.

Lemma setattr_department_id f id fn ln em dp ps sl ac cr up :
  setattr_items (dump_field "department_id" VInt f) (Instance.mk id fn ln em dp ps sl ac cr up)
  = Instance.mk id fn ln em (assign f dp) ps sl ac cr up.
Proof. destruct f; reflexivity. Qed.

Lemma setattr_position f id fn ln em dp ps sl ac cr up :
  setattr_items (dump_field "position" VStr f) (Instance.mk id fn ln em dp ps sl ac cr up)
  = Instance.mk id fn ln em dp (assign f ps) sl ac cr up.
Proof. destruct f; reflexivity. Qed.

Lemma setattr_salary f id fn ln em dp ps sl ac cr up :
  setattr_items (dump_field "salary" VDecimal f) (Instance.mk id fn ln em dp ps sl ac cr up)
  = Instance.mk id fn ln em dp ps (assign f sl) ac cr up.
Proof. destruct f; reflexivity. Qed.

Lemma setattr_is_active f id fn ln em dp ps sl ac cr up :
  setattr_items (dump_field "is_active" VBool f) (Instance.mk id fn ln em dp ps sl ac cr up)
  = Instance.mk id fn ln em dp ps sl (assign f ac) cr up.
Proof. destruct f; reflexivity. Qed.

(** The [setattr] loop over [update_data] performs the merge-patch. *)
Lemma setattr_items_patched updates o :
  setattr_items (model_dump_exclude_unset updates) o = patched updates o.
Proof.
  destruct o as [id fn ln em dp ps sl ac cr up]. unfold model_dump_exclude_unset, patched.
  unfold setattr_items. rewrite !fold_left_app. fold setattr_items.
  rewrite setattr_first_name, setattr_last_name, setattr_email, setattr_department_id,
    setattr_position, setattr_salary, setattr_is_active.
  reflexivity.
Qed.

(** *** The stages of an update *)


Lemma sqlite_store_In db employee :
  sqlite_store db -> In employee (employees db) -> sqlite_int (Employee.id employee) = true.
Proof.
  unfold sqlite_store. rewrite andb_true_iff. intros [_ He] Hin.
  rewrite forallb_forall in He. apply He. exact Hin.
Qed.

Lemma sqlite_store_employee db employee_id employee :
  sqlite_store db ->
  first (filter (fun e => (Employee.id e =? employee_id)%Z) (employees db)) = Some employee ->
  sqlite_int employee_id = true.
Proof.
  intros Hs Hf. apply first_filter_Some in Hf as [Hin Hid]. apply Z.eqb_eq in Hid.
  subst. apply (sqlite_store_In db); assumption.
Qed.

Lemma sqlite_store_department db d :
  sqlite_store db -> department_exists d db -> sqlite_int d = true.
Proof.
  unfold sqlite_store. rewrite andb_true_iff. intros [Hd _] (x & Hin & <-).
  rewrite forallb_forall in Hd. apply Hd. exact Hin.
Qed.

Lemma update_employee_found employee_id body now db updates employee :
  EmployeeUpdate_validate EmailStr body = Some updates ->
  sqlite_int employee_id = true ->
  first (filter (fun e => (Employee.id e =? employee_id)%Z) (employees db)) = Some employee ->
  update_employee EmailStr employee_id body now db
  = match department_check updates db with
    | Some raised => (raised, db)
    | None =>
        match email_check employee_id updates db with
        | Some raised => (raised, db)
        | None =>
            match commit_update employee (patched updates (load employee)) now db with
            | None => (InternalServerError, db)
            | Some db' =>
                match refresh (Employee.id employee) db' with
                | None => (InternalServerError, db')
                | Some employee =>
                    match EmployeeResponse_model_validate EmailStr employee with
                    | Some r => (Returned 200 r, db')
                    | None => (InternalServerError, db')
                    end
                end
            end
        end
    end.
Proof.
  intros Hv Hi Hf. unfold update_employee, department_check, email_check.
  rewrite Hv, Hi, Hf. cbn [negb]. cbv zeta.
  rewrite get_department_id, get_email, setattr_items_patched. reflexivity.
Qed.

Lemma update_employee_overflow employee_id body now db :
  sqlite_int employee_id = false ->
  update_employee EmailStr employee_id body now db = (RequestValidationError, db)
  \/ update_employee EmailStr employee_id body now db = (InternalServerError, db).
Proof.
  intros Hi. unfold update_employee.
  destruct (EmployeeUpdate_validate EmailStr body); [|auto]. rewrite Hi. auto.
Qed.

Lemma department_check_Some updates db raised :
  department_check updates db = Some raised ->
  raised = InternalServerError \/ exists detail, raised = HTTPException 404 detail.
Proof.
  unfold department_check.
  destruct (dumped VInt (EmployeeUpdate.department_id updates)) as [v|]; [|discriminate].
  destruct (binds v); cbn [negb]; [|intros [= <-]; auto].
  destruct (first (filter _ (departments db))); [discriminate|].
  intros [= <-]. eauto.
Qed.

Lemma email_check_Some employee_id updates db raised :
  email_check employee_id updates db = Some raised ->
  exists detail, raised = HTTPException 409 detail.
Proof.
  unfold email_check.
  destruct (dumped VStr (EmployeeUpdate.email updates)) as [v|]; [|discriminate].
  destruct (first (filter _ (employees db))); [|discriminate].
  intros [= <-]. eauto.
Qed.

Lemma department_check_None updates db :
  sqlite_store db ->
  department_check_passes updates db ->
  department_check updates db = None.
Proof.
  intros Hs. unfold department_check_passes, department_check.
  destruct (EmployeeUpdate.department_id updates) as [| |d|]; cbn [dumped];
    [reflexivity|intros []| |reflexivity].
  intros Hex. cbn [binds]. rewrite (sqlite_store_department _ _ Hs Hex). cbn [negb].
  destruct Hex as (r & Hr & Hid).
  destruct (first_filter_In (fun d0 => sql_eq_int (Department.id d0) (VInt d))
              (departments db) r Hr) as [y ->]; [|reflexivity].
  cbn. apply Z.eqb_eq. exact Hid.
Qed.

Lemma email_check_None employee_id updates db :
  email_check_passes employee_id updates db ->
  email_check employee_id updates db = None.
Proof.
  unfold email_check_passes, email_check.
  destruct (EmployeeUpdate.email updates) as [| |e|]; cbn [dumped];
    [reflexivity| | |reflexivity].
  - intros _.
    replace (first (filter _ (employees db))) with (@None Employee.t); [reflexivity|].
    symmetry. apply first_filter_None. reflexivity.
  - intros Hpass.
    replace (first (filter _ (employees db))) with (@None Employee.t); [reflexivity|].
    symmetry. apply first_filter_None. intros r Hr. cbn.
    destruct (String.eqb_spec (Employee.email r) e) as [He|_]; [|reflexivity].
    rewrite (Hpass r Hr He), Z.eqb_refl. reflexivity.
Qed.

Lemma update_employee_checked employee_id body now db updates employee :
  EmployeeUpdate_validate EmailStr body = Some updates ->
  sqlite_store db ->
  first (filter (fun e => (Employee.id e =? employee_id)%Z) (employees db)) = Some employee ->
  department_check_passes updates db ->
  email_check_passes employee_id updates db ->
  update_employee EmailStr employee_id body now db
  = match commit_update employee (patched updates (load employee)) now db with
    | None => (InternalServerError, db)
    | Some db' =>
        match refresh (Employee.id employee) db' with
        | None => (InternalServerError, db')
        | Some employee =>
            match EmployeeResponse_model_validate EmailStr employee with
            | Some r => (Returned 200 r, db')
            | None => (InternalServerError, db')
            end
        end
    end.
Proof.
  intros Hv Hs Hf Hd He.
  rewrite (update_employee_found _ _ _ _ _ _ Hv (sqlite_store_employee _ _ _ Hs Hf) Hf).
  rewrite (department_check_None _ _ Hs Hd), (email_check_None _ _ _ He). reflexivity.
Qed.

Lemma option_eqb_eq {A : Type} (eqb : A -> A -> bool) (x y : option A) :
  (forall a b, eqb a b = true <-> a = b) -> option_eqb eqb x y = true <-> x = y.
Proof.
  intros H. destruct x, y; simpl; try (split; [discriminate|discriminate]).
  - rewrite H. split; congruence.
  - split; reflexivity.
Qed.

Lemma Bool_eqb_eq (a b : bool) : Bool.eqb a b = true <-> a = b.
Proof. destruct a, b; simpl; split; congruence. Qed.

Lemma Decimal_eqb_refl (d : Decimal.t) : Decimal.eqb d d = true.
Proof. destruct d; cbn; [apply Z.eqb_refl|reflexivity..]. Qed.

Ltac instance_fields :=
  cbn [patched load assign Instance.id Instance.first_name Instance.last_name
         Instance.email Instance.department_id Instance.position Instance.salary
         Instance.is_active Instance.created_at Instance.updated_at] in *.

(** Nothing is written exactly when the instance holds the values that were
    loaded. *)
Lemma modified_false_iff loaded o :
  modified loaded o = false <-> same_values loaded o.
Proof.
  unfold modified, same_values. rewrite negb_false_iff, !andb_true_iff.
  rewrite !(option_eqb_eq String.eqb) by apply String.eqb_eq.
  rewrite !(option_eqb_eq Z.eqb) by apply Z.eqb_eq.
  rewrite (option_eqb_eq Bool.eqb) by apply Bool_eqb_eq.
  tauto.
Qed.


Lemma refresh_replaced deps rows employee row :
  In employee rows -> Employee.id row = Employee.id employee ->
  refresh (Employee.id employee)
    (mkDatabase deps
       (map (fun r => if (Employee.id r =? Employee.id employee)%Z then row else r) rows))
  = Some row.
Proof.
  intros Hin Hid. unfold refresh. cbn [employees].
  induction rows as [|a rows IH]; [destruct Hin|].
  cbn [map filter].
  destruct (Z.eqb_spec (Employee.id a) (Employee.id employee)) as [Heq|Hne].
  - rewrite Hid, Z.eqb_refl. reflexivity.
  - destruct (Z.eqb_spec (Employee.id a) (Employee.id employee)) as [|_]; [contradiction|].
    destruct Hin as [->|Hin]; [congruence|]. apply IH. exact Hin.
Qed.


Lemma update_employee_Returned employee_id body now db updates employee c r db' :
  EmployeeUpdate_validate EmailStr body = Some updates ->
  first (filter (fun e => (Employee.id e =? employee_id)%Z) (employees db)) = Some employee ->
  update_employee EmailStr employee_id body now db = (Returned c r, db') ->
  c = 200
  /\ exists row,
       commit_update employee (patched updates (load employee)) now db = Some db'
       /\ refresh (Employee.id employee) db' = Some row
       /\ EmployeeResponse_model_validate EmailStr row = Some r.
Proof.
  intros Hv Hf Hu.
  assert (Hi : sqlite_int employee_id = true).
  { destruct (sqlite_int employee_id) eqn:Hi; [reflexivity|].
    destruct (update_employee_overflow employee_id body now db Hi) as [H|H];
      rewrite H in Hu; discriminate. }
  rewrite (update_employee_found _ _ _ _ _ _ Hv Hi Hf) in Hu.
  destruct (department_check updates db) as [raised|] eqn:Ed.
  { apply department_check_Some in Ed as [->|[detail ->]]; discriminate. }
  destruct (email_check employee_id updates db) as [raised|] eqn:Ee.
  { apply email_check_Some in Ee as [detail ->]. discriminate. }
  destruct (commit_update _ _ _ _) as [db1|]; [|discriminate].
  destruct (refresh _ db1) as [row|] eqn:Er; [|discriminate].
  destruct (EmployeeResponse_model_validate EmailStr row) as [r1|] eqn:Em; [|discriminate].
  injection Hu as <- <- <-. split; [reflexivity|]. exists row. auto.
Qed.

Lemma first_filter_id employee_id rows employee :
  first (filter (fun e => (Employee.id e =? employee_id)%Z) rows) = Some employee ->
  In employee rows /\ Employee.id employee = employee_id.
Proof.
  intros H. apply first_filter_Some in H as [Hin Hid]. apply Z.eqb_eq in Hid. auto.
Qed.




(** *** Explicit nulls in a patch *)

Lemma optional_accepts {A B : Type} (check : A -> option B) (f : field A) :
  optional check f <> None <-> accepts check f.
Proof.
  destruct f as [| |a|]; cbn; try (destruct (check a); cbn); intuition congruence.
Qed.

Lemma EmployeeUpdate_validate_accepts body :
  EmployeeUpdate_validate EmailStr body <> None
  <-> accepts name_field (Body.first_name body)
      /\ accepts name_field (Body.last_name body)
      /\ accepts EmailStr (Body.email body)
      /\ accepts department_id_field (Body.department_id body)
      /\ accepts position_field (Body.position body)
      /\ accepts salary_field (Body.salary body)
      /\ accepts (@Some bool) (Body.is_active body).
Proof.
  rewrite <- !optional_accepts. unfold EmployeeUpdate_validate.
  destruct (optional name_field (Body.first_name body)); [|intuition congruence].
  destruct (optional name_field (Body.last_name body)); [|intuition congruence].
  destruct (optional EmailStr (Body.email body)); [|intuition congruence].
  destruct (optional department_id_field (Body.department_id body)); [|intuition congruence].
  destruct (optional position_field (Body.position body)); [|intuition congruence].
  destruct (optional salary_field (Body.salary body)); [|intuition congruence].
  destruct (optional (@Some bool) (Body.is_active body)); intuition congruence.
Qed.

Lemma optional_Null {A B : Type} (check : A -> option B) (f : field A) g :
  optional check f = Some g -> (f = Null <-> g = Null).
Proof.
  destruct f as [| |a|]; cbn.
  - intros [= <-]. split; discriminate.
  - intros [= <-]. split; reflexivity.
  - destruct (check a); cbn; [|discriminate]. intros [= <-]. split; discriminate.
  - discriminate.
Qed.

Lemma EmployeeUpdate_validate_Null body updates :
  EmployeeUpdate_validate EmailStr body = Some updates ->
  (Body.first_name body = Null <-> EmployeeUpdate.first_name updates = Null)
  /\ (Body.last_name body = Null <-> EmployeeUpdate.last_name updates = Null)
  /\ (Body.email body = Null <-> EmployeeUpdate.email updates = Null)
  /\ (Body.department_id body = Null <-> EmployeeUpdate.department_id updates = Null)
  /\ (Body.position body = Null <-> EmployeeUpdate.position updates = Null)
  /\ (Body.salary body = Null <-> EmployeeUpdate.salary updates = Null)
  /\ (Body.is_active body = Null <-> EmployeeUpdate.is_active updates = Null).
Proof.
  unfold EmployeeUpdate_validate.
  destruct (optional name_field (Body.first_name body)) eqn:E1; [|discriminate].
  destruct (optional name_field (Body.last_name body)) eqn:E2; [|discriminate].
  destruct (optional EmailStr (Body.email body)) eqn:E3; [|discriminate].
  destruct (optional department_id_field (Body.department_id body)) eqn:E4; [|discriminate].
  destruct (optional position_field (Body.position body)) eqn:E5; [|discriminate].
  destruct (optional salary_field (Body.salary body)) eqn:E6; [|discriminate].
  destruct (optional (@Some bool) (Body.is_active body)) eqn:E7; [|discriminate].
  intros [= <-]. cbn.
  pose proof (optional_Null _ _ _ E1). pose proof (optional_Null _ _ _ E2).
  pose proof (optional_Null _ _ _ E3). pose proof (optional_Null _ _ _ E4).
  pose proof (optional_Null _ _ _ E5). pose proof (optional_Null _ _ _ E6).
  pose proof (optional_Null _ _ _ E7). tauto.
Qed.

Ltac get_key :=
  unfold model_dump_exclude_unset;
  rewrite !get_dump_field_app, get_dump_field; cbn;
  match goal with |- context [dumped _ ?f] => destruct f; reflexivity end.

Lemma get_first_name updates :
  get "first_name" (model_dump_exclude_unset updates)
  = dumped VStr (EmployeeUpdate.first_name updates).
Proof. get_key. Qed.

Lemma get_last_name updates :
  get "last_name" (model_dump_exclude_unset updates)
  = dumped VStr (EmployeeUpdate.last_name updates).
Proof. get_key. Qed.

Lemma get_position updates :
  get "position" (model_dump_exclude_unset updates)
  = dumped VStr (EmployeeUpdate.position updates).
Proof. get_key. Qed.

Lemma get_salary updates :
  get "salary" (model_dump_exclude_unset updates)
  = dumped VDecimal (EmployeeUpdate.salary updates).
Proof. get_key. Qed.

Lemma get_is_active updates :
  get "is_active" (model_dump_exclude_unset updates)
  = dumped VBool (EmployeeUpdate.is_active updates).
Proof. get_key. Qed.

Lemma null_keys_dumped body updates key :
  EmployeeUpdate_validate EmailStr body = Some updates ->
  In key (null_keys body) ->
  get key (model_dump_exclude_unset updates) = Some VNone.
Proof.
  intros Hv. apply EmployeeUpdate_validate_Null in Hv
    as (H1 & H2 & H3 & H4 & H5 & H6 & H7).
  unfold null_keys, null_key. rewrite !in_app_iff.
  intros [H|[H|[H|[H|[H|[H|H]]]]]].
  - destruct (Body.first_name body); try destruct H as [<-|[]]; try contradiction.
    rewrite get_first_name, (proj1 H1 eq_refl). reflexivity.
  - destruct (Body.last_name body); try destruct H as [<-|[]]; try contradiction.
    rewrite get_last_name, (proj1 H2 eq_refl). reflexivity.
  - destruct (Body.email body); try destruct H as [<-|[]]; try contradiction.
    rewrite get_email, (proj1 H3 eq_refl). reflexivity.
  - destruct (Body.department_id body); try destruct H as [<-|[]]; try contradiction.
    rewrite get_department_id, (proj1 H4 eq_refl). reflexivity.
  - destruct (Body.position body); try destruct H as [<-|[]]; try contradiction.
    rewrite get_position, (proj1 H5 eq_refl). reflexivity.
  - destruct (Body.salary body); try destruct H as [<-|[]]; try contradiction.
    rewrite get_salary, (proj1 H6 eq_refl). reflexivity.
  - destruct (Body.is_active body); try destruct H as [<-|[]]; try contradiction.
    rewrite get_is_active, (proj1 H7 eq_refl). reflexivity.
Qed.

(** A NULL for a [nullable=False] column makes the commit fail. *)
Lemma commit_update_null employee updates now db :
  EmployeeUpdate.first_name updates = Null
  \/ EmployeeUpdate.last_name updates = Null
  \/ EmployeeUpdate.email updates = Null
  \/ EmployeeUpdate.department_id updates = Null
  \/ EmployeeUpdate.position updates = Null
  \/ EmployeeUpdate.salary updates = Null ->
  commit_update employee (patched updates (load employee)) now db = None.
Proof.
  intros Hnull. unfold commit_update.
  destruct (modified _ _) eqn:Emod.
  - replace (updated_row _ _ now) with (@None Employee.t); [reflexivity|].
    symmetry. unfold updated_row. instance_fields.
    destruct Hnull as [H|[H|[H|[H|[H|H]]]]]; rewrite H; cbn [assign];
      repeat match goal with
             | |- context [match assign ?f ?o with Some _ => _ | None => _ end] =>
                 destruct (assign f o)
             end; reflexivity.
  - apply modified_false_iff in Emod. unfold same_values in Emod. instance_fields.
    destruct Emod as (E1 & E2 & E3 & E4 & E5 & E6 & E7).
    destruct Hnull as [H|[H|[H|[H|[H|H]]]]]; rewrite H in *; discriminate.
Qed.

Lemma updated_row_patched updates employee now :
  EmployeeUpdate.first_name updates <> Null ->
  EmployeeUpdate.last_name updates <> Null ->
  EmployeeUpdate.email updates <> Null ->
  EmployeeUpdate.department_id updates <> Null ->
  EmployeeUpdate.position updates <> Null ->
  EmployeeUpdate.salary updates <> Null ->
  exists row,
    updated_row employee (patched updates (load employee)) now = Some row
    /\ Employee.id row = Employee.id employee
    /\ Employee.is_active row
       = assign (EmployeeUpdate.is_active updates) (Employee.is_active employee)
    /\ Employee.email row
       = match EmployeeUpdate.email updates with
         | Value e => e
         | Unset | Null | Invalid => Employee.email employee
         end.
Proof.
  intros H1 H2 H3 H4 H5 H6. unfold updated_row. instance_fields.
  destruct (EmployeeUpdate.first_name updates); try contradiction;
    destruct (EmployeeUpdate.last_name updates); try contradiction;
    destruct (EmployeeUpdate.email updates); try contradiction;
    destruct (EmployeeUpdate.department_id updates); try contradiction;
    destruct (EmployeeUpdate.position updates); try contradiction;
    destruct (EmployeeUpdate.salary updates); try contradiction;
    cbn [assign]; eexists; repeat split.
Qed.

Lemma update_employee_is_active_null employee_id body now db updates employee :
  EmployeeUpdate_validate EmailStr body = Some updates ->
  sqlite_store db ->
  first (filter (fun e => (Employee.id e =? employee_id)%Z) (employees db)) = Some employee ->
  EmployeeUpdate.is_active updates = Null ->
  EmployeeUpdate.first_name updates <> Null ->
  EmployeeUpdate.last_name updates <> Null ->
  EmployeeUpdate.email updates <> Null ->
  EmployeeUpdate.department_id updates <> Null ->
  EmployeeUpdate.position updates <> Null ->
  EmployeeUpdate.salary updates <> Null ->
  department_check_passes updates db ->
  email_check_passes employee_id updates db ->
  exists row,
    refresh employee_id (snd (update_employee EmailStr employee_id body now db)) = Some row
    /\ Employee.is_active row = None.
Proof.
  intros Hv Hs Hf Hact H1 H2 H3 H4 H5 H6 Hd He.
  pose proof (first_filter_id _ _ _ Hf) as [Hin Hid].
  rewrite (update_employee_checked _ _ _ _ _ _ Hv Hs Hf Hd He).
  unfold commit_update.
  destruct (modified _ _) eqn:Emod.
  - destruct (updated_row_patched updates employee now H1 H2 H3 H4 H5 H6)
      as (row & -> & Hrid & Hract & Hrem).
    rewrite Hact in Hract. cbn in Hract.
    replace (negb _ && existsb _ _) with false.
    + exists row. split; [|exact Hract].
      rewrite (refresh_replaced _ _ employee row Hin Hrid).
      destruct (EmployeeResponse_model_validate EmailStr row); cbn [snd];
        rewrite <- Hid; apply refresh_replaced; assumption.
    + symmetry. rewrite Hrem. unfold email_check_passes in He.
      destruct (EmployeeUpdate.email updates) as [| |e|];
        [rewrite String.eqb_refl; reflexivity|contradiction|
        |rewrite String.eqb_refl; reflexivity].
      apply andb_false_iff. right.
      destruct (existsb _ (employees db)) eqn:Ex; [|reflexivity].
      apply existsb_exists in Ex as (x & Hx & Hxe).
      apply andb_true_iff in Hxe as [Hxe Hxid].
      apply String.eqb_eq in Hxe. rewrite (He x Hx Hxe), Hid, Z.eqb_refl in Hxid.
      discriminate.
  - apply modified_false_iff in Emod. unfold same_values in Emod. instance_fields.
    destruct Emod as (_ & _ & _ & _ & _ & _ & Hsame). rewrite Hact in Hsame. cbn in Hsame.
    exists employee. split; [|congruence].
    unfold refresh at 2. rewrite Hid, Hf.
    destruct (EmployeeResponse_model_validate EmailStr employee); cbn [snd];
      unfold refresh; rewrite Hf; reflexivity.
Qed.

Lemma null_not_null_column body updates :
  EmployeeUpdate_validate EmailStr body = Some updates ->
  (exists key, In key (null_keys body) /\ In key not_null_columns) ->
  EmployeeUpdate.first_name updates = Null
  \/ EmployeeUpdate.last_name updates = Null
  \/ EmployeeUpdate.email updates = Null
  \/ EmployeeUpdate.department_id updates = Null
  \/ EmployeeUpdate.position updates = Null
  \/ EmployeeUpdate.salary updates = Null.
Proof.
  intros Hv (key & Hkey & Hcol).
  apply EmployeeUpdate_validate_Null in Hv as (H1 & H2 & H3 & H4 & H5 & H6 & H7).
  unfold null_keys, null_key in Hkey. rewrite !in_app_iff in Hkey.
  destruct Hkey as [H|[H|[H|[H|[H|[H|H]]]]]].
  - destruct (Body.first_name body); try destruct H; tauto.
  - destruct (Body.last_name body); try destruct H; tauto.
  - destruct (Body.email body); try destruct H; tauto.
  - destruct (Body.department_id body); try destruct H; tauto.
  - destruct (Body.position body); try destruct H; tauto.
  - destruct (Body.salary body); try destruct H; tauto.
  - exfalso. destruct (Body.is_active body); try destruct H as [<-|[]]; try contradiction.
    cbn in Hcol. intuition discriminate.
Qed.

Lemma update_employee_null_column employee_id body now db updates :
  EmployeeUpdate_validate EmailStr body = Some updates ->
  (exists key, In key (null_keys body) /\ In key not_null_columns) ->
  snd (update_employee EmailStr employee_id body now db) = db
  /\ forall c r, fst (update_employee EmailStr employee_id body now db) <> Returned c r.
Proof.
  intros Hv Hnull. pose proof (null_not_null_column _ _ Hv Hnull) as Hcol.
  destruct (sqlite_int employee_id) eqn:Hi.
  2:{ destruct (update_employee_overflow employee_id body now db Hi) as [->| ->];
        (split; [reflexivity|discriminate]). }
  destruct (first (filter (fun e => (Employee.id e =? employee_id)%Z) (employees db)))
    as [employee|] eqn:Hf.
  - rewrite (update_employee_found _ _ _ _ _ _ Hv Hi Hf).
    destruct (department_check updates db) as [raised|] eqn:Ed.
    { apply department_check_Some in Ed as [->|[detail ->]];
        (split; [reflexivity|discriminate]). }
    destruct (email_check employee_id updates db) as [raised|] eqn:Ee.
    { apply email_check_Some in Ee as [detail ->]. split; [reflexivity|discriminate]. }
    rewrite (commit_update_null employee updates now db Hcol).
    split; [reflexivity|discriminate].
  - unfold update_employee. rewrite Hv, Hi, Hf. split; [reflexivity|discriminate].
Qed.

Lemma update_employee_null_department employee_id body now db updates employee :
  EmployeeUpdate_validate EmailStr body = Some updates ->
  sqlite_int employee_id = true ->
  first (filter (fun e => (Employee.id e =? employee_id)%Z) (employees db)) = Some employee ->
  Body.department_id body = Null ->
  update_employee EmailStr employee_id body now db
  = (HTTPException 404 "Department None not found", db).
Proof.
  intros Hv Hi Hf Hnull. rewrite (update_employee_found _ _ _ _ _ _ Hv Hi Hf).
  apply EmployeeUpdate_validate_Null in Hv as (_ & _ & _ & H4 & _).
  unfold department_check. rewrite (proj1 H4 Hnull). cbn [dumped binds negb].
  replace (first (filter _ (departments db))) with (@None Department.t); [reflexivity|].
  symmetry. apply first_filter_None. reflexivity.
Qed.

(** C10 (amended). A patch field sent as [null] never causes a validation
    error and is kept in the update data with the value [None], so it is not
    treated as absent.  What happens next depends on the field: a null
    [department_id] fails the department check (404) and nothing is written;
    a null for any column declared NOT NULL never reaches the stored row
    (the request does not succeed and the store is unchanged); a null
    [is_active], the one nullable column, is written to the row when the
    checks pass. *)
Theorem update_employee_explicit_null :
  forall employee_id body now db,
    (EmployeeUpdate_validate EmailStr body <> None
     <-> accepts name_field (Body.first_name body)
         /\ accepts name_field (Body.last_name body)
         /\ accepts EmailStr (Body.email body)
         /\ accepts department_id_field (Body.department_id body)
         /\ accepts position_field (Body.position body)
         /\ accepts salary_field (Body.salary body)
         /\ accepts (@Some bool) (Body.is_active body))
    /\ forall updates,
         EmployeeUpdate_validate EmailStr body = Some updates ->
         (forall key,
             In key (null_keys body) ->
             get key (model_dump_exclude_unset updates) = Some VNone)
         /\ ((exists key, In key (null_keys body) /\ In key not_null_columns) ->
             snd (update_employee EmailStr employee_id body now db) = db
             /\ forall c r,
                  fst (update_employee EmailStr employee_id body now db) <> Returned c r)
         /\ forall employee,
              sqlite_store db ->
              first (filter (fun e => (Employee.id e =? employee_id)%Z) (employees db))
              = Some employee ->
              (Body.department_id body = Null ->
               update_employee EmailStr employee_id body now db
               = (HTTPException 404 "Department None not found", db))
              /\ (Body.is_active body = Null ->
                  (forall key, In key (null_keys body) -> key = "is_active"%string) ->
                  department_check_passes updates db ->
                  email_check_passes employee_id updates db ->
                  exists row,
                    refresh employee_id
                      (snd (update_employee EmailStr employee_id body now db)) = Some row
                    /\ Employee.is_active row = None).
Proof.
  intros employee_id body now db. split; [apply EmployeeUpdate_validate_accepts|].
  intros updates Hv. split; [|split].
  - intros key. apply null_keys_dumped. exact Hv.
  - apply (update_employee_null_column _ _ _ _ updates Hv).
  - intros employee Hs Hf. split.
    + apply (update_employee_null_department _ _ _ _ updates employee); try assumption.
      apply (sqlite_store_employee db _ employee); assumption.
    + intros Hact Honly Hd He.
      pose proof (EmployeeUpdate_validate_Null _ _ Hv) as (H1 & H2 & H3 & H4 & H5 & H6 & H7).
      assert (Hkeys : forall key, In key (null_keys body) -> key <> "is_active"%string -> False)
        by (intros key Hk Hne; apply Hne, Honly, Hk).
      unfold null_keys, null_key in Hkeys.
      apply (update_employee_is_active_null _ _ _ _ updates employee); try assumption.
      * apply H7. exact Hact.
      * intros Hn. apply H1 in Hn. rewrite Hn in Hkeys.
        apply (Hkeys "first_name"%string); [left; reflexivity|discriminate].
      * intros Hn. apply H2 in Hn. rewrite Hn in Hkeys.
        apply (Hkeys "last_name"%string); [|discriminate].
        rewrite !in_app_iff. right. left. left. reflexivity.
      * intros Hn. apply H3 in Hn. rewrite Hn in Hkeys.
        apply (Hkeys "email"%string); [|discriminate].
        rewrite !in_app_iff. right. right. left. left. reflexivity.
      * intros Hn. apply H4 in Hn. rewrite Hn in Hkeys.
        apply (Hkeys "department_id"%string); [|discriminate].
        rewrite !in_app_iff. right. right. right. left. left. reflexivity.
      * intros Hn. apply H5 in Hn. rewrite Hn in Hkeys.
        apply (Hkeys "position"%string); [|discriminate].
        rewrite !in_app_iff. do 4 right. left. left. reflexivity.
      * intros Hn. apply H6 in Hn. rewrite Hn in Hkeys.
        apply (Hkeys "salary"%string); [|discriminate].
        rewrite !in_app_iff. do 5 right. left. left. reflexivity.
Qed.

(** ** Retrieval and deletion *)

Lemma get_employee_row employee_id db row :
  sqlite_int employee_id = true ->
  first (filter (fun e => (Employee.id e =? employee_id)%Z) (employees db)) = Some row ->
  get_employee EmailStr employee_id db
  = match EmployeeResponse_model_validate EmailStr row with
    | Some r => Returned 200 r
    | None => InternalServerError
    end.
Proof. intros Hi H. unfold get_employee. rewrite Hi, H. reflexivity. Qed.

Lemma no_row_iff employee_id (rows : list Employee.t) :
  first (filter (fun e => (Employee.id e =? employee_id)%Z) rows) = None
  <-> forall e, In e rows -> Employee.id e <> employee_id.
Proof.
  rewrite first_filter_None. split; intros H e He.
  - apply Z.eqb_neq. auto.
  - apply Z.eqb_neq. auto.
Qed.

(** X1. An employee that was just created is returned by GET with the very
    representation the POST answered. *)
Theorem get_employee_after_create :
  forall body now db r db',
    create_employee EmailStr body now db = (Returned 201 r, db') ->
    get_employee EmailStr (EmployeeResponse.id r) db' = Returned 200 r.
Proof.
  intros body now db r db' Hc.
  apply create_employee_Returned in Hc as (_ & employee & row & _ & Hi & Hv).
  pose proof (insert_employee_rowid _ _ _ _ _ Hi) as Hint.
  pose proof (insert_employee_Some _ _ _ _ _ Hi) as (-> & _ & Hrow).
  pose proof (EmployeeResponse_model_validate_Some _ _ Hv) as (-> & _).
  pose proof (refresh_inserted (departments db) (employees db) row) as Hr.
  unfold refresh in Hr. cbn [employees] in Hr.
  rewrite (get_employee_row _ _ row); [rewrite Hv; reflexivity|exact Hint|].
  cbn [employees]. apply Hr. rewrite Hrow. reflexivity.
Qed.

(** X2. For an id that SQLite can hold and that no row holds, GET, PUT with
    any valid body and DELETE all answer 404 with the detail "Employee <id>
    not found" and leave the store as it is; and GET and DELETE answer that
    404 only for such an id. *)
Theorem missing_employee_is_404 :
  forall employee_id now db,
    (get_employee EmailStr employee_id db = HTTPException 404 (employee_not_found employee_id)
     <-> sqlite_int employee_id = true
         /\ forall e, In e (employees db) -> Employee.id e <> employee_id)
    /\ (delete_employee employee_id db
        = (HTTPException 404 (employee_not_found employee_id), db)
        <-> sqlite_int employee_id = true
            /\ forall e, In e (employees db) -> Employee.id e <> employee_id)
    /\ (sqlite_int employee_id = true ->
        (forall e, In e (employees db) -> Employee.id e <> employee_id) ->
        forall body,
          EmployeeUpdate_validate EmailStr body <> None ->
          update_employee EmailStr employee_id body now db
          = (HTTPException 404 (employee_not_found employee_id), db)).
Proof.
  intros employee_id now db. rewrite <- no_row_iff.
  unfold get_employee, delete_employee, update_employee, employee_not_found.
  destruct (sqlite_int employee_id); cbn [negb].
  2:{ split; [|split]; [split; [discriminate|intros [[=] _]]..|discriminate]. }
  destruct (first (filter _ (employees db))) as [row|] eqn:Hf.
  - split; [|split].
    + split; [|intros [_ [=]]].
      destruct (EmployeeResponse_model_validate EmailStr row); discriminate.
    + split; [discriminate|intros [_ [=]]].
    + discriminate.
  - split; [|split].
    + split; auto.
    + split; auto.
    + intros _ _ body Hv.
      destruct (EmployeeUpdate_validate EmailStr body); [reflexivity|contradiction].
Qed.

Lemma filter_id_removed (rows : list Employee.t) (k other : Z) :
  filter (fun e => (Employee.id e =? k)%Z)
    (filter (fun r => negb (Employee.id r =? k)%Z) rows) = []
  /\ (other <> k ->
      filter (fun e => (Employee.id e =? other)%Z)
        (filter (fun r => negb (Employee.id r =? k)%Z) rows)
      = filter (fun e => (Employee.id e =? other)%Z) rows).
Proof.
  induction rows as [|a rows [IH1 IH2]]; [split; reflexivity|].
  cbn [filter]. destruct (Z.eqb_spec (Employee.id a) k) as [Hk|Hk]; cbn [negb filter].
  - split; [exact IH1|]. intros Hne.
    destruct (Z.eqb_spec (Employee.id a) other); [congruence|]. auto.
  - destruct (Z.eqb_spec (Employee.id a) k); [contradiction|]. split; [exact IH1|].
    intros Hne. rewrite (IH2 Hne). reflexivity.
Qed.

Lemma filter_keeps_others (rows : list Employee.t) (k : Z) :
  (forall r, In r rows -> Employee.id r <> k) ->
  filter (fun r => negb (Employee.id r =? k)%Z) rows = rows.
Proof.
  induction rows as [|a rows IH]; intros H; [reflexivity|].
  cbn [filter]. destruct (Z.eqb_spec (Employee.id a) k) as [Hk|_].
  - exfalso. apply (H a); [left; reflexivity|exact Hk].
  - cbn [negb]. rewrite IH; [reflexivity|]. intros r Hr. apply H. right. exact Hr.
Qed.

Lemma length_filter_unique (rows : list Employee.t) (e : Employee.t) :
  NoDup (map Employee.id rows) -> In e rows ->
  S (List.length (filter (fun r => negb (Employee.id r =? Employee.id e)%Z) rows))
  = List.length rows.
Proof.
  induction rows as [|a rows IH]; [intros _ []|].
  cbn [map filter]. intros Hnd Hin. inversion Hnd as [|? ? Ha Hrows]; subst.
  destruct (Z.eqb_spec (Employee.id a) (Employee.id e)) as [Heq|Hne]; cbn [negb].
  - cbn [List.length]. f_equal. rewrite filter_keeps_others; [reflexivity|].
    intros r Hr Hid. apply Ha. rewrite Heq, <- Hid. apply in_map. exact Hr.
  - destruct Hin as [->|Hin]; [congruence|].
    cbn [List.length]. f_equal. apply IH; assumption.
Qed.

(** X3. Deleting an employee that exists is answered 204 and removes it:
    GET of the id is then 404, a second DELETE is 404 and changes nothing,
    every other employee is returned by GET as before, the departments are
    untouched, and in a reachable state exactly one row is gone. *)
Theorem delete_employee_removes :
  forall employee_id db,
    sqlite_int employee_id = true ->
    (exists e, In e (employees db) /\ Employee.id e = employee_id) ->
    exists db',
      delete_employee employee_id db = (Returned 204 tt, db')
      /\ get_employee EmailStr employee_id db'
         = HTTPException 404 (employee_not_found employee_id)
      /\ delete_employee employee_id db'
         = (HTTPException 404 (employee_not_found employee_id), db')
      /\ (forall other,
            other <> employee_id ->
            get_employee EmailStr other db' = get_employee EmailStr other db)
      /\ departments db' = departments db
      /\ (reachable EmailStr db ->
          S (List.length (employees db')) = List.length (employees db)).
Proof.
  intros employee_id db Hint (e & He & Hid).
  unfold delete_employee at 1. rewrite Hint. cbn [negb].
  destruct (first_filter_In (fun x => (Employee.id x =? employee_id)%Z) (employees db) e He)
    as [row Hrow]; [apply Z.eqb_eq; exact Hid|].
  rewrite Hrow. eexists. split; [reflexivity|].
  pose proof (first_filter_id _ _ _ Hrow) as [Hin Hrid].
  unfold get_employee, delete_employee, commit_delete, employee_not_found.
  cbn [employees departments].
  rewrite Hrid, Hint. cbn [negb].
  destruct (filter_id_removed (employees db) employee_id employee_id) as [-> _].
  cbn [first hd_error].
  split; [reflexivity|]. split; [reflexivity|]. split; [|split; [reflexivity|]].
  - intros other Hne.
    destruct (filter_id_removed (employees db) employee_id other) as [_ ->];
      [reflexivity|exact Hne].
  - intros Hreach. destruct (reachable_store_invariant db Hreach) as (_ & Hs & _).
    rewrite <- Hrid. apply length_filter_unique; [|exact Hin].
    apply StronglySorted_lt_NoDup. exact Hs.
Qed.

(** ** Updates *)

Lemma department_check_inv updates db :
  department_check updates db = None ->
  department_check_passes updates db.
Proof.
  unfold department_check_passes, department_check.
  destruct (EmployeeUpdate.department_id updates) as [| |d|]; cbn [dumped binds negb].
  - intros _. exact I.
  - replace (first (filter _ (departments db))) with (@None Department.t);
      [discriminate|].
    symmetry. apply first_filter_None. reflexivity.
  - destruct (sqlite_int d); cbn [negb]; [|discriminate].
    destruct (first (filter _ (departments db))) as [x|] eqn:Hx; [|discriminate].
    intros _. apply first_filter_Some in Hx as [Hin Hid]. cbn in Hid.
    apply Z.eqb_eq in Hid. exists x. auto.
  - intros _. exact I.
Qed.

Lemma email_check_inv employee_id updates db :
  email_check employee_id updates db = None ->
  email_check_passes employee_id updates db.
Proof.
  unfold email_check_passes, email_check.
  destruct (EmployeeUpdate.email updates) as [| |e|]; cbn [dumped]; try (intros _; exact I).
  destruct (first (filter _ (employees db))) as [x|] eqn:Hx; [discriminate|].
  intros _ r Hr He. rewrite first_filter_None in Hx. specialize (Hx r Hr). cbn in Hx.
  apply String.eqb_eq in He. rewrite He in Hx. cbn in Hx.
  apply negb_false_iff, Z.eqb_eq in Hx. exact Hx.
Qed.

(** X4. A PUT is checked in this order: the body (422), the employee (404),
    the department named by the patch (404), the email (409).  An invalid
    body is 422 even for an id that does not exist; for ids that SQLite
    can hold, a missing employee is 404 whatever the patch and a missing
    department is 404 whatever the email of the patch; and 409 is answered
    only after the department check has passed. *)
Theorem update_employee_check_order :
  forall employee_id body now db,
    (EmployeeUpdate_validate EmailStr body = None ->
     update_employee EmailStr employee_id body now db = (RequestValidationError, db))
    /\ forall updates,
         EmployeeUpdate_validate EmailStr body = Some updates ->
         (sqlite_int employee_id = true ->
          (forall e, In e (employees db) -> Employee.id e <> employee_id) ->
          update_employee EmailStr employee_id body now db
          = (HTTPException 404 (employee_not_found employee_id), db))
         /\ forall employee,
              sqlite_int employee_id = true ->
              first (filter (fun e => (Employee.id e =? employee_id)%Z) (employees db))
              = Some employee ->
              (forall d,
                  EmployeeUpdate.department_id updates = Value d ->
                  sqlite_int d = true ->
                  ~ department_exists d db ->
                  update_employee EmailStr employee_id body now db
                  = (HTTPException 404 ("Department " ++ str_int d ++ " not found")%string, db))
              /\ (forall detail db',
                    update_employee EmailStr employee_id body now db
                    = (HTTPException 409 detail, db') ->
                    department_check_passes updates db
                    /\ ~ email_check_passes employee_id updates db
                    /\ db' = db).
Proof.
  intros employee_id body now db. split.
  - intros Hv. unfold update_employee. rewrite Hv. reflexivity.
  - intros updates Hv. split.
    + intros Hi Hnone. apply no_row_iff in Hnone.
      unfold update_employee, employee_not_found. rewrite Hv, Hi, Hnone. reflexivity.
    + intros employee Hi Hf. rewrite (update_employee_found _ _ _ _ _ _ Hv Hi Hf).
      split.
      * intros d Hd Hint Hmissing. unfold department_check. rewrite Hd.
        cbn [dumped binds]. rewrite Hint. cbn [negb].
        replace (first (filter _ (departments db))) with (@None Department.t);
          [reflexivity|].
        symmetry. apply first_filter_None. intros x Hx. cbn.
        apply Z.eqb_neq. intros Hid. apply Hmissing. exists x. auto.
      * intros detail db'.
        destruct (department_check updates db) as [raised|] eqn:Hdept.
        { apply department_check_Some in Hdept as [->|[detail' ->]]; discriminate. }
        apply department_check_inv in Hdept.
        destruct (email_check employee_id updates db) as [raised|] eqn:Hemail.
        -- intros [= _ <-]. split; [exact Hdept|]. split; [|reflexivity].
           intros Hpass. rewrite (email_check_None _ _ _ Hpass) in Hemail. discriminate.
        -- destruct (commit_update _ _ _ _) as [db1|]; [|discriminate].
           destruct (refresh _ db1) as [row|]; [|discriminate].
           destruct (EmployeeResponse_model_validate EmailStr row); discriminate.
Qed.

Lemma optional_Value_check {A B : Type} (check : A -> option B) (f : field A) g x :
  optional check f = Some g -> g = Value x -> exists a, check a = Some x.
Proof.
  destruct f as [| |a|]; cbn.
  - intros [= <-] H. discriminate H.
  - intros [= <-] H. discriminate H.
  - destruct (check a) as [b|] eqn:E; cbn; [|discriminate].
    intros [= <-] [= <-]. eauto.
  - discriminate.
Qed.

(** A salary that a validated patch holds is positive. *)
Lemma EmployeeUpdate_validate_salary body updates :
  EmployeeUpdate_validate EmailStr body = Some updates ->
  match EmployeeUpdate.salary updates with
  | Value (Decimal.Finite c _) => 0 < c
  | Value _ => False
  | _ => True
  end.
Proof.
  unfold EmployeeUpdate_validate.
  destruct (optional name_field (Body.first_name body)); [|discriminate].
  destruct (optional name_field (Body.last_name body)); [|discriminate].
  destruct (optional EmailStr (Body.email body)); [|discriminate].
  destruct (optional department_id_field (Body.department_id body)); [|discriminate].
  destruct (optional position_field (Body.position body)); [|discriminate].
  destruct (optional salary_field (Body.salary body)) as [sl|] eqn:E6; [|discriminate].
  destruct (optional (@Some bool) (Body.is_active body)); [|discriminate].
  intros [= <-]. cbn.
  destruct sl as [| |d|]; try exact I.
  destruct (optional_Value_check _ _ _ _ E6 eq_refl) as [a Ha].
  apply salary_field_Some in Ha as [-> (c & e & -> & Hc)]. exact Hc.
Qed.

Lemma assign_Some {A : Type} (f : field A) (old x : A) :
  assign f (Some old) = Some x -> f <> Null /\ merged f old = x.
Proof.
  destruct f as [| |a|]; cbn; [intros [= <-]|discriminate|intros [= <-]|intros [= <-]];
    split; congruence.
Qed.

(** The row an UPDATE writes, column by column. *)
Lemma updated_row_patched_inv updates employee now row :
  updated_row employee (patched updates (load employee)) now = Some row ->
  (EmployeeUpdate.first_name updates <> Null
   /\ EmployeeUpdate.last_name updates <> Null
   /\ EmployeeUpdate.email updates <> Null
   /\ EmployeeUpdate.department_id updates <> Null
   /\ EmployeeUpdate.position updates <> Null
   /\ EmployeeUpdate.salary updates <> Null)
  /\ row = Employee.mk (Employee.id employee)
             (merged (EmployeeUpdate.first_name updates) (Employee.first_name employee))
             (merged (EmployeeUpdate.last_name updates) (Employee.last_name employee))
             (merged (EmployeeUpdate.email updates) (Employee.email employee))
             (merged (EmployeeUpdate.department_id updates) (Employee.department_id employee))
             (merged (EmployeeUpdate.position updates) (Employee.position employee))
             (stored_salary (EmployeeUpdate.salary updates) (Employee.salary employee))
             (assign (EmployeeUpdate.is_active updates) (Employee.is_active employee))
             (Employee.created_at employee) (Some now).
Proof.
  unfold updated_row. instance_fields.
  destruct (assign (EmployeeUpdate.first_name updates) _) as [fn|] eqn:E1; [|discriminate].
  destruct (assign (EmployeeUpdate.last_name updates) _) as [ln|] eqn:E2; [|discriminate].
  destruct (assign (EmployeeUpdate.email updates) _) as [em|] eqn:E3; [|discriminate].
  destruct (assign (EmployeeUpdate.department_id updates) _) as [dp|] eqn:E4; [|discriminate].
  destruct (assign (EmployeeUpdate.position updates) _) as [ps|] eqn:E5; [|discriminate].
  destruct (assign (EmployeeUpdate.salary updates) _) as [sl|] eqn:E6; [|discriminate].
  apply assign_Some in E1 as [N1 <-], E2 as [N2 <-], E3 as [N3 <-], E4 as [N4 <-],
    E5 as [N5 <-].
  assert (N6 : EmployeeUpdate.salary updates <> Null
               /\ (if Decimal.eqb (to_decimal (Employee.salary employee)) sl
                   then Employee.salary employee else to_float sl)
                  = stored_salary (EmployeeUpdate.salary updates) (Employee.salary employee)).
  { destruct (EmployeeUpdate.salary updates) as [| |a|]; cbn [assign stored_salary] in *;
      try discriminate; injection E6 as <-; (split; [discriminate|]);
      rewrite ?Decimal_eqb_refl; reflexivity. }
  destruct N6 as [N6 ->].
  intros [= <-]. repeat split; assumption.
Qed.

Lemma null_key_nil {A : Type} key (f : field A) : f <> Null -> null_key key f = [].
Proof. destruct f; cbn; congruence. Qed.

Lemma update_employee_success employee_id body now db updates employee r db' :
  EmployeeUpdate_validate EmailStr body = Some updates ->
  first (filter (fun e => (Employee.id e =? employee_id)%Z) (employees db)) = Some employee ->
  update_employee EmailStr employee_id body now db = (Returned 200 r, db') ->
  exists row,
    EmployeeResponse_model_validate EmailStr row = Some r
    /\ refresh employee_id db' = Some row
    /\ map Employee.id (employees db') = map Employee.id (employees db)
    /\ (EmployeeUpdate.first_name updates <> Null
        /\ EmployeeUpdate.last_name updates <> Null
        /\ EmployeeUpdate.email updates <> Null
        /\ EmployeeUpdate.department_id updates <> Null
        /\ EmployeeUpdate.position updates <> Null
        /\ EmployeeUpdate.salary updates <> Null)
    /\ Employee.id row = Employee.id employee
    /\ Employee.first_name row
       = merged (EmployeeUpdate.first_name updates) (Employee.first_name employee)
    /\ Employee.last_name row
       = merged (EmployeeUpdate.last_name updates) (Employee.last_name employee)
    /\ Employee.email row
       = merged (EmployeeUpdate.email updates) (Employee.email employee)
    /\ Employee.department_id row
       = merged (EmployeeUpdate.department_id updates) (Employee.department_id employee)
    /\ Employee.position row
       = merged (EmployeeUpdate.position updates) (Employee.position employee)
    /\ Employee.salary row
       = stored_salary (EmployeeUpdate.salary updates) (Employee.salary employee)
    /\ Employee.is_active row
       = assign (EmployeeUpdate.is_active updates) (Employee.is_active employee)
    /\ Employee.created_at row = Employee.created_at employee.
Proof.
  intros Hv Hf Hu.
  pose proof (first_filter_id _ _ _ Hf) as [Hin Hid].
  apply (update_employee_Returned _ _ _ _ _ _ _ _ _ Hv Hf) in Hu
    as (_ & row & Hc & Hr & Hm).
  exists row. split; [exact Hm|]. rewrite <- Hid.
  unfold commit_update in Hc.
  destruct (modified (load employee) (patched updates (load employee))) eqn:Emod.
  - destruct (updated_row _ _ now) as [new|] eqn:Enew; [|discriminate].
    destruct (negb _ && existsb _ _); [discriminate|]. injection Hc as <-.
    pose proof (updated_row_id _ _ _ _ Enew) as Hnid. cbn in Hnid.
    rewrite (refresh_replaced _ _ employee new Hin Hnid) in Hr. injection Hr as <-.
    apply updated_row_patched_inv in Enew as [Hnull ->].
    split; [apply refresh_replaced; [exact Hin|reflexivity]|].
    split; [cbn [employees]; apply map_key_replace; reflexivity|].
    split; [exact Hnull|]. cbn. repeat split.
  - injection Hc as <-.
    assert (Hrow : row = employee)
      by (unfold refresh in Hr; rewrite Hid, Hf in Hr; congruence).
    subst row. split; [exact Hr|]. split; [reflexivity|].
    apply modified_false_iff in Emod. unfold same_values in Emod. instance_fields.
    destruct Emod as (E1 & E2 & E3 & E4 & E5 & E6 & E7).
    symmetry in E1, E2, E3, E4, E5.
    apply assign_Some in E1 as [N1 E1], E2 as [N2 E2], E3 as [N3 E3], E4 as [N4 E4],
      E5 as [N5 E5].
    assert (N6 : EmployeeUpdate.salary updates <> Null
                 /\ Employee.salary employee
                    = stored_salary (EmployeeUpdate.salary updates) (Employee.salary employee)).
    { destruct (EmployeeUpdate.salary updates) as [| |a|]; cbn [assign stored_salary option_eqb] in *;
        try discriminate; (split; [discriminate|]); rewrite ?E6; reflexivity. }
    destruct N6 as [N6 E6'].
    repeat split; congruence.
Qed.

(** X5. A PUT that succeeds is a merge-patch: in the answer every field the
    body gives has the given value, every field the body leaves out keeps
    the stored value, the id and [created_at] are those of the stored row,
    and no row is added or removed.  The salary of the answer is the stored
    float read with two decimal places: a given salary is stored as its
    float unless it is the number the column already reads as, and a given
    salary of at most two decimal places below [2 ^ 46] comes back as the
    same number.  A body that succeeds holds no [null]. *)
Theorem update_employee_merge_patch :
  forall employee_id body now db updates employee r db',
    EmployeeUpdate_validate EmailStr body = Some updates ->
    first (filter (fun e => (Employee.id e =? employee_id)%Z) (employees db)) = Some employee ->
    update_employee EmailStr employee_id body now db = (Returned 200 r, db') ->
    EmployeeResponse.id r = employee_id
    /\ Some (EmployeeResponse.created_at r) = Employee.created_at employee
    /\ EmployeeResponse.first_name r
       = merged (EmployeeUpdate.first_name updates) (Employee.first_name employee)
    /\ EmployeeResponse.last_name r
       = merged (EmployeeUpdate.last_name updates) (Employee.last_name employee)
    /\ EmailStr (merged (EmployeeUpdate.email updates) (Employee.email employee))
       = Some (EmployeeResponse.email r)
    /\ EmployeeResponse.department_id r
       = merged (EmployeeUpdate.department_id updates) (Employee.department_id employee)
    /\ EmployeeResponse.position r
       = merged (EmployeeUpdate.position updates) (Employee.position employee)
    /\ EmployeeResponse.salary r
       = to_decimal (stored_salary (EmployeeUpdate.salary updates) (Employee.salary employee))
    /\ (forall c x,
          EmployeeUpdate.salary updates = Value (Decimal.Finite c x) ->
          -2 <= x -> c * 10 ^ (x + 2) < 100 * 2 ^ 46 ->
          EmployeeResponse.salary r = Decimal.Finite (c * 10 ^ (x + 2)) (-2))
    /\ Some (EmployeeResponse.is_active r)
       = assign (EmployeeUpdate.is_active updates) (Employee.is_active employee)
    /\ null_keys body = []
    /\ get_employee EmailStr employee_id db' = Returned 200 r
    /\ map Employee.id (employees db') = map Employee.id (employees db).
Proof.
  intros employee_id body now db updates employee r db' Hv Hf Hu.
  pose proof (first_filter_id _ _ _ Hf) as [Hin Hid].
  assert (Hi : sqlite_int employee_id = true).
  { destruct (sqlite_int employee_id) eqn:Hi; [reflexivity|].
    destruct (update_employee_overflow employee_id body now db Hi) as [H|H];
      rewrite H in Hu; discriminate. }
  destruct (update_employee_success _ _ _ _ _ _ _ _ Hv Hf Hu)
    as (row & Hm & Hr & Hids & (N1 & N2 & N3 & N4 & N5 & N6)
        & Rid & Rfn & Rln & Rem & Rdp & Rps & Rsl & Rac & Rcr).
  pose proof (EmployeeResponse_model_validate_Some _ _ Hm)
    as (Mid & Mfn & Mln & Mem & Mdp & Mps & Msl & Mac & Mcr & _).
  assert (N7 : EmployeeUpdate.is_active updates <> Null).
  { intros Hn. rewrite Hn in Rac. cbn in Rac. congruence. }
  split; [congruence|]. split; [congruence|]. split; [congruence|].
  split; [congruence|]. split; [congruence|]. split; [congruence|].
  split; [congruence|]. split; [congruence|].
  split; [|split; [congruence|split; [|split; [|exact Hids]]]].
  - intros c x Hs Hx Hbound. rewrite Msl, Rsl, Hs. cbn [stored_salary].
    assert (Hc : 0 < c).
    { pose proof (EmployeeUpdate_validate_salary _ _ Hv) as Hsal. rewrite Hs in Hsal.
      exact Hsal. }
    destruct (Decimal.eqb (to_decimal (Employee.salary employee)) (Decimal.Finite c x))
      eqn:Eeq; [|apply to_decimal_to_float; assumption].
    destruct (Employee.salary employee) as [m e| |]; cbn [to_decimal] in *; try discriminate.
    cbn [Decimal.eqb] in Eeq. rewrite (Z.min_l (-2) x) in Eeq by lia.
    apply Z.eqb_eq in Eeq. rewrite Z.sub_diag, Z.mul_1_r in Eeq.
    replace (x - -2) with (x + 2) in Eeq by lia. rewrite Eeq. reflexivity.
  - pose proof (EmployeeUpdate_validate_Null _ _ Hv) as (H1 & H2 & H3 & H4 & H5 & H6 & H7).
    unfold null_keys.
    rewrite !null_key_nil; [reflexivity|tauto..].
  - unfold refresh in Hr. unfold get_employee. rewrite Hi, Hr, Hm. reflexivity.
Qed.

(** ** Creation *)

Lemma required_Some {A B : Type} (check : A -> option B) (f : field A) (x : B) :
  required check f = Some x -> exists a, f = Value a /\ check a = Some x.
Proof. destruct f as [| |a|]; cbn; try discriminate. intros H. eauto. Qed.

Lemma defaulted_Some {A : Type} (default : A) (f : field A) (x : A) :
  defaulted default f = Some x -> f <> Null /\ x = merged f default.
Proof.
  destruct f as [| |a|]; cbn; try discriminate; intros [= <-]; split; congruence.
Qed.

(** What a validated creation payload says about the body it came from. *)
Lemma EmployeeCreate_validate_Some body employee :
  EmployeeCreate_validate EmailStr body = Some employee ->
  (Body.first_name body = Value (EmployeeCreate.first_name employee)
   /\ str_between 1 100 (EmployeeCreate.first_name employee) = true)
  /\ (Body.last_name body = Value (EmployeeCreate.last_name employee)
      /\ str_between 1 100 (EmployeeCreate.last_name employee) = true)
  /\ (exists sent,
         Body.email body = Value sent
         /\ EmailStr sent = Some (EmployeeCreate.email employee))
  /\ (Body.department_id body = Value (EmployeeCreate.department_id employee)
      /\ 1 <= EmployeeCreate.department_id employee)
  /\ (Body.position body = Value (EmployeeCreate.position employee)
      /\ str_between 1 200 (EmployeeCreate.position employee) = true)
  /\ (Body.salary body = Value (EmployeeCreate.salary employee)
      /\ salary_field (EmployeeCreate.salary employee)
         = Some (EmployeeCreate.salary employee))
  /\ Body.is_active body <> Null
  /\ EmployeeCreate.is_active employee = merged (Body.is_active body) true.
Proof.
  unfold EmployeeCreate_validate, name_field, position_field, department_id_field.
  destruct (required _ (Body.first_name body)) as [fn|] eqn:E1; [|discriminate].
  destruct (required _ (Body.last_name body)) as [ln|] eqn:E2; [|discriminate].
  destruct (required EmailStr (Body.email body)) as [em|] eqn:E3; [|discriminate].
  destruct (required _ (Body.department_id body)) as [dp|] eqn:E4; [|discriminate].
  destruct (required _ (Body.position body)) as [ps|] eqn:E5; [|discriminate].
  destruct (required _ (Body.salary body)) as [sl|] eqn:E6; [|discriminate].
  destruct (defaulted true (Body.is_active body)) as [ac|] eqn:E7; [|discriminate].
  intros [= <-]. cbn.
  apply required_Some in E1 as (a1 & -> & G1), E2 as (a2 & -> & G2), E3 as (a3 & -> & G3),
    E4 as (a4 & -> & G4), E5 as (a5 & -> & G5), E6 as (a6 & -> & G6).
  apply guard_Some in G1 as [G1 ->], G2 as [G2 ->], G4 as [G4 ->], G5 as [G5 ->].
  pose proof (salary_field_Some _ _ G6) as [-> _].
  apply defaulted_Some in E7 as [N7 ->].
  apply Z.leb_le in G4.
  repeat split; try assumption. exists a3. auto.
Qed.

(** X6. A creation that is answered 201 echoes the body: every field of the
    answer is the one sent, [is_active] is [true] when the body leaves it
    out, [created_at] is the time of the request and [updated_at] is null;
    the salary of the answer is the float of the salary sent, read with two
    decimal places, which is the same number for a salary of at most two
    decimal places below [2 ^ 46]; the new id is larger than every id in
    the table, the row is appended to the table, its department exists and
    its email was held by no row. *)
Theorem create_employee_created :
  forall body now db r db',
    create_employee EmailStr body now db = (Returned 201 r, db') ->
    Body.first_name body = Value (EmployeeResponse.first_name r)
    /\ Body.last_name body = Value (EmployeeResponse.last_name r)
    /\ (exists sent stored,
           Body.email body = Value sent
           /\ EmailStr sent = Some stored
           /\ EmailStr stored = Some (EmployeeResponse.email r)
           /\ ~ email_taken stored db)
    /\ Body.department_id body = Value (EmployeeResponse.department_id r)
    /\ Body.position body = Value (EmployeeResponse.position r)
    /\ (exists salary,
           Body.salary body = Value salary
           /\ EmployeeResponse.salary r = to_decimal (to_float salary))
    /\ (forall c x,
          Body.salary body = Value (Decimal.Finite c x) ->
          -2 <= x -> c * 10 ^ (x + 2) < 100 * 2 ^ 46 ->
          EmployeeResponse.salary r = Decimal.Finite (c * 10 ^ (x + 2)) (-2))
    /\ EmployeeResponse.is_active r = merged (Body.is_active body) true
    /\ EmployeeResponse.created_at r = now
    /\ EmployeeResponse.updated_at r = None
    /\ (forall e, In e (employees db) -> Employee.id e < EmployeeResponse.id r)
    /\ (exists row,
           employees db' = employees db ++ [row]
           /\ Employee.id row = EmployeeResponse.id r)
    /\ departments db' = departments db
    /\ department_exists (EmployeeResponse.department_id r) db.
Proof.
  intros body now db r db' Hc.
  destruct (create_employee_snd body now db) as [Hsame|(employee' & row' & Hv' & Hdept & _)].
  - rewrite Hc in Hsame. cbn in Hsame. subst db'.
    apply create_employee_Returned in Hc as (_ & employee & row & _ & Hi & _).
    apply insert_employee_Some in Hi as (Hdb & _).
    exfalso. apply (f_equal (fun d => List.length (employees d))) in Hdb.
    cbn in Hdb. rewrite length_app in Hdb. cbn in Hdb. lia.
  - apply create_employee_Returned in Hc as (_ & employee & row & Hv & Hi & Hm).
    rewrite Hv in Hv'. injection Hv' as <-.
    pose proof (insert_employee_Some _ _ _ _ _ Hi) as (-> & Hfree & Hrow).
    pose proof (EmployeeResponse_model_validate_Some _ _ Hm)
      as (Mid & Mfn & Mln & Mem & Mdp & Mps & Msl & Mac & Mcr & Mup).
    pose proof (EmployeeCreate_validate_Some _ _ Hv)
      as ((B1 & _) & (B2 & _) & (sent & B3 & V3) & (B4 & _) & (B5 & _) & (B6 & V6) & _ & B7).
    rewrite Hrow in Mid, Mfn, Mln, Mem, Mdp, Mps, Msl, Mac, Mcr, Mup, Hfree.
    cbn [Employee.id Employee.first_name Employee.last_name Employee.email
           Employee.department_id Employee.position Employee.salary Employee.is_active
           Employee.created_at Employee.updated_at] in *.
    injection Mac as Mac. injection Mcr as Mcr.
    split; [congruence|]. split; [congruence|].
    split; [exists sent, (EmployeeCreate.email employee); auto|].
    split; [congruence|]. split; [congruence|].
    split; [exists (EmployeeCreate.salary employee); auto|].
    split.
    { intros c x Hs Hx Hbound. rewrite B6 in Hs. injection Hs as Hs.
      rewrite Msl, Hs. apply to_decimal_to_float; try assumption.
      rewrite Hs in V6. apply salary_field_Some in V6 as [_ (c' & e' & [= <- <-] & Hc')].
      exact Hc'. }
    split; [congruence|]. split; [congruence|]. split; [congruence|].
    split; [intros e He; rewrite Mid; apply next_rowid_gt, in_map; exact He|].
    split; [exists row; split; [reflexivity|rewrite Hrow; cbn; congruence]|].
    split; [reflexivity|]. rewrite Mdp. exact Hdept.
Qed.

(** ** Invariants of the reachable states *)

Lemma optional_Value {A B : Type} (check : A -> option B) (f : field A) g x :
  optional check f = Some g -> g = Value x -> exists a, f = Value a /\ check a = Some x.
Proof.
  destruct f as [| |a|]; cbn.
  - intros [= <-]. discriminate.
  - intros [= <-]. discriminate.
  - destruct (check a) as [b|] eqn:Hb; cbn; [|discriminate].
    intros [= <-] [= <-]. exists a. auto.
  - discriminate.
Qed.

(** The values of a validated patch satisfy the constraints of their fields. *)
Lemma EmployeeUpdate_validate_Some body updates :
  EmployeeUpdate_validate EmailStr body = Some updates ->
  (forall s, EmployeeUpdate.first_name updates = Value s -> str_between 1 100 s = true)
  /\ (forall s, EmployeeUpdate.last_name updates = Value s -> str_between 1 100 s = true)
  /\ (forall s, EmployeeUpdate.email updates = Value s ->
                exists sent, Body.email body = Value sent /\ EmailStr sent = Some s)
  /\ (forall d, EmployeeUpdate.department_id updates = Value d -> 1 <= d)
  /\ (forall s, EmployeeUpdate.position updates = Value s -> str_between 1 200 s = true)
  /\ (forall s, EmployeeUpdate.salary updates = Value s -> salary_field s = Some s).
Proof.
  unfold EmployeeUpdate_validate, name_field, position_field, department_id_field.
  destruct (optional _ (Body.first_name body)) as [f1|] eqn:E1; [|discriminate].
  destruct (optional _ (Body.last_name body)) as [f2|] eqn:E2; [|discriminate].
  destruct (optional EmailStr (Body.email body)) as [f3|] eqn:E3; [|discriminate].
  destruct (optional _ (Body.department_id body)) as [f4|] eqn:E4; [|discriminate].
  destruct (optional _ (Body.position body)) as [f5|] eqn:E5; [|discriminate].
  destruct (optional _ (Body.salary body)) as [f6|] eqn:E6; [|discriminate].
  destruct (optional _ (Body.is_active body)) as [f7|]; [|discriminate].
  intros [= <-]. cbn. repeat split.
  - intros s Hs. destruct (optional_Value _ _ _ _ E1 Hs) as (a & _ & G).
    apply guard_Some in G as [G ->]. exact G.
  - intros s Hs. destruct (optional_Value _ _ _ _ E2 Hs) as (a & _ & G).
    apply guard_Some in G as [G ->]. exact G.
  - intros s Hs. destruct (optional_Value _ _ _ _ E3 Hs) as (a & Ha & G). eauto.
  - intros d Hd. destruct (optional_Value _ _ _ _ E4 Hd) as (a & _ & G).
    apply guard_Some in G as [G ->]. apply Z.leb_le. exact G.
  - intros s Hs. destruct (optional_Value _ _ _ _ E5 Hs) as (a & _ & G).
    apply guard_Some in G as [G ->]. exact G.
  - intros h Hh. destruct (optional_Value _ _ _ _ E6 Hh) as (a & _ & G).
    pose proof (salary_field_Some _ _ G) as [-> _]. exact G.
Qed.

Lemma update_employee_snd_checked employee_id body now db :
  snd (update_employee EmailStr employee_id body now db) = db
  \/ exists updates employee,
       EmployeeUpdate_validate EmailStr body = Some updates
       /\ first (filter (fun e => (Employee.id e =? employee_id)%Z) (employees db))
          = Some employee
       /\ department_check_passes updates db
       /\ email_check_passes employee_id updates db
       /\ commit_update employee (patched updates (load employee)) now db
          = Some (snd (update_employee EmailStr employee_id body now db)).
Proof.
  destruct (EmployeeUpdate_validate EmailStr body) as [updates|] eqn:Hv;
    [|left; unfold update_employee; rewrite Hv; reflexivity].
  destruct (sqlite_int employee_id) eqn:Hi;
    [|left; unfold update_employee; rewrite Hv, Hi; reflexivity].
  destruct (first (filter (fun e => (Employee.id e =? employee_id)%Z) (employees db)))
    as [employee|] eqn:Hf;
    [|left; unfold update_employee; rewrite Hv, Hi, Hf; reflexivity].
  rewrite (update_employee_found _ _ _ _ _ _ Hv Hi Hf).
  destruct (department_check updates db) eqn:Hdept; [left; reflexivity|].
  destruct (email_check employee_id updates db) eqn:Hemail; [left; reflexivity|].
  apply department_check_inv in Hdept. apply email_check_inv in Hemail.
  destruct (commit_update _ _ _ _) as [db1|] eqn:Hc; [|left; reflexivity].
  right. exists updates, employee.
  split; [reflexivity|]. split; [reflexivity|]. split; [exact Hdept|].
  split; [exact Hemail|]. rewrite Hc. f_equal.
  destruct (refresh _ db1) as [row|]; [|reflexivity].
  destruct (EmployeeResponse_model_validate EmailStr row); reflexivity.
Qed.

Lemma department_exists_same db db' id :
  departments db' = departments db -> department_exists id db -> department_exists id db'.
Proof. unfold department_exists. intros ->. auto. Qed.

Lemma rows_well_formed_create body now db :
  rows_well_formed db -> rows_well_formed (snd (create_employee EmailStr body now db)).
Proof.
  intros Hwf.
  destruct (create_employee_snd body now db) as [->|(employee & row & Hv & Hdept & Hi)];
    [exact Hwf|].
  apply insert_employee_Some in Hi as (-> & _ & Hrow).
  pose proof (EmployeeCreate_validate_Some _ _ Hv)
    as ((_ & C1) & (_ & C2) & _ & (_ & C4) & (_ & C5) & (_ & C6) & _).
  intros e He. cbn [employees] in He. apply in_app_iff in He as [He|[<-|[]]].
  - destruct (Hwf e He) as [Hc Hd]. split; [exact Hc|].
    apply (department_exists_same db); [reflexivity|exact Hd].
  - rewrite Hrow. split.
    + unfold row_constraints.
      cbn [Employee.first_name Employee.last_name Employee.department_id
             Employee.position Employee.salary Employee.created_at].
      repeat split; try assumption; [|discriminate].
      exists (EmployeeCreate.salary employee). auto.
    + cbn. apply (department_exists_same db); [reflexivity|exact Hdept].
Qed.

Lemma rows_well_formed_update employee_id body now db :
  rows_well_formed db ->
  rows_well_formed (snd (update_employee EmailStr employee_id body now db)).
Proof.
  intros Hwf.
  destruct (update_employee_snd_checked employee_id body now db)
    as [->|(updates & employee & Hv & Hf & Hd & _ & Hc)]; [exact Hwf|].
  pose proof (first_filter_id _ _ _ Hf) as [Hin _].
  unfold commit_update in Hc.
  destruct (modified _ _); [|injection Hc as <-; exact Hwf].
  destruct (updated_row _ _ now) as [new|] eqn:Enew; [|discriminate].
  destruct (negb _ && existsb _ _); [discriminate|]. injection Hc as <-.
  apply updated_row_patched_inv in Enew as [_ Hnew].
  pose proof (EmployeeUpdate_validate_Some _ _ Hv) as (V1 & V2 & _ & V4 & V5 & V6).
  destruct (Hwf employee Hin) as [(C1 & C2 & C3 & C4 & C5 & C6) Hde].
  intros e He. cbn [employees] in He. apply in_map_iff in He as (x & Hx & Hxin).
  destruct (Employee.id x =? Employee.id employee)%Z.
  - subst e. rewrite Hnew. split.
    + unfold row_constraints.
      cbn [Employee.first_name Employee.last_name Employee.department_id
             Employee.position Employee.salary Employee.created_at].
      split; [|split; [|split; [|split; [|split]]]].
      * destruct (EmployeeUpdate.first_name updates) eqn:E; cbn; auto.
      * destruct (EmployeeUpdate.last_name updates) eqn:E; cbn; auto.
      * destruct (EmployeeUpdate.department_id updates) eqn:E; cbn; auto.
      * destruct (EmployeeUpdate.position updates) eqn:E; cbn; auto.
      * destruct (EmployeeUpdate.salary updates) as [| |sl|] eqn:E;
          cbn [stored_salary]; try exact C5.
        destruct (Decimal.eqb _ sl); [exact C5|]. exists sl. auto.
      * exact C6.
    + cbn. unfold department_check_passes in Hd.
      destruct (EmployeeUpdate.department_id updates); cbn;
        [exact Hde|contradiction|exact Hd|exact Hde].
  - subst x. destruct (Hwf e Hxin) as [Hc' Hd']. split; [exact Hc'|exact Hd'].
Qed.

Lemma rows_well_formed_delete employee_id db :
  rows_well_formed db -> rows_well_formed (snd (delete_employee employee_id db)).
Proof.
  intros Hwf. destruct (delete_employee_snd employee_id db) as [Hdeps [Hrows|Hrows]];
    intros e He; rewrite Hrows in He.
  - destruct (Hwf e He) as [Hc Hd]. split; [exact Hc|].
    apply (department_exists_same db); assumption.
  - apply filter_In in He as [He _]. destruct (Hwf e He) as [Hc Hd]. split; [exact Hc|].
    apply (department_exists_same db); assumption.
Qed.

Lemma reachable_rows_well_formed db : reachable EmailStr db -> rows_well_formed db.
Proof.
  induction 1.
  - intros e [].
  - apply rows_well_formed_create. assumption.
  - apply rows_well_formed_update. assumption.
  - apply rows_well_formed_delete. assumption.
Qed.

(** X7. Referential integrity: in every state the API reaches, the
    [department_id] of every employee is the id of a department in the
    table, and the department table is the seeded one. *)
Theorem reachable_referential_integrity :
  forall db,
    reachable EmailStr db ->
    departments db = departments lifespan
    /\ forall e,
         In e (employees db) ->
         exists d, In d (departments db) /\ Department.id d = Employee.department_id e.
Proof.
  intros db Hreach. split.
  - apply (reachable_store_invariant db Hreach).
  - intros e He. apply (reachable_rows_well_formed db Hreach e He).
Qed.

(** X8. Keys are unique: in every state the API reaches, two rows of the
    employee table with the same id, or with the same email, are the same
    row. *)
Theorem reachable_unique_keys :
  forall db,
    reachable EmailStr db ->
    forall e1 e2,
      In e1 (employees db) -> In e2 (employees db) ->
      (Employee.id e1 = Employee.id e2 -> e1 = e2)
      /\ (Employee.email e1 = Employee.email e2 -> e1 = e2).
Proof.
  intros db Hreach e1 e2 H1 H2.
  destruct (reachable_store_invariant db Hreach) as (_ & Hs & He).
  split; intros Heq.
  - apply (NoDup_map_injective Employee.id (employees db)); auto.
    apply StronglySorted_lt_NoDup. exact Hs.
  - apply (NoDup_map_injective Employee.email (employees db)); auto.
Qed.

(** X9. In every state the API reaches, every stored employee satisfies the
    constraints of the schema: names of 1 to 100 characters, a position of 1
    to 200, a department id of at least 1, a salary that is the float of a
    positive [Decimal] the schema accepts, and a [created_at] that is set. *)
Theorem reachable_row_constraints :
  forall db,
    reachable EmailStr db ->
    forall e,
      In e (employees db) ->
      (1 <= String.length (Employee.first_name e) <= 100)%nat
      /\ (1 <= String.length (Employee.last_name e) <= 100)%nat
      /\ (1 <= String.length (Employee.position e) <= 200)%nat
      /\ 1 <= Employee.department_id e
      /\ (exists c x,
             salary_field (Decimal.Finite c x) = Some (Decimal.Finite c x)
             /\ 0 < c
             /\ Employee.salary e = to_float (Decimal.Finite c x))
      /\ Employee.created_at e <> None.
Proof.
  intros db Hreach e He.
  destruct (reachable_rows_well_formed db Hreach e He)
    as [(C1 & C2 & C3 & C4 & C5 & C6) _].
  unfold str_between in C1, C2, C4.
  rewrite andb_true_iff, !Nat.leb_le in C1, C2, C4.
  destruct C5 as (salary & Hs & Hf).
  pose proof (salary_field_Some _ _ Hs) as [_ (c & x & -> & Hc)].
  repeat split; try tauto. exists c, x. auto.
Qed.

(** ** Listing *)

Lemma traverse_Forall2 {A B : Type} (f : A -> option B) (xs : list A) (ys : list B) :
  traverse f xs = Some ys -> Forall2 (fun x y => f x = Some y) xs ys.
Proof.
  revert ys. induction xs as [|x xs IH]; cbn; intros ys.
  - intros [= <-]. constructor.
  - destruct (f x) as [y|] eqn:Hy; [|discriminate].
    destruct (traverse f xs) as [ys'|]; [|discriminate].
    intros [= <-]. constructor; auto.
Qed.

Lemma Forall2_Forall_r {A B : Type} (R : A -> B -> Prop) (P : A -> Prop) (Q : B -> Prop)
  (xs : list A) (ys : list B) :
  Forall2 R xs ys ->
  (forall x, In x xs -> P x) ->
  (forall x y, P x -> R x y -> Q y) ->
  Forall Q ys.
Proof.
  induction 1 as [|x y xs ys Hxy _ IH]; intros HP HQ; constructor.
  - apply (HQ x); [apply HP; left; reflexivity|exact Hxy].
  - apply IH; [|exact HQ]. intros z Hz. apply HP. right. exact Hz.
Qed.

(** X10. A listing that is answered 200 had its parameters in range; every
    item satisfies the [department_id] and [is_active] filters that were
    given; and the number of items is [page_size], or what is left of the
    matching rows after the offset when that is less. *)
Theorem list_employees_items :
  forall page page_size department_id is_active search db r,
    list_employees EmailStr page page_size department_id is_active search db
    = Returned 200 r ->
    (1 <= page /\ 1 <= page_size <= 100)
    /\ Forall (fun item =>
                 (forall d, department_id = Some d ->
                            EmployeeResponse.department_id item = d)
                 /\ (forall b, is_active = Some b ->
                               EmployeeResponse.is_active item = b))
         (EmployeeListResponse.items r)
    /\ Z.of_nat (List.length (EmployeeListResponse.items r))
       = Z.max 0 (Z.min page_size
                    (EmployeeListResponse.total r - (page - 1) * page_size))
    /\ EmployeeListResponse.page r = page
    /\ EmployeeListResponse.page_size r = page_size.
Proof.
  intros page page_size department_id is_active search db r H.
  apply list_employees_Returned in H as (_ & Hp & Hs & Hitems & Htotal & Hpage & Hsize & _).
  split; [auto|]. split; [|split; [|auto]].
  - apply traverse_Forall2 in Hitems.
    apply (Forall2_Forall_r _ (fun row => selected department_id is_active search row = true)
             _ _ _ Hitems).
    + intros row Hrow. apply page_window_In, filter_In in Hrow. apply Hrow.
    + intros row item Hsel Hrow.
      apply EmployeeResponse_model_validate_Some in Hrow
        as (_ & _ & _ & _ & Hd & _ & _ & Ha & _).
      unfold selected in Hsel. rewrite !andb_true_iff in Hsel.
      destruct Hsel as [[Hsd Hsa] _]. split.
      * intros d ->. apply Z.eqb_eq in Hsd. congruence.
      * intros b ->. rewrite Ha in Hsa. cbn in Hsa.
        destruct (EmployeeResponse.is_active item), b; cbn in Hsa; congruence.
  - rewrite Htotal.
    assert (Hlen : List.length (EmployeeListResponse.items r)
                   = List.length (page_window page page_size
                                    (filter (selected department_id is_active search)
                                       (employees db)))).
    { apply traverse_Forall2 in Hitems. symmetry. eapply Forall2_length. exact Hitems. }
    rewrite Hlen. unfold page_window. rewrite length_firstn, length_skipn. nia.
Qed.

Lemma firstn_plus {A : Type} (a b : nat) (l : list A) :
  firstn (a + b) l = firstn a l ++ firstn b (skipn a l).
Proof.
  revert l. induction a as [|a IH]; intros l; [reflexivity|].
  destruct l as [|x l]; cbn; [rewrite firstn_nil; reflexivity|].
  rewrite IH. reflexivity.
Qed.

Lemma concat_pages {A : Type} (page_size : Z) (rows : list A) (n : nat) :
  0 <= page_size ->
  List.concat (map (fun p => page_window p page_size rows) (pages n))
  = firstn (n * Z.to_nat page_size) rows.
Proof.
  intros Hs. unfold pages. induction n as [|n IH]; [reflexivity|].
  rewrite seq_S, !map_app, concat_app, IH. cbn [map List.concat]. rewrite app_nil_r.
  unfold page_window.
  replace (Z.to_nat ((Z.of_nat (1 + n) - 1) * page_size))
    with (n * Z.to_nat page_size)%nat by nia.
  rewrite <- firstn_plus. f_equal. lia.
Qed.

(** X11. The pages of a listing partition the matching rows: for a page size
    in range, the windows of pages 1 to [total_pages], one after the other,
    are the matching rows in table order, none skipped and none repeated;
    and every page that is answered reports that [total_pages] and carries
    the ids of its window. *)
Theorem list_employees_pages_partition :
  forall page_size department_id is_active search db,
    1 <= page_size <= 100 ->
    let matching := filter (selected department_id is_active search) (employees db) in
    let total := Z.of_nat (List.length matching) in
    let total_pages := if (0 <? total)%Z then math_ceil_div total page_size else 1 in
    List.concat (map (fun p => page_window p page_size matching) (pages (Z.to_nat total_pages)))
    = matching
    /\ forall page r,
         list_employees EmailStr page page_size department_id is_active search db
         = Returned 200 r ->
         EmployeeListResponse.total_pages r = total_pages
         /\ map EmployeeResponse.id (EmployeeListResponse.items r)
            = map Employee.id (page_window page page_size matching).
Proof.
  intros page_size department_id is_active search db Hs matching total total_pages.
  split.
  - rewrite concat_pages by lia. apply firstn_all2.
    unfold total_pages. destruct (Z.ltb_spec 0 total) as [Hpos|Hzero].
    + pose proof (math_ceil_div_bounds total page_size ltac:(lia) Hpos) as [_ Hle].
      unfold total in *. nia.
    + unfold total in *. lia.
  - intros page r H.
    apply list_employees_Returned in H as (_ & _ & _ & Hitems & Htotal & _ & _ & Hpages).
    split.
    + rewrite Hpages, Htotal. reflexivity.
    + apply traverse_model_validate_ids. exact Hitems.
Qed.

Lemma ilike_lower_pattern (column p q : string) :
  lower p = lower q -> ilike column p = ilike column q.
Proof. unfold ilike. intros ->. reflexivity. Qed.

Lemma selected_search_lower department_id is_active s1 s2 e :
  lower s1 = lower s2 ->
  selected department_id is_active (Some s1) e = selected department_id is_active (Some s2) e.
Proof.
  intros Hl. unfold selected. f_equal.
  destruct s1 as [|c1 s1], s2 as [|c2 s2]; try discriminate; [reflexivity|].
  unfold search_matches. cbv zeta.
  assert (Hterm : lower ("%" ++ String c1 s1 ++ "%") = lower ("%" ++ String c2 s2 ++ "%")).
  { rewrite !lower_append, Hl. reflexivity. }
  rewrite !(ilike_lower_pattern _ _ _ Hterm). reflexivity.
Qed.

(** X12. The search ignores the case of the search string: two strings that
    differ only in the case of ASCII letters give the same listing. *)
Theorem list_employees_search_case_insensitive :
  forall s1 s2,
    lower s1 = lower s2 ->
    forall page page_size department_id is_active db,
      list_employees EmailStr page page_size department_id is_active (Some s1) db
      = list_employees EmailStr page page_size department_id is_active (Some s2) db.
Proof.
  intros s1 s2 Hl page page_size department_id is_active db.
  rewrite !list_employees_unfold. cbv zeta.
  rewrite (filter_ext _ _ (fun e => selected_search_lower department_id is_active
                                      s1 s2 e Hl)).
  reflexivity.
Qed.



(** ** Startup, validation and the shape of the answers *)

(** X14. Seeding is idempotent: it fills an empty department table with the
    default departments, in order and with distinct ids, leaves a table that
    holds any row as it is, and never touches the employees; so running it
    again changes nothing. *)
Theorem seed_departments_idempotent :
  forall db,
    seed_departments (seed_departments db) = seed_departments db
    /\ (departments db <> [] -> seed_departments db = db)
    /\ employees (seed_departments db) = employees db
    /\ (departments db = [] ->
        map (fun d => (Department.name d, Department.code d))
          (departments (seed_departments db)) = DEFAULT_DEPARTMENTS
        /\ map Department.id (departments (seed_departments db)) = [1; 2; 3; 4; 5; 6; 7]).
Proof.
  intros [deps emps]. destruct deps as [|d deps].
  - split; [reflexivity|]. split; [intros H; contradiction|].
    split; [reflexivity|]. intros _. split; reflexivity.
  - assert (Hseed : seed_departments (mkDatabase (d :: deps) emps)
                    = mkDatabase (d :: deps) emps).
    { unfold seed_departments. cbn [departments List.length].
      destruct (Z.eqb_spec (Z.of_nat (S (List.length deps))) 0) as [H0|_]; [lia|].
      reflexivity. }
    rewrite !Hseed. split; [reflexivity|]. split; [reflexivity|].
    split; [reflexivity|]. discriminate.
Qed.

Lemma sum_map_add {A : Type} (f g : A -> Z) (l : list A) :
  sum (map (fun x => f x + g x) l) = sum (map f l) + sum (map g l).
Proof. unfold sum. induction l as [|a l IH]; cbn; lia. Qed.

Lemma sum_indicator (ids : list Z) (d : Z) :
  NoDup ids -> In d ids ->
  sum (map (fun k => if (d =? k)%Z then 1 else 0) ids) = 1.
Proof.
  unfold sum. induction 1 as [|a ids Ha Hnd IH]; [intros []|].
  cbn [map fold_right]. intros [->|Hin].
  - rewrite Z.eqb_refl.
    replace (fold_right Z.add 0 (map _ ids)) with 0; [reflexivity|].
    clear IH Hnd. induction ids as [|b ids IH]; [reflexivity|]. cbn.
    destruct (Z.eqb_spec d b) as [->|_]; [exfalso; apply Ha; left; reflexivity|].
    rewrite <- IH; [reflexivity|]. intros H. apply Ha. right. exact H.
  - destruct (Z.eqb_spec d a) as [->|_]; [contradiction|]. rewrite (IH Hin). reflexivity.
Qed.

Lemma sum_count_occ (ids : list Z) (keys : list Z) :
  NoDup ids -> (forall k, In k keys -> In k ids) ->
  sum (map (fun k => Z.of_nat (count_occ Z.eq_dec keys k)) ids)
  = Z.of_nat (List.length keys).
Proof.
  intros Hnd. induction keys as [|d keys IH]; intros Hin.
  - cbn. clear Hnd Hin. unfold sum.
    induction ids as [|a ids IHi]; [reflexivity|]. cbn in *. lia.
  - rewrite (map_ext _ (fun k => (if (d =? k)%Z then 1 else 0)
                                 + Z.of_nat (count_occ Z.eq_dec keys k))).
    + rewrite sum_map_add, sum_indicator, IH; cbn [List.length]; try lia; auto.
      * intros k Hk. apply Hin. right. exact Hk.
      * apply Hin. left. reflexivity.
    + intros k. cbn [count_occ].
      destruct (Z.eq_dec d k) as [->|Hne].
      * rewrite Z.eqb_refl. lia.
      * destruct (Z.eqb_spec d k); [contradiction|]. lia.
Qed.

(** X16. In every state the API reaches, the employee counts of the
    department listing add up to the number of employees: every employee is
    counted in exactly one department. *)
Theorem employee_counts_add_up :
  forall db body,
    reachable EmailStr db ->
    list_departments db = Returned 200 body ->
    sum (map DepartmentResponse.employee_count body)
    = Z.of_nat (List.length (employees db)).
Proof.
  intros db body Hreach Hlist.
  destruct (reachable_store_invariant db Hreach) as (Hdeps & _ & _).
  rewrite (list_departments_seeded db Hdeps) in Hlist. injection Hlist as <-.
  rewrite map_map. cbn [DepartmentResponse.employee_count]. unfold live_count.
  rewrite <- (length_map Employee.department_id (employees db)).
  rewrite <- (map_map Department.id
                (fun k => Z.of_nat (count_occ Z.eq_dec
                                      (map Employee.department_id (employees db)) k))).
  apply sum_count_occ.
  - rewrite Hdeps. vm_compute. repeat constructor; cbn; lia.
  - intros k Hk. apply in_map_iff in Hk as (e & <- & He).
    destruct (reachable_rows_well_formed db Hreach e He) as [_ (d & Hd & Hid)].
    apply in_map_iff. exists d. auto.
Qed.

(** X17. The status codes each route can answer: POST 201, 404, 409, 422 or
    500; PUT 200, 404, 409, 422 or 500; the listing 200, 422 or 500; the
    department listing 200 or 500, and 200 in every reachable state; and,
    for an id that SQLite can hold, GET by id 200, 404 or 500 and DELETE 204
    or 404 only. *)
Theorem handler_status_codes :
  forall db now,
    (forall body,
        In (status (fst (create_employee EmailStr body now db))) [201; 404; 409; 422; 500])
    /\ (forall employee_id,
          sqlite_int employee_id = true ->
          In (status (get_employee EmailStr employee_id db)) [200; 404; 500])
    /\ (forall employee_id body,
          In (status (fst (update_employee EmailStr employee_id body now db)))
            [200; 404; 409; 422; 500])
    /\ (forall employee_id,
          sqlite_int employee_id = true ->
          In (status (fst (delete_employee employee_id db))) [204; 404])
    /\ (forall page page_size department_id is_active search,
          In (status (list_employees EmailStr page page_size department_id is_active
                        search db))
            [200; 422; 500])
    /\ In (status (list_departments db)) [200; 500]
    /\ (reachable EmailStr db -> status (list_departments db) = 200).
Proof.
  intros db now. split; [|split; [|split; [|split; [|split; [|split]]]]].
  - intros body. unfold create_employee.
    destruct (EmployeeCreate_validate EmailStr body) as [employee|]; [|cbn; tauto].
    destruct (first (filter _ (employees db))); [cbn; tauto|].
    destruct (sqlite_int (EmployeeCreate.department_id employee)); [|cbn; tauto].
    cbn [negb].
    destruct (first (filter _ (departments db))); [|cbn; tauto].
    destruct (insert_employee employee now db) as [[row db1]|]; [|cbn; tauto].
    destruct (refresh _ db1) as [row'|]; [|cbn; tauto].
    destruct (EmployeeResponse_model_validate EmailStr row'); cbn; tauto.
  - intros employee_id Hi. unfold get_employee. rewrite Hi. cbn [negb].
    destruct (first (filter _ (employees db))) as [row|]; [|cbn; tauto].
    destruct (EmployeeResponse_model_validate EmailStr row); cbn; tauto.
  - intros employee_id body.
    destruct (EmployeeUpdate_validate EmailStr body) as [updates|] eqn:Hv;
      [|unfold update_employee; rewrite Hv; cbn; tauto].
    destruct (sqlite_int employee_id) eqn:Hi;
      [|unfold update_employee; rewrite Hv, Hi; cbn; tauto].
    destruct (first (filter (fun e => (Employee.id e =? employee_id)%Z) (employees db)))
      as [employee|] eqn:Hf;
      [|unfold update_employee; rewrite Hv, Hi, Hf; cbn; tauto].
    rewrite (update_employee_found _ _ _ _ _ _ Hv Hi Hf).
    destruct (department_check updates db) as [raised|] eqn:Ed.
    { apply department_check_Some in Ed as [->|[detail ->]]; cbn; tauto. }
    destruct (email_check employee_id updates db) as [raised|] eqn:Ee.
    { apply email_check_Some in Ee as [detail ->]. cbn. tauto. }
    destruct (commit_update _ _ _ _) as [db1|]; [|cbn; tauto].
    destruct (refresh _ db1) as [row|]; [|cbn; tauto].
    destruct (EmployeeResponse_model_validate EmailStr row); cbn; tauto.
  - intros employee_id Hi. unfold delete_employee. rewrite Hi. cbn [negb].
    destruct (first (filter _ (employees db))); cbn; tauto.
  - intros page page_size department_id is_active search. rewrite list_employees_unfold.
    destruct (negb _); [cbn; tauto|].
    destruct (negb _); [cbn; tauto|].
    destruct (negb _); [cbn; tauto|]. cbv zeta.
    destruct (traverse _ _); cbn; tauto.
  - unfold list_departments. destruct (traverse _ _); cbn; tauto.
  - intros Hreach. destruct (reachable_store_invariant db Hreach) as (Hdeps & _ & _).
    rewrite (list_departments_seeded db Hdeps). reflexivity.
Qed.

(** X18. What the mutating routes leave alone, whatever they answer: none
    changes the department table; POST only appends, at most one row; PUT
    keeps the ids of the table in place and does not touch the rows with
    another id; DELETE keeps exactly the rows with another id, and every
    row when the id is not one SQLite can hold. *)
Theorem mutations_frame :
  forall db now,
    (forall body,
        departments (snd (create_employee EmailStr body now db)) = departments db
        /\ exists added,
             employees (snd (create_employee EmailStr body now db))
             = employees db ++ added
             /\ (List.length added <= 1)%nat)
    /\ (forall employee_id body,
          departments (snd (update_employee EmailStr employee_id body now db))
          = departments db
          /\ map Employee.id (employees (snd (update_employee EmailStr employee_id body
                                                now db)))
             = map Employee.id (employees db)
          /\ forall e,
               In e (employees db) -> Employee.id e <> employee_id ->
               In e (employees (snd (update_employee EmailStr employee_id body now db))))
    /\ (forall employee_id,
          departments (snd (delete_employee employee_id db)) = departments db
          /\ forall e,
               In e (employees (snd (delete_employee employee_id db)))
               <-> In e (employees db)
                   /\ (Employee.id e <> employee_id \/ sqlite_int employee_id = false)).
Proof.
  intros db now. split; [|split].
  - intros body.
    destruct (create_employee_snd body now db) as [->|(employee & row & _ & _ & Hi)].
    + split; [reflexivity|]. exists []. rewrite app_nil_r. split; [reflexivity|cbn; lia].
    + apply insert_employee_Some in Hi as (-> & _). cbn [departments employees].
      split; [reflexivity|]. exists [row]. split; [reflexivity|cbn; lia].
  - intros employee_id body.
    destruct (update_employee_snd employee_id body now db)
      as [->|(updates & employee & _ & Hin & Hid & Hc)]; [auto|].
    apply commit_update_Some in Hc as [->|(row & _ & Hrow & _ & ->)]; [auto|].
    apply updated_row_id in Hrow. rewrite setattr_items_id in Hrow. cbn in Hrow.
    cbn [departments employees]. split; [reflexivity|].
    split; [apply map_key_replace; exact Hrow|].
    intros e He Hne. apply in_map_iff. exists e. split; [|exact He].
    destruct (Z.eqb_spec (Employee.id e) (Employee.id employee)); [congruence|reflexivity].
  - intros employee_id. unfold delete_employee.
    destruct (sqlite_int employee_id) eqn:Hi; cbn [negb].
    2:{ cbn [snd]. split; [reflexivity|]. intros e. tauto. }
    destruct (first (filter _ (employees db))) as [employee|] eqn:Hf.
    + apply first_filter_id in Hf as [_ Hid]. cbn [snd commit_delete departments employees].
      split; [reflexivity|]. intros e. rewrite filter_In, negb_true_iff, Z.eqb_neq, Hid.
      split; [tauto|]. intros [He [Hne|[=]]]. tauto.
    + cbn [snd]. split; [reflexivity|]. intros e. split; [|tauto].
      intros He. split; [exact He|]. left. apply (proj1 (no_row_iff _ _) Hf). exact He.
Qed.

(** X19. Deleting the employee a POST has just created gives back the store
    the POST started from, row for row. *)
Theorem delete_after_create :
  forall body now db r db',
    create_employee EmailStr body now db = (Returned 201 r, db') ->
    delete_employee (EmployeeResponse.id r) db' = (Returned 204 tt, db).
Proof.
  intros body now db r db' Hc.
  apply create_employee_Returned in Hc as (_ & employee & row & _ & Hi & Hv).
  pose proof (insert_employee_rowid _ _ _ _ _ Hi) as Hint.
  pose proof (insert_employee_Some _ _ _ _ _ Hi) as (-> & _ & Hrow).
  apply EmployeeResponse_model_validate_Some in Hv as (-> & _).
  rewrite delete_inserted by (first [exact Hint|rewrite Hrow; reflexivity]).
  destruct db; reflexivity.
Qed.


End Properties.

(** * Worked examples on the sample store *)

Lemma reachable_one_employee : reachable sample_EmailStr one_employee.
Proof. unfold one_employee, post. apply reachable_create, reachable_lifespan. Qed.

Lemma reachable_five_employees : reachable sample_EmailStr five_employees.
Proof.
  unfold five_employees, post. repeat apply reachable_create. apply reachable_lifespan.
Qed.

Lemma reachable_null_is_active_store : reachable sample_EmailStr null_is_active_store.
Proof.
  unfold null_is_active_store, null_is_active_put.
  apply reachable_update, reachable_one_employee.
Qed.

Example like_wildcards :
  like "%a_c%" "xxabcxx" = true /\ like "%a_c%" "xxacxx" = false /\
  ilike "Alice" "%ALICE%" = true /\ str_int 999 = "999".
Proof. repeat split; reflexivity. Qed.

(** The listing tests of the repository, replayed on the model. *)
Example listing_tests :
  (exists r,
      list_employees sample_EmailStr 1 2 None None None five_employees = Returned 200 r
      /\ map EmployeeResponse.id (EmployeeListResponse.items r) = [1; 2]
      /\ EmployeeListResponse.total r = 5
      /\ EmployeeListResponse.total_pages r = 3)
  /\ (exists r,
        list_employees sample_EmailStr 3 2 None None None five_employees = Returned 200 r
        /\ map EmployeeResponse.id (EmployeeListResponse.items r) = [5])
  /\ (exists r,
        list_employees sample_EmailStr 1 20 None (Some false) None five_employees
        = Returned 200 r
        /\ map EmployeeResponse.first_name (EmployeeListResponse.items r) = ["David"]
        /\ EmployeeListResponse.total r = 1)
  /\ (exists r,
        list_employees sample_EmailStr 1 20 None None (Some "ALICE") five_employees
        = Returned 200 r
        /\ EmployeeListResponse.total r = 1)
  /\ list_employees sample_EmailStr 0 20 None None None five_employees
     = RequestValidationError
  /\ list_employees sample_EmailStr 1 101 None None None five_employees
     = RequestValidationError.
Proof.
  repeat split; try (eexists; split; [vm_compute; reflexivity|repeat split]);
    vm_compute; reflexivity.
Qed.

(** A non-empty search does change the listing, so C9 is about emptiness. *)
Example list_employees_search_applies :
  list_employees sample_EmailStr 1 20 None None (Some "zzzznotfound") five_employees
  <> list_employees sample_EmailStr 1 20 None None None five_employees.
Proof. vm_compute. discriminate. Qed.

(** An id, a department id or an offset of [2 ^ 63] cannot be bound to a
    statement: the request is answered 500 and nothing is written. *)
Example sqlite_integer_overflow :
  get_employee sample_EmailStr (2 ^ 63) one_employee = InternalServerError
  /\ delete_employee (2 ^ 63) one_employee = (InternalServerError, one_employee)
  /\ update_employee sample_EmailStr (2 ^ 63) no_fields 200 one_employee
     = (InternalServerError, one_employee)
  /\ create_employee sample_EmailStr
       (employee_body "New" "User" "new@company.com" (2 ^ 63) "Dev"
          (Decimal.Finite 5000 0) Unset) 200 one_employee
     = (InternalServerError, one_employee)
  /\ list_employees sample_EmailStr 1 20 (Some (2 ^ 63)) None None one_employee
     = InternalServerError
  /\ get_employee sample_EmailStr (2 ^ 63 - 1) one_employee
     = HTTPException 404 "Employee 9223372036854775807 not found".
Proof. repeat split; vm_compute; reflexivity. Qed.

(** A salary is stored as a float and read back with two decimal places:
    [5000] comes back as [5000.00], [7500.5] as [7500.50], and
    [90071992547409.93], which no float holds, as [90071992547409.94]; a
    salary with three decimal places is refused. *)
Example salary_round_trip :
  to_decimal (to_float (Decimal.Finite 5000 0)) = Decimal.Finite 500000 (-2)
  /\ to_decimal (to_float (Decimal.Finite 75005 (-1))) = Decimal.Finite 750050 (-2)
  /\ to_decimal (to_float (Decimal.Finite 9007199254740993 (-2)))
     = Decimal.Finite 9007199254740994 (-2)
  /\ salary_field (Decimal.Finite 10123 (-3)) = None
  /\ salary_field (Decimal.Finite 10120 (-3)) = Some (Decimal.Finite 10120 (-3))
  /\ Decimal.str (Decimal.Finite 500000 (-2)) = "5000.00".
Proof. repeat split; vm_compute; reflexivity. Qed.

(** ** C1 *)



(** ** C2 *)



(** ** C3 *)

Lemma create_employee_check_order_witness :
  EmployeeCreate_validate sample_EmailStr duplicate_email_missing_department
  = Some (EmployeeCreate.mk "Dup" "User" "update@company.com" 999 "Dev"
            (Decimal.Finite 5000 0) true)
  /\ email_taken "update@company.com" one_employee
  /\ ~ email_taken "new@company.com" one_employee
  /\ sqlite_int 999 = true
  /\ ~ department_exists 999 one_employee
  /\ status (fst (create_employee sample_EmailStr duplicate_email_missing_department
                    101 one_employee)) = 409
  /\ status (fst (create_employee sample_EmailStr free_email_missing_department
                    101 one_employee)) = 404.
Proof.
  assert (Hv : EmployeeCreate_validate sample_EmailStr duplicate_email_missing_department
               = Some (EmployeeCreate.mk "Dup" "User" "update@company.com" 999 "Dev"
                         (Decimal.Finite 5000 0) true)) by (vm_compute; reflexivity).
  assert (Hv' : EmployeeCreate_validate sample_EmailStr free_email_missing_department
                = Some (EmployeeCreate.mk "New" "User" "new@company.com" 999 "Dev"
                          (Decimal.Finite 5000 0) true)) by (vm_compute; reflexivity).
  assert (Ht : email_taken "update@company.com" one_employee).
  { exists update_test_row. split; [vm_compute; left; reflexivity|reflexivity]. }
  assert (Hfree : ~ email_taken "new@company.com" one_employee).
  { intros (r & Hin & He). vm_compute in Hin. destruct Hin as [<-|[]]. discriminate. }
  assert (Hd : ~ department_exists 999 one_employee).
  { intros (d & Hin & Hid). vm_compute in Hin.
    repeat (destruct Hin as [<-|Hin]; [discriminate|]). exact Hin. }
  split; [exact Hv|]. split; [exact Ht|]. split; [exact Hfree|].
  split; [reflexivity|]. split; [exact Hd|]. split.
  - exact (proj1 (proj2 (create_employee_check_order sample_EmailStr
                           duplicate_email_missing_department 101 one_employee))
             _ Hv Ht Hd).
  - exact (proj1 (proj2 (proj2 (proj2 (create_employee_check_order sample_EmailStr
                                         free_email_missing_department 101 one_employee))))
             _ Hv' Hfree eq_refl Hd).
Defined.

(** ** C4 *)



(** ** C5 *)

(** C5, the failing input.  No row of the sample store contains an
    underscore in its first name, last name or email, and none contains the
    three characters [a_i]; the listing returns all five rows for the search
    string [_] and two rows for [a_i], because the handler passes the string
    to [LIKE] without escaping its wildcards. *)
Theorem search_wildcard_matches_without_occurrence :
  forallb (fun e => negb (contains_ci (Employee.first_name e) "_"
                          || contains_ci (Employee.last_name e) "_"
                          || contains_ci (Employee.email e) "_"))
    (employees five_employees) = true
  /\ forallb (fun e => negb (contains_ci (Employee.first_name e) "a_i"
                             || contains_ci (Employee.last_name e) "a_i"
                             || contains_ci (Employee.email e) "a_i"))
       (employees five_employees) = true
  /\ (exists r,
        list_employees sample_EmailStr 1 20 None None (Some "_") five_employees
        = Returned 200 r
        /\ EmployeeListResponse.total r = 5
        /\ map EmployeeResponse.id (EmployeeListResponse.items r) = [1; 2; 3; 4; 5])
  /\ (exists r,
        list_employees sample_EmailStr 1 20 None None (Some "a_i") five_employees
        = Returned 200 r
        /\ EmployeeListResponse.total r = 2
        /\ map EmployeeResponse.first_name (EmployeeListResponse.items r)
           = ["Alice"; "David"]).
Proof.
  split; [vm_compute; reflexivity|]. split; [vm_compute; reflexivity|].
  split; eexists; (split; [vm_compute; reflexivity|split; reflexivity]).
Qed.

(** ** C6 *)


(** ** C7 *)

(** The requests the API refuses with a client error do leave the store as
    it was. *)
Example client_error_leaves_store_example :
  rejected (fst (create_employee sample_EmailStr duplicate_email_missing_department
                   101 one_employee))
  /\ snd (create_employee sample_EmailStr duplicate_email_missing_department
            101 one_employee) = one_employee
  /\ List.length (filter (fun e => String.eqb (Employee.email e) "update@company.com")
                    (employees (snd (create_employee sample_EmailStr
                                       duplicate_email_missing_department
                                       101 one_employee)))) = 1%nat.
Proof.
  pose proof (client_error_leaves_store sample_EmailStr one_employee 101)
    as (Hcreate & _ & _ & Hconflict & _).
  assert (Hr : rejected (fst (create_employee sample_EmailStr
                                duplicate_email_missing_department 101 one_employee)))
    by exact I.
  split; [exact Hr|]. split; [exact (Hcreate _ Hr)|].
  assert (Ht : email_taken "update@company.com" one_employee).
  { exists update_test_row. split; [vm_compute; left; reflexivity|reflexivity]. }
  destruct (Hconflict duplicate_email_missing_department
              (EmployeeCreate.mk "Dup" "User" "update@company.com" 999 "Dev"
                 (Decimal.Finite 5000 0) true)
              ltac:(vm_compute; reflexivity) Ht) as (_ & _ & Hone).
  exact (Hone reachable_one_employee).
Qed.

(** C7, the failing input.  On the store that holds one employee, created
    at time 100, the PUT of [{"is_active": null}] at time 200 passes
    validation and both checks, is committed, and is then answered 500
    because the response schema refuses the row: the request fails and the
    store has changed.  The row now has [is_active] NULL and [updated_at]
    set, and from then on GET of the employee, every PUT on it, even an
    empty one, and every listing that holds it are answered 500. *)
Theorem failed_update_is_committed :
  EmployeeUpdate_validate sample_EmailStr null_is_active
  = Some (EmployeeUpdate.mk Unset Unset Unset Unset Unset Unset Null)
  /\ employees one_employee = [update_test_row]
  /\ Employee.is_active update_test_row = Some true
  /\ Employee.updated_at update_test_row = None
  /\ fst null_is_active_put = InternalServerError
  /\ status (fst null_is_active_put) = 500
  /\ snd null_is_active_put <> one_employee
  /\ map Employee.is_active (employees (snd null_is_active_put)) = [None]
  /\ map Employee.updated_at (employees (snd null_is_active_put)) = [Some 200]
  /\ get_employee sample_EmailStr 1 (snd null_is_active_put) = InternalServerError
  /\ update_employee sample_EmailStr 1 no_fields 300 (snd null_is_active_put)
     = (InternalServerError, snd null_is_active_put)
  /\ list_employees sample_EmailStr 1 20 None None None (snd null_is_active_put)
     = InternalServerError.
Proof.
  repeat split; try (vm_compute; reflexivity).
  vm_compute. discriminate.
Qed.

(** ** C8 *)

Lemma employee_count_is_live_witness :
  reachable sample_EmailStr lifespan
  /\ create_employee sample_EmailStr alice 1 lifespan
     = (Returned 201 alice_response, post alice 1 lifespan)
  /\ live_count (post alice 1 lifespan) 1 = live_count lifespan 1 + 1
  /\ exists db'',
       delete_employee 1 (post alice 1 lifespan) = (Returned 204 tt, db'')
       /\ forall any, live_count db'' any = live_count lifespan any.
Proof.
  assert (Hc : create_employee sample_EmailStr alice 1 lifespan
               = (Returned 201 alice_response, post alice 1 lifespan))
    by (vm_compute; reflexivity).
  pose proof (employee_count_is_live sample_EmailStr lifespan
                (reachable_lifespan sample_EmailStr)) as (_ & _ & Hcreate).
  destruct (Hcreate alice 1 alice_response (post alice 1 lifespan) Hc)
    as (Hplus & _ & Hdelete).
  split; [apply reachable_lifespan|]. split; [exact Hc|]. split; [exact Hplus|].
  exact Hdelete.
Defined.

(** ** C10 *)

(** C10, counterexample.  A [null] for [department_id] passes validation and
    is kept in the update data, yet it is answered 404 and nothing is
    written; a [null] for [first_name] is assigned to the instance but the
    commit is refused, and the stored row keeps its name. *)
Lemma null_department_id_is_not_written :
  (exists updates,
      EmployeeUpdate_validate sample_EmailStr null_department_id = Some updates
      /\ get "department_id" (model_dump_exclude_unset updates) = Some VNone)
  /\ update_employee sample_EmailStr 1 null_department_id 200 one_employee
     = (HTTPException 404 "Department None not found", one_employee)
  /\ update_employee sample_EmailStr 1 null_first_name 200 one_employee
     = (InternalServerError, one_employee)
  /\ employees one_employee = [update_test_row].
Proof.
  split; [eexists; split; reflexivity|].
  repeat split; vm_compute; reflexivity.
Qed.

Lemma update_employee_explicit_null_witness :
  EmployeeUpdate_validate sample_EmailStr null_is_active
  = Some (EmployeeUpdate.mk Unset Unset Unset Unset Unset Unset Null)
  /\ Body.is_active null_is_active = Null
  /\ sqlite_store one_employee
  /\ (exists row,
        refresh 1 (snd (update_employee sample_EmailStr 1 null_is_active 200 one_employee))
        = Some row
        /\ Employee.is_active row = None)
  /\ update_employee sample_EmailStr 1 null_department_id 200 one_employee
     = (HTTPException 404 "Department None not found", one_employee).
Proof.
  pose proof (update_employee_explicit_null sample_EmailStr 1 null_is_active 200 one_employee)
    as (_ & Hactive).
  pose proof (update_employee_explicit_null sample_EmailStr 1 null_department_id 200
                one_employee) as (_ & Hdept).
  assert (Hf : first (filter (fun e => (Employee.id e =? 1)%Z) (employees one_employee))
               = Some update_test_row) by (vm_compute; reflexivity).
  assert (Hstore : sqlite_store one_employee) by (vm_compute; reflexivity).
  split; [reflexivity|]. split; [reflexivity|]. split; [exact Hstore|]. split.
  - destruct (Hactive _ eq_refl) as (_ & _ & Hrow).
    destruct (Hrow update_test_row Hstore Hf) as (_ & Hnull).
    apply Hnull; [reflexivity| |exact I|exact I].
    intros key Hkey. vm_compute in Hkey. destruct Hkey as [<-|[]]. reflexivity.
  - destruct (Hdept (EmployeeUpdate.mk Unset Unset Unset Null Unset Unset Unset) eq_refl)
      as (_ & _ & Hrow).
    destruct (Hrow update_test_row Hstore Hf) as (H404 & _).
    apply H404. reflexivity.
Defined.

(** * Worked examples for the further properties *)

Lemma create_alice :
  create_employee sample_EmailStr alice 1 lifespan
  = (Returned 201 alice_response, post alice 1 lifespan).
Proof. vm_compute. reflexivity. Qed.

Lemma first_update_test :
  first (filter (fun e => (Employee.id e =? 1)%Z) (employees one_employee))
  = Some update_test_row.
Proof. vm_compute. reflexivity. Qed.

Lemma get_employee_after_create_witness :
  create_employee sample_EmailStr alice 1 lifespan
  = (Returned 201 alice_response, post alice 1 lifespan)
  /\ get_employee sample_EmailStr 1 (post alice 1 lifespan) = Returned 200 alice_response.
Proof.
  split; [exact create_alice|].
  exact (get_employee_after_create sample_EmailStr alice 1 lifespan alice_response
           (post alice 1 lifespan) create_alice).
Defined.

Lemma missing_employee_is_404_witness :
  sqlite_int 99999 = true
  /\ (forall e, In e (employees one_employee) -> Employee.id e <> 99999)
  /\ get_employee sample_EmailStr 99999 one_employee
     = HTTPException 404 "Employee 99999 not found"
  /\ delete_employee 99999 one_employee
     = (HTTPException 404 "Employee 99999 not found", one_employee)
  /\ update_employee sample_EmailStr 99999 (position_only "Ghost") 200 one_employee
     = (HTTPException 404 "Employee 99999 not found", one_employee)
  /\ get_employee sample_EmailStr (2 ^ 63) one_employee
     <> HTTPException 404 (employee_not_found (2 ^ 63)).
Proof.
  assert (Hnone : forall e, In e (employees one_employee) -> Employee.id e <> 99999).
  { intros e He. vm_compute in He. destruct He as [<-|[]]. discriminate. }
  pose proof (missing_employee_is_404 sample_EmailStr 99999 200 one_employee)
    as (Hget & Hdelete & Hput).
  split; [reflexivity|]. split; [exact Hnone|].
  split; [exact (proj2 Hget (conj eq_refl Hnone))|].
  split; [exact (proj2 Hdelete (conj eq_refl Hnone))|].
  split; [apply (Hput eq_refl Hnone); discriminate|].
  intros H.
  apply (proj1 (missing_employee_is_404 sample_EmailStr (2 ^ 63) 200 one_employee)) in H.
  destruct H as [H _]. discriminate H.
Defined.

Lemma delete_employee_removes_witness :
  sqlite_int 1 = true
  /\ (exists e, In e (employees one_employee) /\ Employee.id e = 1)
  /\ exists db',
       delete_employee 1 one_employee = (Returned 204 tt, db')
       /\ get_employee sample_EmailStr 1 db' = HTTPException 404 (employee_not_found 1)
       /\ delete_employee 1 db' = (HTTPException 404 (employee_not_found 1), db').
Proof.
  assert (Hex : exists e, In e (employees one_employee) /\ Employee.id e = 1).
  { exists update_test_row. split; [vm_compute; left; reflexivity|reflexivity]. }
  split; [reflexivity|]. split; [exact Hex|].
  destruct (delete_employee_removes sample_EmailStr 1 one_employee eq_refl Hex)
    as (db' & Hdel & Hget & Hagain & _).
  exists db'. split; [exact Hdel|]. split; [exact Hget|exact Hagain].
Defined.

Lemma update_employee_check_order_witness :
  EmployeeUpdate_validate sample_EmailStr empty_first_name = None
  /\ update_employee sample_EmailStr 99999 empty_first_name 200 one_employee
     = (RequestValidationError, one_employee)
  /\ update_employee sample_EmailStr 99999 (department_only 999) 200 one_employee
     = (HTTPException 404 "Employee 99999 not found", one_employee)
  /\ update_employee sample_EmailStr 1
       (Body.mk Unset Unset (Value "bob@co.com") (Value 999) Unset Unset Unset)
       200 five_employees
     = (HTTPException 404 "Department 999 not found", five_employees).
Proof.
  split; [reflexivity|]. split; [|split].
  - apply (proj1 (update_employee_check_order sample_EmailStr 99999 empty_first_name 200
                    one_employee)).
    reflexivity.
  - destruct (proj2 (update_employee_check_order sample_EmailStr 99999 (department_only 999)
                       200 one_employee) _ eq_refl) as [Hmissing _].
    apply (Hmissing eq_refl).
    intros e He. vm_compute in He. destruct He as [<-|[]]. discriminate.
  - destruct (proj2 (update_employee_check_order sample_EmailStr 1
                       (Body.mk Unset Unset (Value "bob@co.com") (Value 999) Unset Unset
                          Unset)
                       200 five_employees) _ eq_refl) as [_ Hfound].
    destruct (Hfound alice_row eq_refl ltac:(vm_compute; reflexivity)) as [Hdept _].
    apply (Hdept 999 eq_refl eq_refl).
    intros (d & Hin & Hid). vm_compute in Hin.
    repeat (destruct Hin as [<-|Hin]; [discriminate|]). exact Hin.
Defined.

Lemma update_employee_merge_patch_witness :
  EmployeeUpdate_validate sample_EmailStr (position_only "Lead")
  = Some (EmployeeUpdate.mk Unset Unset Unset Unset (Value "Lead") Unset Unset)
  /\ first (filter (fun e => (Employee.id e =? 1)%Z) (employees one_employee))
     = Some update_test_row
  /\ exists r db',
       update_employee sample_EmailStr 1 (position_only "Lead") 200 one_employee
       = (Returned 200 r, db')
       /\ EmployeeResponse.position r = "Lead"%string
       /\ EmployeeResponse.first_name r = "Update"%string
       /\ EmployeeResponse.salary r = Decimal.Finite 500000 (-2)
       /\ get_employee sample_EmailStr 1 db' = Returned 200 r.
Proof.
  split; [reflexivity|]. split; [exact first_update_test|].
  destruct (update_employee sample_EmailStr 1 (position_only "Lead") 200 one_employee)
    as [res db'] eqn:Hu.
  assert (Hres : exists r, res = Returned 200 r)
    by (vm_compute in Hu; injection Hu as <- _; eexists; reflexivity).
  destruct Hres as [r ->]. exists r, db'. split; [reflexivity|].
  destruct (update_employee_merge_patch sample_EmailStr 1 (position_only "Lead") 200
              one_employee
              (EmployeeUpdate.mk Unset Unset Unset Unset (Value "Lead") Unset Unset)
              update_test_row r db' eq_refl first_update_test Hu)
    as (_ & _ & Hfn & _ & _ & _ & Hps & Hsalary & _ & _ & _ & Hget & _).
  split; [exact Hps|]. split; [exact Hfn|]. split; [|exact Hget].
  rewrite Hsalary. vm_compute. reflexivity.
Defined.

(** A salary given with one decimal place comes back with two. *)
Example update_employee_salary :
  exists r db',
    update_employee sample_EmailStr 1 (salary_only (Decimal.Finite 75005 (-1))) 200
      one_employee
    = (Returned 200 r, db')
    /\ EmployeeResponse.salary r = Decimal.Finite 750050 (-2)
    /\ Decimal.str (EmployeeResponse.salary r) = "7500.50"%string.
Proof.
  destruct (update_employee sample_EmailStr 1 (salary_only (Decimal.Finite 75005 (-1))) 200
              one_employee) as [res db'] eqn:Hu.
  assert (Hres : exists r, res = Returned 200 r)
    by (vm_compute in Hu; injection Hu as <- _; eexists; reflexivity).
  destruct Hres as [r ->]. exists r, db'. split; [reflexivity|].
  destruct (update_employee_merge_patch sample_EmailStr 1
              (salary_only (Decimal.Finite 75005 (-1))) 200 one_employee
              (EmployeeUpdate.mk Unset Unset Unset Unset Unset
                 (Value (Decimal.Finite 75005 (-1))) Unset)
              update_test_row r db' eq_refl first_update_test Hu)
    as (_ & _ & _ & _ & _ & _ & _ & _ & Hexact & _).
  rewrite (Hexact 75005 (-1) eq_refl ltac:(lia) ltac:(vm_compute; reflexivity)).
  split; vm_compute; reflexivity.
Qed.

Lemma create_employee_created_witness :
  create_employee sample_EmailStr alice 1 lifespan
  = (Returned 201 alice_response, post alice 1 lifespan)
  /\ Body.first_name alice = Value (EmployeeResponse.first_name alice_response)
  /\ Body.salary alice = Value (Decimal.Finite 8000 0)
  /\ EmployeeResponse.salary alice_response = Decimal.Finite 800000 (-2)
  /\ EmployeeResponse.created_at alice_response = 1
  /\ EmployeeResponse.updated_at alice_response = None.
Proof.
  split; [exact create_alice|].
  destruct (create_employee_created sample_EmailStr alice 1 lifespan alice_response
              (post alice 1 lifespan) create_alice)
    as (Hfn & _ & _ & _ & _ & _ & Hexact & _ & Hcr & Hup & _).
  split; [exact Hfn|]. split; [reflexivity|].
  split; [|split; [exact Hcr|exact Hup]].
  exact (Hexact 8000 0 eq_refl ltac:(lia) ltac:(vm_compute; reflexivity)).
Defined.

Lemma in_bob_row : In bob_row (employees five_employees).
Proof. vm_compute. right. left. reflexivity. Qed.

Lemma reachable_referential_integrity_witness :
  reachable sample_EmailStr five_employees
  /\ In bob_row (employees five_employees)
  /\ exists d,
       In d (departments five_employees)
       /\ Department.id d = Employee.department_id bob_row.
Proof.
  split; [exact reachable_five_employees|]. split; [exact in_bob_row|].
  exact (proj2 (reachable_referential_integrity sample_EmailStr five_employees
                  reachable_five_employees) bob_row in_bob_row).
Defined.

Lemma reachable_unique_keys_witness :
  reachable sample_EmailStr five_employees
  /\ In bob_row (employees five_employees)
  /\ (Employee.email bob_row = Employee.email bob_row -> bob_row = bob_row).
Proof.
  split; [exact reachable_five_employees|]. split; [exact in_bob_row|].
  exact (proj2 (reachable_unique_keys sample_EmailStr five_employees
                  reachable_five_employees bob_row bob_row in_bob_row in_bob_row)).
Defined.

Lemma reachable_row_constraints_witness :
  reachable sample_EmailStr five_employees
  /\ In bob_row (employees five_employees)
  /\ 1 <= Employee.department_id bob_row
  /\ exists c x,
       salary_field (Decimal.Finite c x) = Some (Decimal.Finite c x)
       /\ 0 < c
       /\ Employee.salary bob_row = to_float (Decimal.Finite c x).
Proof.
  split; [exact reachable_five_employees|]. split; [exact in_bob_row|].
  destruct (reachable_row_constraints sample_EmailStr five_employees
              reachable_five_employees bob_row in_bob_row)
    as (_ & _ & _ & Hdept & Hsalary & _).
  split; [exact Hdept|exact Hsalary].
Defined.

Lemma list_employees_items_witness :
  exists r,
    list_employees sample_EmailStr 1 2 (Some 1) (Some true) None five_employees
    = Returned 200 r
    /\ Z.of_nat (List.length (EmployeeListResponse.items r)) = 2
    /\ Forall (fun item => EmployeeResponse.department_id item = 1)
         (EmployeeListResponse.items r).
Proof.
  assert (Hl : exists r,
             list_employees sample_EmailStr 1 2 (Some 1) (Some true) None five_employees
             = Returned 200 r) by (vm_compute; eexists; reflexivity).
  destruct Hl as [r Hl]. exists r. split; [exact Hl|].
  destruct (list_employees_items sample_EmailStr 1 2 (Some 1) (Some true) None
              five_employees r Hl) as (_ & Hall & Hlen & _).
  assert (Ht : EmployeeListResponse.total r = 2)
    by (vm_compute in Hl; injection Hl as <-; reflexivity).
  split; [rewrite Hlen, Ht; reflexivity|].
  apply (Forall_impl _ (fun item H => proj1 H 1 eq_refl) Hall).
Defined.

Lemma list_employees_pages_partition_witness :
  1 <= 2 <= 100
  /\ List.concat (map (fun p => page_window p 2 (employees five_employees)) (pages 3))
     = employees five_employees.
Proof.
  split; [lia|].
  pose proof (proj1 (list_employees_pages_partition sample_EmailStr 2 None None None
                       five_employees ltac:(lia))) as H.
  vm_compute in H |- *. exact H.
Defined.

Lemma list_employees_search_case_insensitive_witness :
  lower "ALICE" = lower "alice"
  /\ list_employees sample_EmailStr 1 20 None None (Some "ALICE") five_employees
     = list_employees sample_EmailStr 1 20 None None (Some "alice") five_employees.
Proof.
  split; [reflexivity|].
  apply list_employees_search_case_insensitive. reflexivity.
Defined.


Lemma employee_counts_add_up_witness :
  reachable sample_EmailStr five_employees
  /\ exists body,
       list_departments five_employees = Returned 200 body
       /\ sum (map DepartmentResponse.employee_count body) = 5.
Proof.
  split; [exact reachable_five_employees|].
  assert (Hl : exists body, list_departments five_employees = Returned 200 body)
    by (vm_compute; eexists; reflexivity).
  destruct Hl as [body Hl]. exists body. split; [exact Hl|].
  rewrite (employee_counts_add_up sample_EmailStr five_employees body
             reachable_five_employees Hl).
  vm_compute. reflexivity.
Defined.

Lemma delete_after_create_witness :
  create_employee sample_EmailStr alice 1 lifespan
  = (Returned 201 alice_response, post alice 1 lifespan)
  /\ delete_employee 1 (post alice 1 lifespan) = (Returned 204 tt, lifespan).
Proof.
  split; [exact create_alice|].
  exact (delete_after_create sample_EmailStr alice 1 lifespan alice_response
           (post alice 1 lifespan) create_alice).
Defined.

